(** * NewsApp recommendation training pipeline (ml_training/train_model.py)

    A shallow embedding of the training script: score aggregation, the
    user x article pivot, the rank clamp in front of the truncated SVD, the
    model document and the top-level [main] with its exit codes.

    Conventions of the embedding.
    - Python [int] is [Z]; in the pipeline model Python [float] is idealised
      as exact rational arithmetic [Q], compared with [==] ([Qeq]). The
      score loops are also given in IEEE double precision, with the
      [OverflowError] of an integer that does not fit a double, in the
      module [Doubles].
    - A Python [dict] is an insertion-ordered association list ([Dict]).
    - [print], the Firestore document write and raised exceptions are
      threaded through a state-and-exception monad [M] over a [World].
    - pandas, scikit-learn, the clock and Firestore are collaborators: the
      pivot is modelled from pandas' documented behaviour, the SVD solver,
      the clock and the store are fields of an environment record. *)

From Stdlib Require Import List String ZArith QArith Qminmax Qabs Lia Bool Permutation Sorting.Sorted.
From Stdlib Require SpecFloat.
Import ListNotations.
Local Open Scope Q_scope.

(** ** Insertion-ordered dictionaries *)

Module Dict.
Section WithKey.
Context {K V : Type}.
Variable eq_dec : forall x y : K, {x = y} + {x <> y}.

Definition t : Type := list (K * V).

Definition empty : t := [].

(** [d.get(k, default)] *)
Fixpoint get (k : K) (default : V) (d : t) : V :=
  match d with
  | [] => default
  | (k', v) :: d' => if eq_dec k k' then v else get k default d'
  end.

(** [d[k] = v]: an existing key keeps its position, a new key goes last. *)
Fixpoint set (k : K) (v : V) (d : t) : t :=
  match d with
  | [] => [(k, v)]
  | (k', v') :: d' =>
      if eq_dec k k' then (k', v) :: d' else (k', v') :: set k v d'
  end.

Definition keys (d : t) : list K := map fst d.
Definition values (d : t) : list V := map snd d.
Definition items (d : t) : list (K * V) := d.

End WithKey.
End Dict.

(** ** Data model *)

(** One record of [fetch_user_interactions]' result list. *)
Record Interaction := {
  i_user_id : string;
  i_article_id : string;
  click_count : Z;
  time_spent : Q;
  is_bookmarked : bool;
  i_category : string
}.

(** One record of [fetch_bookmarks]' result list. *)
Record Bookmark := {
  b_user_id : string;
  b_article_id : string;
  b_category : string
}.

(** One record of [fetch_user_preferences]' result list. *)
Record Preference := {
  p_user_id : string;
  category_scores : Dict.t (K := string) (V := Q);
  total_interactions : Z
}.

Definition Key : Type := (string * string)%type.

Definition key_eq_dec : forall x y : Key, {x = y} + {x <> y}.
Proof. decide equality; apply string_dec. Defined.

Definition Scores : Type := Dict.t (K := Key) (V := Q).

(** ** Score aggregation (first half of [build_interaction_matrix]) *)

Definition interaction_key (i : Interaction) : Key := (i_user_id i, i_article_id i).
Definition bookmark_key (b : Bookmark) : Key := (b_user_id b, b_article_id b).

(** Score formula: clicks + bookmark*5 + reading_time/30, in exact
    arithmetic. [Doubles.interaction_score] is the same expression as the
    interpreter evaluates it, in doubles. *)
Definition interaction_score (i : Interaction) : Q :=
  inject_Z (click_count i) + (if is_bookmarked i then 5 else 0) + time_spent i / 30.

(** Body of [for interaction in interactions]. *)
Definition add_interaction (scores : Scores) (i : Interaction) : Scores :=
  let score := interaction_score i in
  let key := interaction_key i in
  Dict.set key_eq_dec key (Dict.get key_eq_dec key 0 scores + score) scores.

(** Body of [for bookmark in bookmarks]. *)
Definition add_bookmark (scores : Scores) (b : Bookmark) : Scores :=
  let key := bookmark_key b in
  Dict.set key_eq_dec key (Dict.get key_eq_dec key 0 scores + 5) scores.

(** The [scores] dictionary as it stands at the [if not scores] test. *)
Definition merge_scores (interactions : list Interaction) (bookmarks : list Bookmark) : Scores :=
  fold_left add_bookmark bookmarks (fold_left add_interaction interactions Dict.empty).

(** Sum of a list of numbers. *)
Definition Qsum (l : list Q) : Q := fold_right Qplus 0 l.

Definition key_eqb (k k' : Key) : bool := if key_eq_dec k k' then true else false.

(** ** The pivot (pandas collaborator)

    [df.pivot_table(index="user_id", columns="article_id", values="score",
    fill_value=0)] as pandas documents it: the row labels are the distinct
    [user_id]s in sorted order, the column labels the distinct [article_id]s
    in sorted order, a cell holds the mean (the default [aggfunc]) of the
    scores of the rows of [df] with that user and article, and [fill_value]
    where there is no such row. *)

Record DataFrame := {
  index : list string;
  columns : list string;
  values : list (list Q)
}.

Definition shape (m : DataFrame) : Z * Z :=
  (Z.of_nat (List.length (index m)), Z.of_nat (List.length (columns m))).

Fixpoint insert_sorted (x : string) (l : list string) : list string :=
  match l with
  | [] => [x]
  | y :: l' => if String.leb x y then x :: y :: l' else y :: insert_sorted x l'
  end.

Definition sorted (l : list string) : list string := fold_right insert_sorted [] l.

Definition sorted_unique (l : list string) : list string := sorted (nodup string_dec l).

Definition mean (l : list Q) : Q := Qsum l / inject_Z (Z.of_nat (List.length l)).

Definition pivot_cell (rows : list (Key * Q)) (fill_value : Q) (u a : string) : Q :=
  match map snd (filter (fun r => key_eqb (fst r) (u, a)) rows) with
  | [] => fill_value
  | vs => mean vs
  end.

Definition pivot_table (rows : list (Key * Q)) (fill_value : Q) : DataFrame :=
  let idx := sorted_unique (map (fun r => fst (fst r)) rows) in
  let cols := sorted_unique (map (fun r => snd (fst r)) rows) in
  {| index := idx;
     columns := cols;
     values := map (fun u => map (fun a => pivot_cell rows fill_value u a) cols) idx |}.

(** [matrix.sum().sum()]: the sum of all cells. *)
Definition matrix_sum (m : DataFrame) : Q := Qsum (map Qsum (values m)).

(** [matrix.values[i][j]] *)
Definition cell (m : DataFrame) (i j : nat) : option Q :=
  match nth_error (values m) i with
  | Some row => nth_error row j
  | None => None
  end.


(** ** The model document *)

Record UserFactors := { userId : string; u_factors : list Q }.
Record ArticleFactors := { articleId : string; a_factors : list Q }.
Record CategoryWeight := { category : string; weight : Q }.

Record TrainingStats := {
  totalUsers : Z;
  totalArticles : Z;
  totalInteractions : Z
}.

Record ModelDoc := {
  version : string;
  createdAt : string;
  algorithmType : string;
  nComponents : Z;
  trainingStats : TrainingStats;
  categoryWeights : list CategoryWeight;
  userFactors : list UserFactors;
  articleFactors : list ArticleFactors
}.

(** ** Effects: exceptions, console output and the stored document *)

Inductive exn :=
| ValueError (msg : string)
| IndexError
| OverflowError
| ExternalError (msg : string).

Inductive result (A : Type) :=
| Ok (a : A)
| Raise (e : exn).
Arguments Ok {A} a.
Arguments Raise {A} e.

(** The lines the script prints, one constructor per [print] call. *)
Inductive Line :=
| Rule | Title | Blank
| InitializingFirebase
| FetchingInteractions | FetchedInteractions (n : nat)
| FetchingPreferences | FetchedPreferences (n : nat)
| FetchingBookmarks | FetchedBookmarks (n : nat)
| NotEnoughUsers (n : nat) | NotEnoughInteractions (n : nat) | SkippingTraining
| BuildingMatrix | NoInteractionData | MatrixShape (s : Z * Z) | FailedToBuildMatrix
| TrainingSVD (n : Z) | SVDTrained
| BuildingArtifacts | ArtifactsBuilt (users articles : nat)
| Uploading (v : string) | Uploaded
| TrainingComplete (v : string) | FailedToUpload
| TrainingFailed (e : exn).

(** [ml_models]: the document ml_models/recommendation_model_v1, if any. *)
Record World := {
  ml_models : option ModelDoc;
  stdout : list Line
}.

Definition M (A : Type) : Type := World -> result A * World.

Definition ret {A} (a : A) : M A := fun w => (Ok a, w).

Definition bind {A B} (c : M A) (f : A -> M B) : M B :=
  fun w => match c w with
           | (Ok a, w') => f a w'
           | (Raise e, w') => (Raise e, w')
           end.

Definition lift {A} (r : result A) : M A := fun w => (r, w).

Definition print (l : Line) : M unit :=
  fun w => (Ok tt, {| ml_models := ml_models w; stdout := stdout w ++ [l] |}).

(** [try: c except Exception as e: h e] *)
Definition try_except {A} (c : M A) (h : exn -> M A) : M A :=
  fun w => match c w with
           | (Ok a, w') => (Ok a, w')
           | (Raise e, w') => h e w'
           end.

Declare Scope monad_scope.
Delimit Scope monad_scope with monad.
Notation "x <- c ;; k" := (bind c (fun x => k))
  (at level 61, c at next level, right associativity) : monad_scope.
Notation "' p <- c ;; k" := (bind c (fun x => match x with p => k end))
  (at level 61, p pattern, c at next level, right associativity) : monad_scope.
Notation "c ;; k" := (bind c (fun _ => k))
  (at level 61, right associativity) : monad_scope.
Local Open Scope monad_scope.

(** Exceptions in pure code. *)
Definition rbind {A B} (r : result A) (f : A -> result B) : result B :=
  match r with
  | Ok a => f a
  | Raise e => Raise e
  end.

Fixpoint mapM {A B} (f : A -> result B) (l : list A) : result (list B) :=
  match l with
  | [] => Ok []
  | x :: l' => rbind (f x) (fun y => rbind (mapM f l') (fun ys => Ok (y :: ys)))
  end.

(** [a[i]] *)
Definition getitem {A} (a : list A) (i : nat) : result A :=
  match nth_error a i with
  | Some x => Ok x
  | None => Raise IndexError
  end.

Fixpoint enumerate_from {A} (i : nat) (l : list A) : list (nat * A) :=
  match l with
  | [] => []
  | x :: l' => (i, x) :: enumerate_from (S i) l'
  end.

Definition enumerate {A} (l : list A) : list (nat * A) := enumerate_from 0 l.

(** ** Configuration *)

Definition MIN_USERS : Z := 2.
Definition MIN_INTERACTIONS : Z := 3.
Definition N_COMPONENTS : Z := 10.

(** ** Collaborators *)

Record ArticleDoc := {
  clickCount : option Z;
  timeSpentReading : option Q;
  isBookmarked : option bool;
  article_category : option string
}.

Record PreferencesDoc := {
  categoryScores : option (Dict.t (K := string) (V := Q));
  pref_totalInteractions : option Z
}.

Record BookmarkDoc := { bookmark_category : option string }.

(** The Firestore client. A collection read either yields its documents
    (per user: the user's id and the sub-collection documents) or raises;
    [ml_models_set doc] is the outcome of [doc_ref.set(doc)] on
    ml_models/recommendation_model_v1. *)
Record Firestore := {
  user_interactions : result (list (string * list (string * ArticleDoc)));
  user_preferences : result (list (string * option PreferencesDoc));
  user_bookmarks : result (list (string * list (string * BookmarkDoc)));
  ml_models_set : ModelDoc -> result unit
}.

Definition ndarray : Type := list (list Q).

(** [firebase]: the outcome of credential loading and [initialize_app].
    [TruncatedSVD n X]: scikit-learn's [TruncatedSVD(n_components=n,
    random_state=42)] fitted on [X], giving [fit_transform(X)] and
    [components_], or raising.  [now_strftime], [now_isoformat]: the clock,
    already formatted with '%Y%m%d_%H%M%S' and [isoformat()]. *)
Record Env := {
  firebase : result Firestore;
  TruncatedSVD : Z -> ndarray -> result (ndarray * ndarray);
  now_strftime : string;
  now_isoformat : string
}.

(** [data.get(field, default)] *)
Definition get_field {A} (field : option A) (default : A) : A :=
  match field with
  | Some x => x
  | None => default
  end.

(** ** Firebase initialisation and data fetching *)

(** Only the first line [init_firebase] prints is kept; which credential
    source it reports is part of the collaborator. *)
Definition init_firebase (env : Env) : M Firestore :=
  print InitializingFirebase ;;
  lift (firebase env).

(** The list [fetch_user_interactions] accumulates, with the field defaults. *)
Definition interactions_of_docs (users : list (string * list (string * ArticleDoc)))
    : list Interaction :=
  flat_map (fun user_doc =>
    map (fun article_doc =>
           let data := snd article_doc in
           {| i_user_id := fst user_doc;
              i_article_id := fst article_doc;
              click_count := get_field (clickCount data) 0%Z;
              time_spent := get_field (timeSpentReading data) 0;
              is_bookmarked := get_field (isBookmarked data) false;
              i_category := get_field (article_category data) "unknown"%string |})
        (snd user_doc)) users.

Definition fetch_user_interactions (db : Firestore) : M (list Interaction) :=
  print FetchingInteractions ;;
  users <- lift (user_interactions db) ;;
  let interactions := interactions_of_docs users in
  print (FetchedInteractions (List.length interactions)) ;;
  ret interactions.

(** The list [fetch_user_preferences] accumulates: users whose
    ml_data/preferences document exists. *)
Definition preferences_of_docs (users : list (string * option PreferencesDoc))
    : list Preference :=
  flat_map (fun user_doc =>
    match snd user_doc with
    | Some data =>
        [ {| p_user_id := fst user_doc;
             category_scores := get_field (categoryScores data) Dict.empty;
             total_interactions := get_field (pref_totalInteractions data) 0%Z |} ]
    | None => []
    end) users.

Definition fetch_user_preferences (db : Firestore) : M (list Preference) :=
  print FetchingPreferences ;;
  users <- lift (user_preferences db) ;;
  let preferences := preferences_of_docs users in
  print (FetchedPreferences (List.length preferences)) ;;
  ret preferences.

(** The list [fetch_bookmarks] accumulates. *)
Definition bookmarks_of_docs (users : list (string * list (string * BookmarkDoc)))
    : list Bookmark :=
  flat_map (fun user_doc =>
    map (fun bookmark_doc =>
           {| b_user_id := fst user_doc;
              b_article_id := fst bookmark_doc;
              b_category := get_field (bookmark_category (snd bookmark_doc)) "unknown"%string |})
        (snd user_doc)) users.

Definition fetch_bookmarks (db : Firestore) : M (list Bookmark) :=
  print FetchingBookmarks ;;
  users <- lift (user_bookmarks db) ;;
  let bookmarks := bookmarks_of_docs users in
  print (FetchedBookmarks (List.length bookmarks)) ;;
  ret bookmarks.

(** ** Data processing *)

Definition build_interaction_matrix (interactions : list Interaction)
    (bookmarks : list Bookmark) : M (option (DataFrame * list string * list string)) :=
  print BuildingMatrix ;;
  let scores := merge_scores interactions bookmarks in
  match scores with
  | [] =>
      print NoInteractionData ;;
      ret None
  | _ :: _ =>
      let df := Dict.items scores in
      let matrix := pivot_table df 0 in
      print (MatrixShape (shape matrix)) ;;
      ret (Some (matrix, index matrix, columns matrix))
  end.

(** ** Model training *)

(** The rank handed to the solver: lines 244-246 of [train_svd_model]. *)
Definition clamp_n_components (n_components : Z) (matrix : DataFrame) : Z :=
  let n_components := Z.min n_components (Z.min (fst (shape matrix)) (snd (shape matrix)) - 1) in
  if (n_components <? 1)%Z then 1%Z else n_components.

(** [a.T] of a two-dimensional array with at least one row. *)
Definition transpose (a : ndarray) : ndarray :=
  match a with
  | [] => []
  | r :: _ => map (fun j => map (fun row => nth j row 0) a) (seq 0 (List.length r))
  end.

(** The explained-variance figure is only printed; its line is kept
    without the number. *)
Definition train_svd_model (svd : Z -> ndarray -> result (ndarray * ndarray))
    (matrix : DataFrame) (n_components : Z) : M (ndarray * ndarray * Z) :=
  print (TrainingSVD n_components) ;;
  let n_components := clamp_n_components n_components matrix in
  fitted <- lift (svd n_components (values matrix)) ;;
  let user_factors := fst fitted in
  let article_factors := transpose (snd fitted) in
  print SVDTrained ;;
  ret (user_factors, article_factors, n_components).

(** ** Model export *)

Definition CategoryWeights : Type := Dict.t (K := string) (V := Q).

Definition add_category_score (category_weights : CategoryWeights) (item : string * Q)
    : CategoryWeights :=
  Dict.set string_dec (fst item)
    (Dict.get string_dec (fst item) 0 category_weights + snd item) category_weights.

Definition add_preference (category_weights : CategoryWeights) (pref : Preference)
    : CategoryWeights :=
  fold_left add_category_score (Dict.items (category_scores pref)) category_weights.

(** The accumulation loop over [preferences]. *)
Definition accumulate_category_weights (preferences : list Preference) : CategoryWeights :=
  fold_left add_preference preferences Dict.empty.

(** [max] of a non-empty sequence [x :: l]: the first of the largest items. *)
Definition max_of (x : Q) (l : list Q) : Q :=
  fold_left (fun m v => if Qle_bool v m then m else v) l x.

(** [x > 0] *)
Definition Qpositive (x : Q) : bool := negb (Qle_bool x 0).

(** The [if category_weights:] block. *)
Definition normalize_category_weights (category_weights : CategoryWeights) : CategoryWeights :=
  match Dict.values category_weights with
  | [] => category_weights
  | v :: vs =>
      let max_weight := max_of v vs in
      if Qpositive max_weight
      then map (fun kv => (fst kv, snd kv / max_weight)) (Dict.items category_weights)
      else category_weights
  end.

Definition category_weights_list (preferences : list Preference) : list CategoryWeight :=
  map (fun kv => {| category := fst kv; weight := snd kv |})
      (Dict.items (normalize_category_weights (accumulate_category_weights preferences))).

(** The loop building [user_factors_list]. *)
Definition user_factors_list_of (user_ids : list string) (user_factors : ndarray)
    : result (list UserFactors) :=
  mapM (fun iu => rbind (getitem user_factors (fst iu)) (fun row =>
          Ok {| userId := snd iu; u_factors := row |}))
       (enumerate user_ids).

(** The loop building [article_factors_list]. *)
Definition article_factors_list_of (article_ids : list string) (article_factors : ndarray)
    : result (list ArticleFactors) :=
  mapM (fun ia => rbind (getitem article_factors (fst ia)) (fun row =>
          Ok {| articleId := snd ia; a_factors := row |}))
       (enumerate article_ids).

(** The assembled [model_doc]. *)
Definition assemble_model_doc (version created_at : string) (n_components : Z)
    (user_ids article_ids : list string) (user_factors : ndarray)
    (category_weights_list : list CategoryWeight)
    (user_factors_list : list UserFactors) (article_factors_list : list ArticleFactors)
    : ModelDoc :=
  {| version := version;
     createdAt := created_at;
     algorithmType := "collaborative_filtering_svd";
     nComponents := n_components;
     trainingStats :=
       {| totalUsers := Z.of_nat (List.length user_ids);
          totalArticles := Z.of_nat (List.length article_ids);
          totalInteractions :=
            fold_right Z.add 0%Z (map (fun uf => Z.of_nat (List.length uf)) user_factors) |};
     categoryWeights := category_weights_list;
     userFactors := user_factors_list;
     articleFactors := article_factors_list |}.

Definition build_model_artifacts (env : Env) (user_ids article_ids : list string)
    (user_factors article_factors : ndarray) (n_components : Z)
    (preferences : list Preference) : M (ModelDoc * string) :=
  print BuildingArtifacts ;;
  let version := ("v" ++ now_strftime env)%string in
  let created_at := now_isoformat env in
  user_factors_list <- lift (user_factors_list_of user_ids user_factors) ;;
  article_factors_list <- lift (article_factors_list_of article_ids article_factors) ;;
  let model_doc :=
    assemble_model_doc version created_at n_components user_ids article_ids user_factors
      (category_weights_list preferences) user_factors_list article_factors_list in
  print (ArtifactsBuilt (List.length user_factors_list) (List.length article_factors_list)) ;;
  ret (model_doc, version).

(** [doc_ref.set(model_doc)]: overwrites the stored document or raises. *)
Definition doc_ref_set (db : Firestore) (model_doc : ModelDoc) : M unit :=
  fun w => match ml_models_set db model_doc with
           | Ok _ => (Ok tt, {| ml_models := Some model_doc; stdout := stdout w |})
           | Raise e => (Raise e, w)
           end.

Definition upload_model_to_firestore (db : Firestore) (model_doc : ModelDoc)
    (version : string) : M bool :=
  print (Uploading version) ;;
  doc_ref_set db model_doc ;;
  print Uploaded ;;
  ret true.

(** ** Main training pipeline *)

(** [main] from the test [if matrix is None] to the end of the [try] block. *)
Definition train_and_publish (env : Env) (db : Firestore) (preferences : list Preference)
    (built : option (DataFrame * list string * list string)) : M Z :=
  match built with
  | None =>
      print FailedToBuildMatrix ;;
      ret 1%Z
  | Some (matrix, user_ids, article_ids) =>
      trained <- train_svd_model (TruncatedSVD env) matrix N_COMPONENTS ;;
      let '(user_factors, article_factors, n_components) := trained in
      artifacts <- build_model_artifacts env user_ids article_ids
                     user_factors article_factors n_components preferences ;;
      let '(model_doc, version) := artifacts in
      success <- upload_model_to_firestore db model_doc version ;;
      if success : bool
      then print Blank ;; print Rule ;; print (TrainingComplete version) ;; print Rule ;;
           ret 0%Z
      else print FailedToUpload ;;
           ret 1%Z
  end.

(** [main] from the call of [build_interaction_matrix] to the end of the
    [try] block. *)
Definition build_and_train (env : Env) (db : Firestore) (interactions : list Interaction)
    (preferences : list Preference) (bookmarks : list Bookmark) : M Z :=
  built <- build_interaction_matrix interactions bookmarks ;;
  train_and_publish env db preferences built.

(** [main] from the minimum-requirements check on, given the fetched data. *)
Definition check_and_train (env : Env) (db : Firestore) (interactions : list Interaction)
    (preferences : list Preference) (bookmarks : list Bookmark) : M Z :=
  let user_ids := nodup string_dec (map i_user_id interactions) in
  if (Z.of_nat (List.length user_ids) <? MIN_USERS)%Z
  then print (NotEnoughUsers (List.length user_ids)) ;; print SkippingTraining ;;
       ret 0%Z
  else if (Z.of_nat (List.length interactions) <? MIN_INTERACTIONS)%Z
  then print (NotEnoughInteractions (List.length interactions)) ;; print SkippingTraining ;;
       ret 0%Z
  else build_and_train env db interactions preferences bookmarks.

Definition main (env : Env) : M Z :=
  print Rule ;; print Title ;; print Rule ;; print Blank ;;
  try_except
    (db <- init_firebase env ;;
     interactions <- fetch_user_interactions db ;;
     preferences <- fetch_user_preferences db ;;
     bookmarks <- fetch_bookmarks db ;;
     check_and_train env db interactions preferences bookmarks)
    (fun e => print (TrainingFailed e) ;; ret 1%Z).

(** ** Auxiliary definitions used in the statements *)

(** The world a run of the script starts in: nothing printed yet, [store]
    the document currently held under ml_models/recommendation_model_v1. *)
Definition initial (store : option ModelDoc) : World :=
  {| ml_models := store; stdout := [] |}.

(** [w] after printing the lines [ls]. *)
Definition emit (ls : list Line) (w : World) : World :=
  {| ml_models := ml_models w; stdout := stdout w ++ ls |}.

(** [w] after printing [ls] and, if [written] is a document, storing it. *)
Definition commit (written : option ModelDoc) (ls : list Line) (w : World) : World :=
  {| ml_models := match written with Some doc => Some doc | None => ml_models w end;
     stdout := stdout w ++ ls |}.

(** [len(user_ids)] at the minimum-requirements check. *)
Definition distinct_users (interactions : list Interaction) : nat :=
  List.length (nodup string_dec (map i_user_id interactions)).

Definition gate_passed (interactions : list Interaction) : Prop :=
  (MIN_USERS <= Z.of_nat (distinct_users interactions))%Z
  /\ (MIN_INTERACTIONS <= Z.of_nat (List.length interactions))%Z.

(** The matrix of a run, the rank it is factorised at and the document it
    assembles from the solver's output. *)
Definition run_matrix (interactions : list Interaction) (bookmarks : list Bookmark)
    : DataFrame :=
  pivot_table (Dict.items (merge_scores interactions bookmarks)) 0.

Definition run_rank (interactions : list Interaction) (bookmarks : list Bookmark) : Z :=
  clamp_n_components N_COMPONENTS (run_matrix interactions bookmarks).

Definition run_version (env : Env) : string := ("v" ++ now_strftime env)%string.

Definition run_doc (env : Env) (interactions : list Interaction)
    (preferences : list Preference) (bookmarks : list Bookmark) (user_factors : ndarray)
    (ul : list UserFactors) (al : list ArticleFactors) : ModelDoc :=
  let matrix := run_matrix interactions bookmarks in
  assemble_model_doc (run_version env) (now_isoformat env)
    (run_rank interactions bookmarks) (index matrix) (columns matrix) user_factors
    (category_weights_list preferences) ul al.

(** The paths through [check_and_train]: what it returns or raises, the
    document it stores if any, and the lines it prints. *)
Inductive pipeline_outcome (env : Env) (db : Firestore) (interactions : list Interaction)
    (preferences : list Preference) (bookmarks : list Bookmark)
    : result Z -> option ModelDoc -> list Line -> Prop :=
| skipped_users :
    (Z.of_nat (distinct_users interactions) < MIN_USERS)%Z ->
    pipeline_outcome env db interactions preferences bookmarks (Ok 0%Z) None
      [NotEnoughUsers (distinct_users interactions); SkippingTraining]
| skipped_interactions :
    (MIN_USERS <= Z.of_nat (distinct_users interactions))%Z ->
    (Z.of_nat (List.length interactions) < MIN_INTERACTIONS)%Z ->
    pipeline_outcome env db interactions preferences bookmarks (Ok 0%Z) None
      [NotEnoughInteractions (List.length interactions); SkippingTraining]
| matrix_failed :
    gate_passed interactions ->
    merge_scores interactions bookmarks = [] ->
    pipeline_outcome env db interactions preferences bookmarks (Ok 1%Z) None
      [BuildingMatrix; NoInteractionData; FailedToBuildMatrix]
| solver_raised e :
    gate_passed interactions ->
    merge_scores interactions bookmarks <> [] ->
    TruncatedSVD env (run_rank interactions bookmarks)
      (values (run_matrix interactions bookmarks)) = Raise e ->
    pipeline_outcome env db interactions preferences bookmarks (Raise e) None
      [BuildingMatrix; MatrixShape (shape (run_matrix interactions bookmarks));
       TrainingSVD N_COMPONENTS]
| user_factors_raised U C e :
    gate_passed interactions ->
    merge_scores interactions bookmarks <> [] ->
    TruncatedSVD env (run_rank interactions bookmarks)
      (values (run_matrix interactions bookmarks)) = Ok (U, C) ->
    user_factors_list_of (index (run_matrix interactions bookmarks)) U = Raise e ->
    pipeline_outcome env db interactions preferences bookmarks (Raise e) None
      [BuildingMatrix; MatrixShape (shape (run_matrix interactions bookmarks));
       TrainingSVD N_COMPONENTS; SVDTrained; BuildingArtifacts]
| article_factors_raised U C ul e :
    gate_passed interactions ->
    merge_scores interactions bookmarks <> [] ->
    TruncatedSVD env (run_rank interactions bookmarks)
      (values (run_matrix interactions bookmarks)) = Ok (U, C) ->
    user_factors_list_of (index (run_matrix interactions bookmarks)) U = Ok ul ->
    article_factors_list_of (columns (run_matrix interactions bookmarks)) (transpose C)
      = Raise e ->
    pipeline_outcome env db interactions preferences bookmarks (Raise e) None
      [BuildingMatrix; MatrixShape (shape (run_matrix interactions bookmarks));
       TrainingSVD N_COMPONENTS; SVDTrained; BuildingArtifacts]
| upload_raised U C ul al e :
    gate_passed interactions ->
    merge_scores interactions bookmarks <> [] ->
    TruncatedSVD env (run_rank interactions bookmarks)
      (values (run_matrix interactions bookmarks)) = Ok (U, C) ->
    user_factors_list_of (index (run_matrix interactions bookmarks)) U = Ok ul ->
    article_factors_list_of (columns (run_matrix interactions bookmarks)) (transpose C)
      = Ok al ->
    ml_models_set db (run_doc env interactions preferences bookmarks U ul al) = Raise e ->
    pipeline_outcome env db interactions preferences bookmarks (Raise e) None
      [BuildingMatrix; MatrixShape (shape (run_matrix interactions bookmarks));
       TrainingSVD N_COMPONENTS; SVDTrained; BuildingArtifacts;
       ArtifactsBuilt (List.length ul) (List.length al); Uploading (run_version env)]
| published U C ul al :
    gate_passed interactions ->
    merge_scores interactions bookmarks <> [] ->
    TruncatedSVD env (run_rank interactions bookmarks)
      (values (run_matrix interactions bookmarks)) = Ok (U, C) ->
    user_factors_list_of (index (run_matrix interactions bookmarks)) U = Ok ul ->
    article_factors_list_of (columns (run_matrix interactions bookmarks)) (transpose C)
      = Ok al ->
    ml_models_set db (run_doc env interactions preferences bookmarks U ul al) = Ok tt ->
    pipeline_outcome env db interactions preferences bookmarks (Ok 0%Z)
      (Some (run_doc env interactions preferences bookmarks U ul al))
      [BuildingMatrix; MatrixShape (shape (run_matrix interactions bookmarks));
       TrainingSVD N_COMPONENTS; SVDTrained; BuildingArtifacts;
       ArtifactsBuilt (List.length ul) (List.length al); Uploading (run_version env);
       Uploaded; Blank; Rule; TrainingComplete (run_version env); Rule].

(** What the [try ... except] of [main] makes of a result. *)
Definition exit_code (r : result Z) : Z :=
  match r with
  | Ok code => code
  | Raise _ => 1%Z
  end.

Definition handler_lines (r : result Z) : list Line :=
  match r with
  | Ok _ => []
  | Raise e => [TrainingFailed e]
  end.

Definition banner : list Line := [Rule; Title; Rule; Blank; InitializingFirebase].

(** The paths through [main]: exit code, stored document if any, lines
    printed. *)
Inductive main_outcome (env : Env) : Z -> option ModelDoc -> list Line -> Prop :=
| init_raised e :
    firebase env = Raise e ->
    main_outcome env 1%Z None (banner ++ [TrainingFailed e])
| fetch_interactions_raised db e :
    firebase env = Ok db ->
    user_interactions db = Raise e ->
    main_outcome env 1%Z None (banner ++ [FetchingInteractions; TrainingFailed e])
| fetch_preferences_raised db ui e :
    firebase env = Ok db ->
    user_interactions db = Ok ui ->
    user_preferences db = Raise e ->
    main_outcome env 1%Z None
      (banner ++ [FetchingInteractions;
                  FetchedInteractions (List.length (interactions_of_docs ui));
                  FetchingPreferences; TrainingFailed e])
| fetch_bookmarks_raised db ui up e :
    firebase env = Ok db ->
    user_interactions db = Ok ui ->
    user_preferences db = Ok up ->
    user_bookmarks db = Raise e ->
    main_outcome env 1%Z None
      (banner ++ [FetchingInteractions;
                  FetchedInteractions (List.length (interactions_of_docs ui));
                  FetchingPreferences;
                  FetchedPreferences (List.length (preferences_of_docs up));
                  FetchingBookmarks; TrainingFailed e])
| fetched db ui up ub r written lines :
    firebase env = Ok db ->
    user_interactions db = Ok ui ->
    user_preferences db = Ok up ->
    user_bookmarks db = Ok ub ->
    pipeline_outcome env db (interactions_of_docs ui) (preferences_of_docs up)
      (bookmarks_of_docs ub) r written lines ->
    main_outcome env (exit_code r) written
      (banner ++ [FetchingInteractions;
                  FetchedInteractions (List.length (interactions_of_docs ui));
                  FetchingPreferences;
                  FetchedPreferences (List.length (preferences_of_docs up));
                  FetchingBookmarks;
                  FetchedBookmarks (List.length (bookmarks_of_docs ub))]
       ++ lines ++ handler_lines r).

(** The lines of the stages after the minimum-requirements check. *)
Definition stage_line (l : Line) : bool :=
  match l with
  | BuildingMatrix | NoInteractionData | MatrixShape _ | FailedToBuildMatrix
  | TrainingSVD _ | SVDTrained
  | BuildingArtifacts | ArtifactsBuilt _ _
  | Uploading _ | Uploaded | TrainingComplete _ | FailedToUpload => true
  | _ => false
  end.

(** Sum of [f u a] over the grid of users [us] and articles [cs]. *)
Definition grid_sum (f : string -> string -> Q) (us cs : list string) : Q :=
  Qsum (map (fun u => Qsum (map (fun a => f u a) cs)) us).

(** The entries appended to [user_factors_list] and [article_factors_list]. *)
Definition user_entry (u : string) (row : list Q) : UserFactors :=
  {| userId := u; u_factors := row |}.

Definition article_entry (a : string) (row : list Q) : ArticleFactors :=
  {| articleId := a; a_factors := row |}.

(** The shapes scikit-learn documents for a fitted [TruncatedSVD]:
    [fit_transform(X)] is (n_samples, n_components) and [components_] is
    (n_components, n_features). *)
Definition svd_shapes (svd : Z -> ndarray -> result (ndarray * ndarray)) : Prop :=
  forall n X U C,
    (1 <= n)%Z ->
    svd n X = Ok (U, C) ->
    List.length U = List.length X
    /\ Forall (fun row => Z.of_nat (List.length row) = n) U
    /\ Z.of_nat (List.length C) = n
    /\ Forall (fun row =>
                 List.length row = match X with [] => 0%nat | r :: _ => List.length r end) C.

(** ** Example data

    A solver stand-in and the small inputs used to exercise the pipeline.
    The stand-in refuses what scikit-learn's [TruncatedSVD.fit_transform]
    refuses before it computes (an array with fewer than 2 features, a rank
    below 1 or above the number of features) and otherwise returns all-zero
    factors of the documented shapes. *)

Definition zero_svd (n : Z) (X : ndarray) : result (ndarray * ndarray) :=
  let n_features := match X with [] => 0%nat | r :: _ => List.length r end in
  if (n_features <? 2)%nat
  then Raise (ValueError "a minimum of 2 features is required by TruncatedSVD")
  else if ((n <? 1) || (Z.of_nat n_features <? n))%Z
  then Raise (ValueError "n_components must be between 1 and n_features")
  else Ok (map (fun _ => repeat 0 (Z.to_nat n)) X,
           repeat (repeat 0 n_features) (Z.to_nat n)).

Definition event (u a : string) (clicks : Z) (seconds : Q) (bookmarked : bool) : Interaction :=
  {| i_user_id := u; i_article_id := a; click_count := clicks; time_spent := seconds;
     is_bookmarked := bookmarked; i_category := "unknown" |}.

(** Two users, two articles, three interaction events. *)
Definition scenario_interactions : list Interaction :=
  [ event "u1" "i1" 2 0 false; event "u1" "i2" 0 60 true; event "u2" "i1" 1 30 false ].

(** One user who touched two articles. *)
Definition lone_user_interactions : list Interaction :=
  [ event "u1" "i1" 1 0 false; event "u1" "i2" 1 0 false ].

Definition empty_world : World := {| ml_models := None; stdout := [] |}.

Definition accepting_db : Firestore :=
  {| user_interactions := Ok [];
     user_preferences := Ok [];
     user_bookmarks := Ok [];
     ml_models_set := fun _ => Ok tt |}.

Definition article_doc (clicks : Z) : ArticleDoc :=
  {| clickCount := Some clicks; timeSpentReading := None; isBookmarked := None;
     article_category := None |}.

(** A store holding one user with five interaction documents. *)
Definition single_user_db : Firestore :=
  {| user_interactions :=
       Ok [ ("u1", [ ("i1", article_doc 1); ("i2", article_doc 1); ("i3", article_doc 1);
                     ("i4", article_doc 1); ("i5", article_doc 1) ]) ]%string;
     user_preferences := Ok [];
     user_bookmarks := Ok [];
     ml_models_set := fun _ => Ok tt |}.

(** A store holding the documents behind [scenario_interactions]. *)
Definition scenario_docs : list (string * list (string * ArticleDoc)) :=
  [ ("u1", [ ("i1", article_doc 2);
             ("i2", {| clickCount := None; timeSpentReading := Some 60;
                       isBookmarked := Some true; article_category := None |}) ]);
    ("u2", [ ("i1", {| clickCount := Some 1%Z; timeSpentReading := Some 30;
                       isBookmarked := None; article_category := None |}) ]) ]%string.

Definition scenario_db : Firestore :=
  {| user_interactions := Ok scenario_docs;
     user_preferences := Ok [];
     user_bookmarks := Ok [];
     ml_models_set := fun _ => Ok tt |}.

(** The same store, refusing the write. *)
Definition scenario_db_rejecting : Firestore :=
  {| user_interactions := Ok scenario_docs;
     user_preferences := Ok [];
     user_bookmarks := Ok [];
     ml_models_set := fun _ => Raise (ExternalError "deadline exceeded") |}.

Definition example_env (db : Firestore) : Env :=
  {| firebase := Ok db;
     TruncatedSVD := zero_svd;
     now_strftime := "20240101_000000";
     now_isoformat := "2024-01-01T00:00:00" |}.

(** Two users whose category scores add up to A:10, B:5, C:20. *)
Definition example_preferences : list Preference :=
  [ {| p_user_id := "u1"; category_scores := [("A", 4); ("B", 5)]%string;
       total_interactions := 9 |};
    {| p_user_id := "u2"; category_scores := [("A", 6); ("C", 20)]%string;
       total_interactions := 26 |} ].

(** A user whose only category score is 0. *)
Definition zero_preferences : list Preference :=
  [ {| p_user_id := "u1"; category_scores := [("A", 0)]%string; total_interactions := 0 |} ].

(** The document built from two users, two articles and rank-2 factors. *)
Definition example_model_doc : ModelDoc :=
  {| version := "v20240101_000000";
     createdAt := "2024-01-01T00:00:00";
     algorithmType := "collaborative_filtering_svd";
     nComponents := 2;
     trainingStats := {| totalUsers := 2; totalArticles := 2; totalInteractions := 4 |};
     categoryWeights := [];
     userFactors := [ {| userId := "u1"; u_factors := [1; 2] |};
                      {| userId := "u2"; u_factors := [3; 4] |} ];
     articleFactors := [ {| articleId := "i1"; a_factors := [5; 6] |};
                         {| articleId := "i2"; a_factors := [7; 8] |} ] |}.

(** The document the pipeline builds for [scenario_interactions] with the
    all-zero solver. *)
Definition scenario_model_doc : ModelDoc :=
  {| version := "v20240101_000000";
     createdAt := "2024-01-01T00:00:00";
     algorithmType := "collaborative_filtering_svd";
     nComponents := 1;
     trainingStats := {| totalUsers := 2; totalArticles := 2; totalInteractions := 2 |};
     categoryWeights := [];
     userFactors := [ {| userId := "u1"; u_factors := [0] |};
                      {| userId := "u2"; u_factors := [0] |} ];
     articleFactors := [ {| articleId := "i1"; a_factors := [0] |};
                         {| articleId := "i2"; a_factors := [0] |} ] |}.


(** ** Definitions used by the further properties *)

(** The user ids and the article ids occurring in the events. *)
Definition event_users (interactions : list Interaction) (bookmarks : list Bookmark)
    : list string :=
  map i_user_id interactions ++ map b_user_id bookmarks.

Definition event_articles (interactions : list Interaction) (bookmarks : list Bookmark)
    : list string :=
  map i_article_id interactions ++ map b_article_id bookmarks.

(** An array of [rows] rows, each of [cols] entries. *)
Definition has_shape (a : ndarray) (rows : nat) (cols : Z) : Prop :=
  List.length a = rows /\ Forall (fun row => Z.of_nat (List.length row) = cols) a.

(** The categories seen so far, after meeting [c]. *)
Definition see (seen : list string) (c : string) : list string :=
  if in_dec string_dec c seen then seen else seen ++ [c].

(** The record [fetch_user_interactions] appends for one article document,
    written with the defaults of the [data.get] calls. *)
Definition interaction_record (user_id article_id : string) (data : ArticleDoc)
    : Interaction :=
  {| i_user_id := user_id;
     i_article_id := article_id;
     click_count := match clickCount data with Some n => n | None => 0%Z end;
     time_spent := match timeSpentReading data with Some t => t | None => 0 end;
     is_bookmarked := match isBookmarked data with Some b => b | None => false end;
     i_category := match article_category data with Some c => c | None => "unknown"%string end |}.

(** Does the ml_data/preferences document of this user exist? *)
Definition has_preferences (user_doc : string * option PreferencesDoc) : bool :=
  match snd user_doc with
  | Some _ => true
  | None => false
  end.

(** ** Firebase initialisation in detail

    [init_firebase] with its credential handling. The host keeps what the
    function reads and changes outside the pipeline: whether a Firebase app
    is registered ([firebase_admin._apps]), the environment variable, whether
    the local key file exists, how many temporary credential files are on
    disk, and the lines printed. Every library call is a field of [Sdk]
    giving its outcome. The field [firebase] of [Env] is the result of this
    function. *)

Module Credentials.

Inductive Line :=
| Initializing
| AlreadyInitialized
| UsingLocalKey
| DecodingCredentials
| Initialized.

Record Host := {
  apps : bool;
  FIREBASE_SERVICE_ACCOUNT_JSON : option string;
  local_key_exists : bool;
  temp_files : nat;
  console : list Line
}.

(** [b64decode_utf8]: [base64.b64decode(s).decode("utf-8")].
    [NamedTemporaryFile]: opening the temporary file, which from then on
    exists ([delete=False]).  [Certificate_temp], [Certificate_local]:
    [credentials.Certificate] on the temporary file holding the given
    credentials, and on the local key file. *)
Record Sdk (Json Cred : Type) := {
  b64decode_utf8 : string -> result string;
  json_loads : string -> result Json;
  NamedTemporaryFile : result unit;
  json_dump : Json -> result unit;
  Certificate_temp : Json -> result Cred;
  Certificate_local : result Cred;
  unlink : result unit;
  initialize_app : Cred -> result unit;
  client : result Firestore
}.
Arguments b64decode_utf8 {Json Cred} _ _.
Arguments json_loads {Json Cred} _ _.
Arguments NamedTemporaryFile {Json Cred} _.
Arguments json_dump {Json Cred} _ _.
Arguments Certificate_temp {Json Cred} _ _.
Arguments Certificate_local {Json Cred} _.
Arguments unlink {Json Cred} _.
Arguments initialize_app {Json Cred} _ _.
Arguments client {Json Cred} _.

Definition say (l : Line) (h : Host) : Host :=
  {| apps := apps h;
     FIREBASE_SERVICE_ACCOUNT_JSON := FIREBASE_SERVICE_ACCOUNT_JSON h;
     local_key_exists := local_key_exists h;
     temp_files := temp_files h;
     console := console h ++ [l] |}.

Definition set_temp_files (n : nat) (h : Host) : Host :=
  {| apps := apps h;
     FIREBASE_SERVICE_ACCOUNT_JSON := FIREBASE_SERVICE_ACCOUNT_JSON h;
     local_key_exists := local_key_exists h;
     temp_files := n;
     console := console h |}.

Definition register_app (h : Host) : Host :=
  {| apps := true;
     FIREBASE_SERVICE_ACCOUNT_JSON := FIREBASE_SERVICE_ACCOUNT_JSON h;
     local_key_exists := local_key_exists h;
     temp_files := temp_files h;
     console := console h |}.

(** Continue with [k] when the call returned, stop with its exception
    otherwise. *)
Definition call {A B} (r : result A) (k : A -> Host -> result B * Host) (h : Host)
    : result B * Host :=
  match r with
  | Ok a => k a h
  | Raise e => (Raise e, h)
  end.

Definition no_credentials : exn :=
  ValueError "No Firebase credentials found! Set FIREBASE_SERVICE_ACCOUNT_JSON env var or provide serviceAccountKey.json".

(** [if not creds_base64]: unset, or set to the empty string. *)
Definition missing (creds_base64 : option string) : bool :=
  match creds_base64 with
  | None => true
  | Some s => String.eqb s ""
  end.

Section WithSdk.
Context {Json Cred : Type}.
Variable sdk : Sdk Json Cred.

(** From [firebase_admin.initialize_app(cred, ...)] to the end. *)
Definition initialize (cred : Cred) (h : Host) : result Firestore * Host :=
  call (initialize_app sdk cred) (fun _ h =>
    let h := register_app h in
    let h := say Initialized h in
    (client sdk, h)) h.

Definition init_firebase (h : Host) : result Firestore * Host :=
  let h := say Initializing h in
  if apps h then
    let h := say AlreadyInitialized h in
    (client sdk, h)
  else
    let creds_base64 := FIREBASE_SERVICE_ACCOUNT_JSON h in
    if missing creds_base64 then
      if local_key_exists h then
        let h := say UsingLocalKey h in
        call (Certificate_local sdk) initialize h
      else (Raise no_credentials, h)
    else
      let h := say DecodingCredentials h in
      call (b64decode_utf8 sdk (match creds_base64 with Some s => s | None => "" end))
        (fun creds_json h =>
      call (json_loads sdk creds_json) (fun creds_dict h =>
      call (NamedTemporaryFile sdk) (fun _ h =>
        let h := set_temp_files (S (temp_files h)) h in
      call (json_dump sdk creds_dict) (fun _ h =>
      call (Certificate_temp sdk creds_dict) (fun cred h =>
      call (unlink sdk) (fun _ h =>
        let h := set_temp_files (pred (temp_files h)) h in
        initialize cred h) h) h) h) h) h) h.

End WithSdk.
End Credentials.

(** Example host and library outcomes for the initialisation: the variable
    is set, decoding and parsing work, and the certificate is rejected or
    accepted. *)
Definition fresh_host : Credentials.Host :=
  {| Credentials.apps := false;
     Credentials.FIREBASE_SERVICE_ACCOUNT_JSON := Some "eyJrZXkiOiAxfQ=="%string;
     Credentials.local_key_exists := false;
     Credentials.temp_files := 0;
     Credentials.console := [] |}.

(** A host whose variable is set to the empty string and that has no local
    key file. *)
Definition unconfigured_host : Credentials.Host :=
  {| Credentials.apps := false;
     Credentials.FIREBASE_SERVICE_ACCOUNT_JSON := Some ""%string;
     Credentials.local_key_exists := false;
     Credentials.temp_files := 0;
     Credentials.console := [] |}.

Definition example_sdk (certificate : result string) : Credentials.Sdk string string :=
  {| Credentials.b64decode_utf8 := fun _ => Ok "{key: 1}"%string;
     Credentials.json_loads := fun s => Ok s;
     Credentials.NamedTemporaryFile := Ok tt;
     Credentials.json_dump := fun _ => Ok tt;
     Credentials.Certificate_temp := fun _ => certificate;
     Credentials.Certificate_local := Raise (ValueError "no such file");
     Credentials.unlink := Ok tt;
     Credentials.initialize_app := fun _ => Ok tt;
     Credentials.client := Ok accepting_db |}.

(** The environment of a run whose Firebase client comes from
    [Credentials.init_firebase] on host [h]. *)
Definition host_env {Json Cred : Type} (sdk : Credentials.Sdk Json Cred)
    (h : Credentials.Host) (svd : Z -> ndarray -> result (ndarray * ndarray))
    (stamp iso : string) : Env :=
  {| firebase := fst (Credentials.init_firebase sdk h);
     TruncatedSVD := svd;
     now_strftime := stamp;
     now_isoformat := iso |}.

(** ** The score loops in double precision

    The same two loops of [build_interaction_matrix] with the numbers the
    interpreter computes with: an [int] is an integer of any size, a
    [float] is an IEEE 754 binary64 value, arithmetic between them converts
    the [int] operand to the nearest double (ties to even) and raises
    [OverflowError] when it is out of the double range, and every operation
    on doubles rounds its result to the nearest double. *)

Module Doubles.

Definition prec : Z := 53.
Definition emax : Z := 1024.

(** A Python number. *)
Inductive number :=
| Int (n : Z)
| Float (x : SpecFloat.spec_float).

(** The conversion of an [int] operand of a mixed operation. *)
Definition float_of_int (n : Z) : result SpecFloat.spec_float :=
  match SpecFloat.binary_normalize prec emax n 0 false with
  | SpecFloat.S754_infinity _ => Raise OverflowError
  | x => Ok x
  end.

Definition to_float (a : number) : result SpecFloat.spec_float :=
  match a with
  | Int n => float_of_int n
  | Float x => Ok x
  end.

(** [a + b] *)
Definition add (a b : number) : result number :=
  match a, b with
  | Int m, Int n => Ok (Int (m + n))
  | _, _ =>
      rbind (to_float a) (fun x =>
      rbind (to_float b) (fun y =>
      Ok (Float (SpecFloat.SFadd prec emax x y))))
  end.

(** The literal [30.0]. *)
Definition thirty : SpecFloat.spec_float :=
  SpecFloat.S754_finite false 8444249301319680 (-48).

(** [a / 30.0]; the divisor is not zero. *)
Definition div_thirty (a : number) : result number :=
  rbind (to_float a) (fun x => Ok (Float (SpecFloat.SFdiv prec emax x thirty))).

(** One record of the [interactions] list; the numbers are as the database
    holds them, an integer or a double. *)
Record Interaction := {
  user_id : string;
  article_id : string;
  click_count : number;
  time_spent : number;
  is_bookmarked : bool;
  category : string
}.

Definition Scores : Type := Dict.t (K := Key) (V := number).

Definition interaction_key (i : Interaction) : Key := (user_id i, article_id i).

(** Score formula: clicks + bookmark*5 + reading_time/30 *)
Definition interaction_score (i : Interaction) : result number :=
  rbind (add (click_count i) (Int (if is_bookmarked i then 5 else 0))) (fun clicks =>
  rbind (div_thirty (time_spent i)) (fun reading =>
  add clicks reading)).

(** Body of [for interaction in interactions]. *)
Definition add_interaction (scores : Scores) (i : Interaction) : result Scores :=
  rbind (interaction_score i) (fun score =>
  let key := interaction_key i in
  rbind (add (Dict.get key_eq_dec key (Int 0) scores) score) (fun total =>
  Ok (Dict.set key_eq_dec key total scores))).

(** Body of [for bookmark in bookmarks]. *)
Definition add_bookmark (scores : Scores) (b : Bookmark) : result Scores :=
  let key := bookmark_key b in
  rbind (add (Dict.get key_eq_dec key (Int 0) scores) (Int 5)) (fun total =>
  Ok (Dict.set key_eq_dec key total scores)).

(** A loop whose body can raise. *)
Fixpoint foldM {A B} (f : A -> B -> result A) (l : list B) (a : A) : result A :=
  match l with
  | [] => Ok a
  | x :: l' => rbind (f a x) (foldM f l')
  end.

(** The [scores] dictionary as it stands at the [if not scores] test. *)
Definition merge_scores (interactions : list Interaction) (bookmarks : list Bookmark)
    : result Scores :=
  rbind (foldM add_interaction interactions Dict.empty) (foldM add_bookmark bookmarks).



(** The rational a number stands for; none for an infinity or a NaN. *)
Definition Q_of_float (x : SpecFloat.spec_float) : option Q :=
  match x with
  | SpecFloat.S754_zero _ => Some 0
  | SpecFloat.S754_finite s m e =>
      Some (inject_Z (if s then Z.neg m else Z.pos m) * 2 ^ e)
  | _ => None
  end.

Definition value (a : number) : option Q :=
  match a with
  | Int n => Some (inject_Z n)
  | Float x => Q_of_float x
  end.


(** [click_count + 5*is_bookmarked + time_spent/30] over the rationals. *)
Definition exact_score (i : Interaction) : option Q :=
  match value (click_count i), value (time_spent i) with
  | Some clicks, Some seconds =>
      Some (clicks + (if is_bookmarked i then 5 else 0) + seconds / 30)
  | _, _ => None
  end.



(** An interaction of the pair (u1, i1). *)
Definition reading (clicks seconds : number) : Interaction :=
  {| user_id := "u1"; article_id := "i1"; click_count := clicks;
     time_spent := seconds; is_bookmarked := false; category := "tech" |}.

(** Three readings of 3, 6 and 9 seconds. *)
Definition short_readings : list Interaction :=
  [ reading (Int 0) (Int 3); reading (Int 0) (Int 6); reading (Int 0) (Int 9) ].


End Doubles.
(** * Lemmas *)

(** *** Dictionary lemmas *)

Module DictFacts.
Section WithKey.
Context {K V : Type}.
Variable eq_dec : forall x y : K, {x = y} + {x <> y}.
Local Abbreviation get := (Dict.get (V := V) eq_dec).
Local Abbreviation set := (Dict.set (V := V) eq_dec).
Local Abbreviation keys := (Dict.keys (K := K) (V := V)).

Lemma get_set_same (k : K) (v default : V) (d : Dict.t) : get k default (set k v d) = v.
Proof.
  induction d as [|[k' v'] d IH]; simpl.
  - destruct (eq_dec k k); congruence.
  - destruct (eq_dec k k') as [E|E]; simpl.
    + destruct (eq_dec k k'); congruence.
    + destruct (eq_dec k k'); congruence.
Qed.

Lemma get_set_other (k k' : K) (v default : V) (d : Dict.t) :
  k <> k' -> get k default (set k' v d) = get k default d.
Proof.
  intros Hne. induction d as [|[k0 v0] d IH]; simpl.
  - destruct (eq_dec k k'); congruence.
  - destruct (eq_dec k' k0) as [E|E]; simpl.
    + subst k0. destruct (eq_dec k k'); congruence.
    + destruct (eq_dec k k0); congruence.
Qed.

Lemma keys_set (k : K) (v : V) (d : Dict.t) :
  keys (set k v d) = if in_dec eq_dec k (keys d) then keys d else keys d ++ [k].
Proof.
  induction d as [|[k' v'] d IH]; simpl; [reflexivity|].
  destruct (eq_dec k k') as [E|E]; simpl.
  - subst k'. destruct (eq_dec k k); [reflexivity|congruence].
  - destruct (eq_dec k' k) as [E'|E']; [congruence|].
    rewrite IH. unfold Dict.keys.
    destruct (in_dec eq_dec k (map fst d)); reflexivity.
Qed.

Lemma in_keys_set (k k' : K) (v : V) (d : Dict.t) :
  In k (keys (set k' v d)) <-> k = k' \/ In k (keys d).
Proof.
  rewrite keys_set. destruct (in_dec eq_dec k' (keys d)) as [Hin|Hin].
  - split; [tauto|]. intros [E|H]; [subst k|]; assumption.
  - rewrite in_app_iff. simpl. intuition congruence.
Qed.

Lemma NoDup_keys_set (k : K) (v : V) (d : Dict.t) : NoDup (keys d) -> NoDup (keys (set k v d)).
Proof.
  intros Hnd. rewrite keys_set.
  destruct (in_dec eq_dec k (keys d)) as [Hin|Hin]; [assumption|].
  apply NoDup_app; [assumption| repeat constructor; simpl; tauto |].
  intros x Hx [<-|[]]. contradiction.
Qed.

Lemma get_not_in (k : K) (default : V) (d : Dict.t) : ~ In k (keys d) -> get k default d = default.
Proof.
  induction d as [|[k' v'] d IH]; simpl; [reflexivity|].
  intros Hn. destruct (eq_dec k k'); [subst; tauto|]. apply IH. tauto.
Qed.
End WithKey.
End DictFacts.

(** *** Aggregation lemmas *)

Lemma key_eqb_true k k' : key_eqb k k' = true <-> k = k'.
Proof. unfold key_eqb. destruct (key_eq_dec k k'); split; congruence. Qed.

Lemma key_eqb_refl k : key_eqb k k = true.
Proof. apply key_eqb_true. reflexivity. Qed.

Lemma Qsum_app l1 l2 : Qsum (l1 ++ l2) == Qsum l1 + Qsum l2.
Proof.
  induction l1 as [|x l1 IH]; simpl.
  - ring.
  - rewrite IH. ring.
Qed.

Lemma Qsum_map_ext {A} (f g : A -> Q) l :
  (forall x, f x == g x) -> Qsum (map f l) == Qsum (map g l).
Proof.
  intros Hfg. induction l as [|x l IH]; simpl; [reflexivity|].
  rewrite IH, Hfg. reflexivity.
Qed.

Lemma get_add_interaction k scores i :
  Dict.get key_eq_dec k 0 (add_interaction scores i) ==
  Dict.get key_eq_dec k 0 scores
  + (if key_eqb (interaction_key i) k then interaction_score i else 0).
Proof.
  unfold add_interaction, key_eqb.
  destruct (key_eq_dec (interaction_key i) k) as [E|E].
  - subst k. rewrite DictFacts.get_set_same. reflexivity.
  - rewrite DictFacts.get_set_other by congruence. ring.
Qed.

Lemma get_add_bookmark k scores b :
  Dict.get key_eq_dec k 0 (add_bookmark scores b) ==
  Dict.get key_eq_dec k 0 scores + (if key_eqb (bookmark_key b) k then 5 else 0).
Proof.
  unfold add_bookmark, key_eqb.
  destruct (key_eq_dec (bookmark_key b) k) as [E|E].
  - subst k. rewrite DictFacts.get_set_same. reflexivity.
  - rewrite DictFacts.get_set_other by congruence. ring.
Qed.

Lemma get_fold_interactions k l : forall scores,
  Dict.get key_eq_dec k 0 (fold_left add_interaction l scores) ==
  Dict.get key_eq_dec k 0 scores
  + Qsum (map interaction_score (filter (fun i => key_eqb (interaction_key i) k) l)).
Proof.
  induction l as [|i l IH]; intros scores; simpl.
  - ring.
  - rewrite IH, get_add_interaction.
    destruct (key_eqb (interaction_key i) k); simpl; ring.
Qed.

Lemma get_fold_bookmarks k l : forall scores,
  Dict.get key_eq_dec k 0 (fold_left add_bookmark l scores) ==
  Dict.get key_eq_dec k 0 scores
  + 5 * inject_Z (Z.of_nat (List.length (filter (fun b => key_eqb (bookmark_key b) k) l))).
Proof.
  induction l as [|b l IH]; intros scores.
  - simpl. ring.
  - cbn [fold_left filter]. rewrite IH, get_add_bookmark.
    destruct (key_eqb (bookmark_key b) k).
    + cbn [List.length]. rewrite Nat2Z.inj_succ, <- Z.add_1_r, inject_Z_plus. ring.
    + ring.
Qed.

Lemma keys_fold_interactions k l : forall scores,
  In k (Dict.keys (fold_left add_interaction l scores)) <->
  In k (Dict.keys scores) \/ exists i, In i l /\ interaction_key i = k.
Proof.
  induction l as [|i l IH]; intros scores; simpl.
  - split; [tauto|]. intros [H|[i [[] _]]]. exact H.
  - rewrite IH. unfold add_interaction at 1. rewrite DictFacts.in_keys_set. split.
    + intros [[E|H]|[j [Hj E]]]; eauto.
    + intros [H|[j [[E|Hj] E']]]; subst; eauto.
Qed.

Lemma keys_fold_bookmarks k l : forall scores,
  In k (Dict.keys (fold_left add_bookmark l scores)) <->
  In k (Dict.keys scores) \/ exists b, In b l /\ bookmark_key b = k.
Proof.
  induction l as [|b l IH]; intros scores; simpl.
  - split; [tauto|]. intros [H|[b [[] _]]]. exact H.
  - rewrite IH. unfold add_bookmark at 1. rewrite DictFacts.in_keys_set. split.
    + intros [[E|H]|[j [Hj E]]]; eauto.
    + intros [H|[j [[E|Hj] E']]]; subst; eauto.
Qed.

Lemma NoDup_keys_merge_scores interactions bookmarks :
  NoDup (Dict.keys (merge_scores interactions bookmarks)).
Proof.
  unfold merge_scores.
  assert (H : forall l s, NoDup (Dict.keys s) ->
                          NoDup (Dict.keys (fold_left add_interaction l s))).
  { induction l as [|i l IH]; intros s Hs; simpl; [exact Hs|].
    apply IH. apply DictFacts.NoDup_keys_set. exact Hs. }
  assert (H' : forall l s, NoDup (Dict.keys s) ->
                           NoDup (Dict.keys (fold_left add_bookmark l s))).
  { induction l as [|b l IH]; intros s Hs; simpl; [exact Hs|].
    apply IH. apply DictFacts.NoDup_keys_set. exact Hs. }
  apply H', H. constructor.
Qed.

Lemma in_keys_merge_scores k interactions bookmarks :
  In k (Dict.keys (merge_scores interactions bookmarks)) <->
  (exists i, In i interactions /\ interaction_key i = k) \/
  (exists b, In b bookmarks /\ bookmark_key b = k).
Proof.
  unfold merge_scores. rewrite keys_fold_bookmarks, keys_fold_interactions.
  simpl. tauto.
Qed.

(** *** Pivot lemmas *)

Lemma insert_sorted_perm x l : Permutation (insert_sorted x l) (x :: l).
Proof.
  induction l as [|y l IH]; simpl; [reflexivity|].
  destruct (String.leb x y); [reflexivity|].
  rewrite IH. apply perm_swap.
Qed.

Lemma sorted_perm l : Permutation (sorted l) l.
Proof.
  induction l as [|x l IH]; simpl; [reflexivity|].
  rewrite insert_sorted_perm. constructor. exact IH.
Qed.

Lemma leb_false_le x y : String.leb x y = false -> String.leb y x = true.
Proof. intros H. destruct (String.leb_total x y); congruence. Qed.

Lemma insert_sorted_Sorted x l :
  Sorted (fun a b => String.leb a b = true) l ->
  Sorted (fun a b => String.leb a b = true) (insert_sorted x l).
Proof.
  induction l as [|y l IH]; intros Hs; simpl.
  - repeat constructor.
  - destruct (String.leb x y) eqn:E.
    + constructor; [exact Hs|]. constructor. exact E.
    + inversion Hs as [|? ? Hs' Hhd]; subst. constructor; [apply IH, Hs'|].
      apply leb_false_le in E.
      destruct l as [|z l]; simpl.
      * constructor. exact E.
      * destruct (String.leb x z); constructor; [exact E|].
        inversion Hhd; assumption.
Qed.

Lemma sorted_Sorted l : Sorted (fun a b => String.leb a b = true) (sorted l).
Proof.
  induction l as [|x l IH]; simpl; [constructor|].
  apply insert_sorted_Sorted, IH.
Qed.

Lemma sorted_unique_In x l : In x (sorted_unique l) <-> In x l.
Proof.
  unfold sorted_unique. split.
  - intros H. apply (nodup_In string_dec).
    revert H. apply Permutation_in, sorted_perm.
  - intros H. apply (nodup_In string_dec) in H.
    revert H. apply Permutation_in. symmetry. apply sorted_perm.
Qed.

Lemma sorted_unique_NoDup l : NoDup (sorted_unique l).
Proof.
  unfold sorted_unique.
  eapply Permutation_NoDup; [symmetry; apply sorted_perm|]. apply NoDup_nodup.
Qed.

Lemma sorted_unique_nil l : sorted_unique l = [] <-> l = [].
Proof.
  split; [|intros ->; reflexivity].
  intros H. destruct l as [|x l]; [reflexivity|].
  assert (Hin : In x (sorted_unique (x :: l))) by (apply sorted_unique_In; left; reflexivity).
  rewrite H in Hin. destruct Hin.
Qed.

Lemma filter_key_NoDup (d : Scores) k :
  NoDup (Dict.keys d) ->
  filter (fun r => key_eqb (fst r) k) d =
  if in_dec key_eq_dec k (Dict.keys d) then [(k, Dict.get key_eq_dec k 0 d)] else [].
Proof.
  induction d as [|[k' v] d IH]; intros Hnd; simpl; [reflexivity|].
  inversion Hnd as [|? ? Hnot Hnd']; subst.
  unfold key_eqb at 1. simpl.
  destruct (key_eq_dec k' k) as [E|E].
  - subst k'. destruct (key_eq_dec k k); [|congruence].
    rewrite (IH Hnd').
    destruct (in_dec key_eq_dec k (Dict.keys d)); [contradiction|reflexivity].
  - destruct (key_eq_dec k k') as [E'|E']; [congruence|].
    rewrite (IH Hnd').
    destruct (in_dec key_eq_dec k (Dict.keys d)) as [Hin|Hin]; [reflexivity|].
    destruct (key_eq_dec k' k); [congruence|reflexivity].
Qed.

Lemma mean_single v : mean [v] == v.
Proof. unfold mean. simpl. field. Qed.

Lemma pivot_cell_scores (d : Scores) u a :
  NoDup (Dict.keys d) ->
  pivot_cell d 0 u a == Dict.get key_eq_dec (u, a) 0 d.
Proof.
  intros Hnd. unfold pivot_cell. rewrite (filter_key_NoDup d (u, a) Hnd).
  destruct (in_dec key_eq_dec (u, a) (Dict.keys d)) as [Hin|Hin]; cbn [map snd].
  - apply mean_single.
  - rewrite DictFacts.get_not_in by exact Hin. reflexivity.
Qed.

Lemma pivot_cell_unobserved (d : Scores) u a :
  ~ In (u, a) (Dict.keys d) -> pivot_cell d 0 u a = 0.
Proof.
  intros Hn. unfold pivot_cell.
  replace (filter (fun r => key_eqb (fst r) (u, a)) d) with (@nil (Key * Q)); [reflexivity|].
  symmetry. induction d as [|[k v] d IH]; simpl; [reflexivity|].
  simpl in Hn. unfold key_eqb at 1. simpl.
  destruct (key_eq_dec k (u, a)); [tauto|]. apply IH. tauto.
Qed.

(** *** Sums over the user x article grid *)

Lemma Qsum_map_ext_in {A} (f g : A -> Q) l :
  (forall x, In x l -> f x == g x) -> Qsum (map f l) == Qsum (map g l).
Proof.
  induction l as [|x l IH]; intros Hfg; simpl; [reflexivity|].
  rewrite (Hfg x) by (simpl; auto).
  rewrite IH; [reflexivity|]. intros y Hy. apply Hfg. simpl. auto.
Qed.

Lemma Qsum_map_plus {A} (f g : A -> Q) l :
  Qsum (map (fun x => f x + g x) l) == Qsum (map f l) + Qsum (map g l).
Proof.
  induction l as [|x l IH]; simpl; [ring|]. rewrite IH. ring.
Qed.

Lemma Qsum_map_zero {A} (f : A -> Q) l :
  (forall x, In x l -> f x == 0) -> Qsum (map f l) == 0.
Proof.
  induction l as [|x l IH]; intros Hf; simpl; [reflexivity|].
  rewrite (Hf x) by (simpl; auto).
  rewrite IH; [ring|]. intros y Hy. apply Hf. simpl. auto.
Qed.

Lemma Qsum_map_single {A} (f : A -> Q) l x0 :
  NoDup l -> In x0 l -> (forall x, In x l -> x <> x0 -> f x == 0) ->
  Qsum (map f l) == f x0.
Proof.
  induction l as [|x l IH]; intros Hnd Hin Hf; [destruct Hin|].
  inversion Hnd as [|? ? Hnot Hnd']; subst. simpl.
  destruct Hin as [->|Hin].
  - rewrite Qsum_map_zero; [ring|].
    intros y Hy. apply Hf; [simpl; auto|]. intros ->. contradiction.
  - rewrite IH; [|exact Hnd'|exact Hin|intros y Hy Hne; apply Hf; simpl; auto].
    rewrite (Hf x); [ring|simpl; auto|]. intros ->. contradiction.
Qed.

Lemma grid_sum_ext f g us cs :
  (forall u a, f u a == g u a) -> grid_sum f us cs == grid_sum g us cs.
Proof.
  intros H. unfold grid_sum. apply Qsum_map_ext. intros u.
  apply Qsum_map_ext. intros a. apply H.
Qed.

Lemma grid_sum_plus f g us cs :
  grid_sum (fun u a => f u a + g u a) us cs == grid_sum f us cs + grid_sum g us cs.
Proof.
  unfold grid_sum. rewrite <- Qsum_map_plus. apply Qsum_map_ext. intros u.
  apply Qsum_map_plus.
Qed.

Lemma grid_sum_indicator u0 a0 v us cs :
  NoDup us -> NoDup cs -> In u0 us -> In a0 cs ->
  grid_sum (fun u a => if key_eqb (u, a) (u0, a0) then v else 0) us cs == v.
Proof.
  intros Hus Hcs Hu Ha. unfold grid_sum.
  rewrite (Qsum_map_single _ us u0 Hus Hu).
  - rewrite (Qsum_map_single _ cs a0 Hcs Ha).
    + rewrite key_eqb_refl. reflexivity.
    + intros a _ Hne. unfold key_eqb.
      destruct (key_eq_dec (u0, a) (u0, a0)); [congruence|reflexivity].
  - intros u _ Hne. apply Qsum_map_zero. intros a _. unfold key_eqb.
    destruct (key_eq_dec (u, a) (u0, a0)); [congruence|reflexivity].
Qed.

Lemma grid_sum_scores (d : Scores) us cs :
  NoDup (Dict.keys d) -> NoDup us -> NoDup cs ->
  (forall u a, In (u, a) (Dict.keys d) -> In u us /\ In a cs) ->
  grid_sum (fun u a => Dict.get key_eq_dec (u, a) 0 d) us cs == Qsum (Dict.values d).
Proof.
  intros Hnd Hus Hcs. induction d as [|[[u0 a0] v] d IH]; intros Hkeys.
  - simpl. unfold grid_sum. apply Qsum_map_zero. intros u _.
    apply Qsum_map_zero. reflexivity.
  - inversion Hnd as [|? ? Hnot Hnd']; subst.
    assert (Hstep : forall u a,
               Dict.get key_eq_dec (u, a) 0 (((u0, a0), v) :: d) ==
               Dict.get key_eq_dec (u, a) 0 d
               + (if key_eqb (u, a) (u0, a0) then v else 0)).
    { intros u a. cbn [Dict.get]. unfold key_eqb.
      destruct (key_eq_dec (u, a) (u0, a0)) as [E|E].
      - injection E as -> ->. rewrite DictFacts.get_not_in by exact Hnot. ring.
      - ring. }
    rewrite (grid_sum_ext _ _ us cs Hstep), grid_sum_plus.
    rewrite IH; [|exact Hnd'|intros u a H; apply Hkeys; right; exact H].
    destruct (Hkeys u0 a0) as [Hu Ha]; [left; reflexivity|].
    rewrite grid_sum_indicator by assumption.
    simpl. ring.
Qed.

Lemma matrix_sum_pivot_table (d : Scores) :
  NoDup (Dict.keys d) ->
  matrix_sum (pivot_table d 0) == Qsum (Dict.values d).
Proof.
  intros Hnd. unfold matrix_sum, pivot_table. cbn [values]. rewrite map_map.
  transitivity (grid_sum (fun u a => Dict.get key_eq_dec (u, a) 0 d)
                  (sorted_unique (map (fun r => fst (fst r)) d))
                  (sorted_unique (map (fun r => snd (fst r)) d))).
  - unfold grid_sum. apply Qsum_map_ext. intros u. apply Qsum_map_ext. intros a.
    apply pivot_cell_scores, Hnd.
  - apply grid_sum_scores; auto using sorted_unique_NoDup.
    intros u a Hin. rewrite !sorted_unique_In. unfold Dict.keys in Hin.
    apply in_map_iff in Hin. destruct Hin as [[k v] [E Hin]]. simpl in E. subst k.
    split; apply in_map_iff; exists ((u, a), v); auto.
Qed.

Lemma cell_pivot_table (d : Scores) i j u a :
  nth_error (index (pivot_table d 0)) i = Some u ->
  nth_error (columns (pivot_table d 0)) j = Some a ->
  cell (pivot_table d 0) i j = Some (pivot_cell d 0 u a).
Proof.
  unfold pivot_table, cell. cbn [index columns values]. intros Hi Hj.
  rewrite nth_error_map, Hi. cbn. rewrite nth_error_map, Hj. reflexivity.
Qed.

(** *** Running the matrix builder *)

Lemma build_interaction_matrix_Some interactions bookmarks w built w' :
  build_interaction_matrix interactions bookmarks w = (Ok (Some built), w') ->
  merge_scores interactions bookmarks <> [] /\
  built = (pivot_table (merge_scores interactions bookmarks) 0,
           index (pivot_table (merge_scores interactions bookmarks) 0),
           columns (pivot_table (merge_scores interactions bookmarks) 0)).
Proof.
  unfold build_interaction_matrix, bind, print, ret. cbn.
  destruct (merge_scores interactions bookmarks) as [|kv d]; intros H.
  - discriminate.
  - split; [discriminate|]. inversion H. reflexivity.
Qed.

Lemma build_interaction_matrix_nonempty interactions bookmarks w :
  merge_scores interactions bookmarks <> [] ->
  exists w',
    build_interaction_matrix interactions bookmarks w =
    (Ok (Some (pivot_table (merge_scores interactions bookmarks) 0,
               index (pivot_table (merge_scores interactions bookmarks) 0),
               columns (pivot_table (merge_scores interactions bookmarks) 0))), w')
    /\ ml_models w' = ml_models w.
Proof.
  intros Hne. unfold build_interaction_matrix, bind, print, ret. cbn.
  destruct (merge_scores interactions bookmarks) as [|kv d]; [congruence|].
  eexists. split; reflexivity.
Qed.

(** *** Running the factorisation *)

Lemma clamp_n_components_max requested matrix :
  clamp_n_components requested matrix =
  Z.max 1 (Z.min requested (Z.min (fst (shape matrix)) (snd (shape matrix)) - 1)).
Proof.
  unfold clamp_n_components.
  destruct (Z.ltb_spec (Z.min requested
                          (Z.min (fst (shape matrix)) (snd (shape matrix)) - 1)) 1); lia.
Qed.

Lemma train_svd_model_run svd matrix requested w :
  fst (train_svd_model svd matrix requested w) =
  match svd (clamp_n_components requested matrix) (values matrix) with
  | Ok fitted => Ok (fst fitted, transpose (snd fitted), clamp_n_components requested matrix)
  | Raise e => Raise e
  end.
Proof.
  unfold train_svd_model, bind, print, lift, ret. cbn.
  destruct (svd (clamp_n_components requested matrix) (values matrix)); reflexivity.
Qed.

Lemma train_svd_model_Ok svd matrix requested w user_factors article_factors n w' :
  train_svd_model svd matrix requested w = (Ok (user_factors, article_factors, n), w') ->
  n = clamp_n_components requested matrix /\
  exists components,
    svd n (values matrix) = Ok (user_factors, components) /\
    article_factors = transpose components.
Proof.
  intros H. pose proof (train_svd_model_run svd matrix requested w) as Hrun.
  rewrite H in Hrun. cbn in Hrun.
  destruct (svd (clamp_n_components requested matrix) (values matrix)) as [[U C]|e] eqn:E;
    [|discriminate].
  inversion Hrun; subst. split; [reflexivity|]. exists C. auto.
Qed.

(** *** Category weights *)

Lemma max_of_ge x l : x <= max_of x l.
Proof.
  revert x. induction l as [|y l IH]; intros x; simpl.
  - apply Qle_refl.
  - unfold max_of in *. simpl.
    destruct (Qle_bool y x) eqn:E; [apply IH|].
    eapply Qle_trans; [|apply IH].
    destruct (Qlt_le_dec x y) as [H|H]; [apply Qlt_le_weak, H|].
    apply Qle_bool_iff in H. congruence.
Qed.

Lemma max_of_In x l : In (max_of x l) (x :: l).
Proof.
  revert x. induction l as [|y l IH]; intros x; [left; reflexivity|].
  unfold max_of in *. simpl.
  destruct (Qle_bool y x).
  - destruct (IH x) as [H|H]; [left; exact H|right; right; exact H].
  - right. apply IH.
Qed.

Lemma max_of_upper x l v : In v (x :: l) -> v <= max_of x l.
Proof.
  revert x. induction l as [|y l IH]; intros x Hin.
  - destruct Hin as [->|[]]. apply Qle_refl.
  - unfold max_of in *. simpl.
    destruct (Qle_bool y x) eqn:E.
    + destruct Hin as [->|[->|Hin]].
      * apply IH. left. reflexivity.
      * apply Qle_bool_iff in E. eapply Qle_trans; [exact E|]. apply (max_of_ge x l).
      * apply IH. right. exact Hin.
    + destruct Hin as [->|Hin].
      * eapply Qle_trans; [|apply (max_of_ge y l)].
        destruct (Qlt_le_dec v y) as [H|H]; [apply Qlt_le_weak, H|].
        apply Qle_bool_iff in H. congruence.
      * apply IH. exact Hin.
Qed.

Lemma Qpositive_iff x : Qpositive x = true <-> 0 < x.
Proof.
  unfold Qpositive. rewrite negb_true_iff. split.
  - intros H. apply Qnot_le_lt. intros Hle. apply Qle_bool_iff in Hle. congruence.
  - intros H. destruct (Qle_bool x 0) eqn:E; [|reflexivity].
    apply Qle_bool_iff in E. exfalso. exact (Qlt_not_le _ _ H E).
Qed.

Lemma get_add_category_score c cw item :
  Dict.get string_dec c 0 (add_category_score cw item) ==
  Dict.get string_dec c 0 cw + (if String.eqb (fst item) c then snd item else 0).
Proof.
  unfold add_category_score.
  destruct (String.eqb_spec (fst item) c) as [E|E].
  - subst c. rewrite DictFacts.get_set_same. reflexivity.
  - rewrite DictFacts.get_set_other by congruence. ring.
Qed.

Lemma get_fold_category_scores c items : forall cw,
  Dict.get string_dec c 0 (fold_left add_category_score items cw) ==
  Dict.get string_dec c 0 cw
  + Qsum (map snd (filter (fun kv => String.eqb (fst kv) c) items)).
Proof.
  induction items as [|item items IH]; intros cw; simpl.
  - ring.
  - rewrite IH, get_add_category_score.
    destruct (String.eqb (fst item) c); simpl; ring.
Qed.

Lemma accumulate_flat_map preferences : forall cw,
  fold_left add_preference preferences cw =
  fold_left add_category_score (flat_map category_scores preferences) cw.
Proof.
  induction preferences as [|p ps IH]; intros cw; simpl; [reflexivity|].
  rewrite fold_left_app. apply IH.
Qed.

Lemma get_accumulate_category_weights c preferences :
  Dict.get string_dec c 0 (accumulate_category_weights preferences) ==
  Qsum (map snd (filter (fun kv => String.eqb (fst kv) c)
                        (flat_map category_scores preferences))).
Proof.
  unfold accumulate_category_weights.
  rewrite accumulate_flat_map, get_fold_category_scores. simpl. ring.
Qed.

(** *** Building the model document *)

Lemma nth_error_skipn_cons {A} (a : list A) : forall i x,
  nth_error a i = Some x -> skipn i a = x :: skipn (S i) a.
Proof.
  induction a as [|y a IH]; intros [|i] x H; simpl in H; try discriminate.
  - inversion H. reflexivity.
  - apply IH in H. exact H.
Qed.

Section FactorLists.
Context {B : Type}.
Variable mk : string -> list Q -> B.
Variable a : ndarray.

Let entry (iu : nat * string) : result B :=
  rbind (getitem a (fst iu)) (fun row => Ok (mk (snd iu) row)).

Lemma mapM_enumerate_Ok ids : forall i l,
  mapM entry (enumerate_from i ids) = Ok l ->
  (List.length ids <= List.length (skipn i a))%nat /\
  l = map (fun p => mk (fst p) (snd p)) (combine ids (skipn i a)).
Proof.
  induction ids as [|id ids IH]; intros i l H; simpl in H.
  - inversion H. split; [simpl; lia|reflexivity].
  - unfold entry at 1, getitem in H. cbn [fst snd] in H.
    destruct (nth_error a i) as [row|] eqn:E; [|discriminate]. cbn [rbind] in H.
    destruct (mapM entry (enumerate_from (S i) ids)) as [l'|] eqn:E'; [|discriminate].
    cbn [rbind] in H. inversion H; subst. apply IH in E'. destruct E' as [Hlen ->].
    rewrite (nth_error_skipn_cons a i row E).
    split; [cbn [List.length]; lia|reflexivity].
Qed.

Lemma mapM_enumerate_total ids : forall i,
  (List.length ids <= List.length (skipn i a))%nat ->
  mapM entry (enumerate_from i ids) =
  Ok (map (fun p => mk (fst p) (snd p)) (combine ids (skipn i a))).
Proof.
  induction ids as [|id ids IH]; intros i Hlen; [reflexivity|].
  simpl. unfold entry at 1, getitem. cbn [fst snd].
  destruct (nth_error a i) as [row|] eqn:E.
  - rewrite (nth_error_skipn_cons a i row E) in *. cbn [List.length] in Hlen.
    cbn [rbind]. rewrite IH by lia. reflexivity.
  - apply nth_error_None in E. rewrite skipn_all2 in Hlen by exact E.
    simpl in Hlen. lia.
Qed.
End FactorLists.

Lemma nth_error_lt {A} (l : list A) i x :
  nth_error l i = Some x -> (i < List.length l)%nat.
Proof. intros H. apply nth_error_Some. congruence. Qed.

Lemma map_fst_combine {A B} (l1 : list A) : forall l2 : list B,
  (List.length l1 <= List.length l2)%nat -> map fst (combine l1 l2) = l1.
Proof.
  induction l1 as [|x l1 IH]; intros [|y l2] H; simpl in *; try reflexivity; try lia.
  rewrite IH by lia. reflexivity.
Qed.

Lemma map_snd_combine {A B} (l1 : list A) : forall l2 : list B,
  List.length l1 = List.length l2 -> map snd (combine l1 l2) = l2.
Proof.
  induction l1 as [|x l1 IH]; intros [|y l2] H; simpl in *; try reflexivity; try lia.
  rewrite IH by lia. reflexivity.
Qed.

Lemma nth_error_combine {A B} (l1 : list A) : forall (l2 : list B) i x y,
  nth_error l1 i = Some x -> nth_error l2 i = Some y ->
  nth_error (combine l1 l2) i = Some (x, y).
Proof.
  induction l1 as [|x1 l1 IH]; intros [|y1 l2] [|i] x y H1 H2; simpl in *;
    try discriminate.
  - congruence.
  - apply IH; assumption.
Qed.

Lemma build_model_artifacts_Ok env user_ids article_ids user_factors article_factors
      n_components preferences w model_doc version w' :
  build_model_artifacts env user_ids article_ids user_factors article_factors
    n_components preferences w = (Ok (model_doc, version), w') ->
  (List.length user_ids <= List.length user_factors)%nat
  /\ (List.length article_ids <= List.length article_factors)%nat
  /\ userFactors model_doc =
       map (fun p => user_entry (fst p) (snd p)) (combine user_ids user_factors)
  /\ articleFactors model_doc =
       map (fun p => article_entry (fst p) (snd p)) (combine article_ids article_factors)
  /\ trainingStats model_doc =
       {| totalUsers := Z.of_nat (List.length user_ids);
          totalArticles := Z.of_nat (List.length article_ids);
          totalInteractions :=
            fold_right Z.add 0%Z (map (fun uf => Z.of_nat (List.length uf)) user_factors) |}
  /\ nComponents model_doc = n_components
  /\ categoryWeights model_doc = category_weights_list preferences
  /\ version = ("v" ++ now_strftime env)%string
  /\ ml_models w' = ml_models w.
Proof.
  unfold build_model_artifacts, user_factors_list_of, article_factors_list_of,
    enumerate, bind, print, lift, ret. cbn [fst snd].
  destruct (mapM _ (enumerate_from 0 user_ids)) as [ul|] eqn:Eu; [|discriminate].
  destruct (mapM _ (enumerate_from 0 article_ids)) as [al|] eqn:Ea; [|discriminate].
  intros H. inversion H; subst; clear H. cbn.
  apply (mapM_enumerate_Ok user_entry) in Eu. destruct Eu as [Hu ->].
  apply (mapM_enumerate_Ok article_entry) in Ea. destruct Ea as [Ha ->].
  simpl in Hu, Ha. repeat split; auto.
Qed.

Lemma build_model_artifacts_total env user_ids article_ids user_factors article_factors
      n_components preferences w :
  (List.length user_ids <= List.length user_factors)%nat ->
  (List.length article_ids <= List.length article_factors)%nat ->
  exists model_doc version w',
    build_model_artifacts env user_ids article_ids user_factors article_factors
      n_components preferences w = (Ok (model_doc, version), w').
Proof.
  intros Hu Ha.
  unfold build_model_artifacts, user_factors_list_of, article_factors_list_of,
    enumerate, bind, print, lift, ret. cbn [fst snd].
  rewrite (mapM_enumerate_total user_entry) by exact Hu.
  rewrite (mapM_enumerate_total article_entry) by exact Ha.
  do 3 eexists. reflexivity.
Qed.

Lemma sum_lengths_uniform (rows : ndarray) (n : Z) :
  Forall (fun row => Z.of_nat (List.length row) = n) rows ->
  fold_right Z.add 0%Z (map (fun uf => Z.of_nat (List.length uf)) rows) =
  (Z.of_nat (List.length rows) * n)%Z.
Proof.
  induction 1 as [|row rows Hrow _ IH]; [reflexivity|].
  cbn [map fold_right List.length]. rewrite IH, Hrow, Nat2Z.inj_succ. lia.
Qed.

(** *** Running the pipeline *)

Lemma commit_after_lines written l1 l2 w :
  commit written l2 (commit None l1 w) = commit written (l1 ++ l2) w.
Proof. unfold commit. cbn. rewrite <- app_assoc. reflexivity. Qed.

Lemma lines_after_commit written l1 l2 w :
  commit None l2 (commit written l1 w) = commit written (l1 ++ l2) w.
Proof. unfold commit. cbn. rewrite <- app_assoc. destruct written; reflexivity. Qed.

Ltac merge_commits := repeat (rewrite commit_after_lines || rewrite lines_after_commit).

Lemma emit_commit ls w : emit ls w = commit None ls w.
Proof. reflexivity. Qed.

Lemma bind_print {B} l (f : unit -> M B) w :
  bind (print l) f w = f tt (commit None [l] w).
Proof. reflexivity. Qed.

Lemma bind_lift {A B} (r : result A) (f : A -> M B) w :
  bind (lift r) f w = match r with Ok a => f a w | Raise e => (Raise e, w) end.
Proof. unfold bind, lift. destruct r; reflexivity. Qed.

Lemma bind_unfold {A B} (c : M A) (f : A -> M B) w :
  bind c f w = match c w with
               | (Ok a, w') => f a w'
               | (Raise e, w') => (Raise e, w')
               end.
Proof. reflexivity. Qed.

Ltac prints := repeat (rewrite bind_print; cbv beta); merge_commits.

Lemma fetch_user_interactions_run db w :
  fetch_user_interactions db w =
  match user_interactions db with
  | Ok users =>
      (Ok (interactions_of_docs users),
       commit None [FetchingInteractions;
                    FetchedInteractions (List.length (interactions_of_docs users))] w)
  | Raise e => (Raise e, commit None [FetchingInteractions] w)
  end.
Proof.
  unfold fetch_user_interactions. rewrite bind_print, bind_lift.
  destruct (user_interactions db); [|reflexivity].
  cbv zeta. prints. reflexivity.
Qed.

Lemma fetch_user_preferences_run db w :
  fetch_user_preferences db w =
  match user_preferences db with
  | Ok users =>
      (Ok (preferences_of_docs users),
       commit None [FetchingPreferences;
                    FetchedPreferences (List.length (preferences_of_docs users))] w)
  | Raise e => (Raise e, commit None [FetchingPreferences] w)
  end.
Proof.
  unfold fetch_user_preferences. rewrite bind_print, bind_lift.
  destruct (user_preferences db); [|reflexivity].
  cbv zeta. prints. reflexivity.
Qed.

Lemma fetch_bookmarks_run db w :
  fetch_bookmarks db w =
  match user_bookmarks db with
  | Ok users =>
      (Ok (bookmarks_of_docs users),
       commit None [FetchingBookmarks;
                    FetchedBookmarks (List.length (bookmarks_of_docs users))] w)
  | Raise e => (Raise e, commit None [FetchingBookmarks] w)
  end.
Proof.
  unfold fetch_bookmarks. rewrite bind_print, bind_lift.
  destruct (user_bookmarks db); [|reflexivity].
  cbv zeta. prints. reflexivity.
Qed.

Lemma build_interaction_matrix_run interactions bookmarks w :
  build_interaction_matrix interactions bookmarks w =
  match merge_scores interactions bookmarks with
  | [] => (Ok None, commit None [BuildingMatrix; NoInteractionData] w)
  | _ :: _ =>
      (Ok (Some (run_matrix interactions bookmarks,
                 index (run_matrix interactions bookmarks),
                 columns (run_matrix interactions bookmarks))),
       commit None [BuildingMatrix;
                    MatrixShape (shape (run_matrix interactions bookmarks))] w)
  end.
Proof.
  unfold build_interaction_matrix, run_matrix. rewrite bind_print. cbv zeta.
  destruct (merge_scores interactions bookmarks); prints; reflexivity.
Qed.

Lemma train_svd_model_world svd matrix requested w :
  train_svd_model svd matrix requested w =
  match svd (clamp_n_components requested matrix) (values matrix) with
  | Ok fitted =>
      (Ok (fst fitted, transpose (snd fitted), clamp_n_components requested matrix),
       commit None [TrainingSVD requested; SVDTrained] w)
  | Raise e => (Raise e, commit None [TrainingSVD requested] w)
  end.
Proof.
  unfold train_svd_model. rewrite bind_print. cbv zeta. rewrite bind_lift.
  destruct (svd _ _); [|reflexivity]. prints. reflexivity.
Qed.

Lemma build_model_artifacts_run env user_ids article_ids user_factors article_factors
      n_components preferences w :
  build_model_artifacts env user_ids article_ids user_factors article_factors
    n_components preferences w =
  match user_factors_list_of user_ids user_factors with
  | Ok ul =>
      match article_factors_list_of article_ids article_factors with
      | Ok al =>
          (Ok (assemble_model_doc (run_version env) (now_isoformat env) n_components
                 user_ids article_ids user_factors (category_weights_list preferences)
                 ul al, run_version env),
           commit None [BuildingArtifacts;
                        ArtifactsBuilt (List.length ul) (List.length al)] w)
      | Raise e => (Raise e, commit None [BuildingArtifacts] w)
      end
  | Raise e => (Raise e, commit None [BuildingArtifacts] w)
  end.
Proof.
  unfold build_model_artifacts. rewrite bind_print. cbv zeta. rewrite bind_lift.
  destruct (user_factors_list_of user_ids user_factors); [|reflexivity].
  rewrite bind_lift.
  destruct (article_factors_list_of article_ids article_factors); [|reflexivity].
  prints. reflexivity.
Qed.

Lemma upload_model_to_firestore_run db model_doc version w :
  upload_model_to_firestore db model_doc version w =
  match ml_models_set db model_doc with
  | Ok _ => (Ok true, commit (Some model_doc) [Uploading version; Uploaded] w)
  | Raise e => (Raise e, commit None [Uploading version] w)
  end.
Proof.
  unfold upload_model_to_firestore. rewrite bind_print, bind_unfold.
  unfold doc_ref_set. destruct (ml_models_set db model_doc); [|reflexivity].
  rewrite bind_print. unfold ret, commit. cbn. rewrite <- app_assoc. reflexivity.
Qed.

Lemma gate_scores_nonempty interactions bookmarks :
  gate_passed interactions -> merge_scores interactions bookmarks <> [].
Proof.
  intros [_ Hn] E. unfold MIN_INTERACTIONS in Hn.
  destruct interactions as [|i l]; [simpl in Hn; lia|].
  assert (Hin : In (interaction_key i) (Dict.keys (merge_scores (i :: l) bookmarks))).
  { apply in_keys_merge_scores. left. exists i. split; [left|]; reflexivity. }
  rewrite E in Hin. exact Hin.
Qed.

Lemma check_and_train_outcome env db interactions preferences bookmarks w :
  exists r written lines,
    pipeline_outcome env db interactions preferences bookmarks r written lines
    /\ check_and_train env db interactions preferences bookmarks w =
       (r, commit written lines w).
Proof.
  unfold check_and_train. cbv zeta. fold (distinct_users interactions).
  destruct (Z.ltb_spec (Z.of_nat (distinct_users interactions)) MIN_USERS) as [Hu|Hu].
  { do 3 eexists. split; [apply skipped_users, Hu|]. prints. reflexivity. }
  destruct (Z.ltb_spec (Z.of_nat (List.length interactions)) MIN_INTERACTIONS) as [Hi|Hi].
  { do 3 eexists. split; [apply skipped_interactions; assumption|]. prints. reflexivity. }
  assert (Hgate : gate_passed interactions) by (split; assumption).
  unfold build_and_train. rewrite bind_unfold, build_interaction_matrix_run.
  destruct (merge_scores interactions bookmarks) as [|kv d] eqn:Escores.
  { do 3 eexists. split; [apply matrix_failed; assumption|].
    unfold train_and_publish. prints. reflexivity. }
  assert (Hne : merge_scores interactions bookmarks <> []) by (rewrite Escores; discriminate).
  clear Escores kv d.
  unfold train_and_publish. rewrite bind_unfold, train_svd_model_world.
  fold (run_rank interactions bookmarks).
  destruct (TruncatedSVD env (run_rank interactions bookmarks)
              (values (run_matrix interactions bookmarks))) as [[U C]|e] eqn:Esvd.
  2: { do 3 eexists. split; [eapply solver_raised; eassumption|].
       merge_commits. reflexivity. }
  cbn [fst snd]. rewrite bind_unfold, build_model_artifacts_run.
  destruct (user_factors_list_of (index (run_matrix interactions bookmarks)) U)
    as [ul|e] eqn:Eul.
  2: { do 3 eexists. split; [eapply user_factors_raised; eassumption|].
       merge_commits. reflexivity. }
  destruct (article_factors_list_of (columns (run_matrix interactions bookmarks))
              (transpose C)) as [al|e] eqn:Eal.
  2: { do 3 eexists. split; [eapply article_factors_raised; eassumption|].
       merge_commits. reflexivity. }
  rewrite bind_unfold, upload_model_to_firestore_run.
  fold (run_doc env interactions preferences bookmarks U ul al).
  destruct (ml_models_set db (run_doc env interactions preferences bookmarks U ul al))
    as [[]|e] eqn:Eset.
  - do 3 eexists. split; [eapply published; eassumption|].
    prints. reflexivity.
  - do 3 eexists. split; [eapply upload_raised; eassumption|].
    merge_commits. reflexivity.
Qed.

Lemma init_firebase_run env w :
  init_firebase env w = (firebase env, commit None [InitializingFirebase] w).
Proof. reflexivity. Qed.

Lemma commit_eq written ls ls' w : ls = ls' -> commit written ls w = commit written ls' w.
Proof. intros ->. reflexivity. Qed.

Lemma main_classified env store :
  exists code written lines,
    main_outcome env code written lines
    /\ main env (initial store) = (Ok code, commit written lines (initial store)).
Proof.
  unfold main. prints. unfold try_except.
  rewrite bind_unfold, init_firebase_run.
  destruct (firebase env) as [db|e] eqn:Efb.
  2: { do 3 eexists. split; [apply (init_raised env e Efb)|].
       prints. reflexivity. }
  rewrite bind_unfold, fetch_user_interactions_run.
  destruct (user_interactions db) as [ui|e] eqn:Eui.
  2: { do 3 eexists. split; [apply (fetch_interactions_raised env db e Efb Eui)|].
       prints. reflexivity. }
  rewrite bind_unfold, fetch_user_preferences_run.
  destruct (user_preferences db) as [up|e] eqn:Eup.
  2: { do 3 eexists. split; [apply (fetch_preferences_raised env db ui e Efb Eui Eup)|].
       prints. reflexivity. }
  rewrite bind_unfold, fetch_bookmarks_run.
  destruct (user_bookmarks db) as [ub|e] eqn:Eub.
  2: { do 3 eexists. split; [apply (fetch_bookmarks_raised env db ui up e Efb Eui Eup Eub)|].
       prints. reflexivity. }
  match goal with
  | |- context [check_and_train env db ?I ?P ?B ?w] =>
      destruct (check_and_train_outcome env db I P B w)
        as (r & written & lines & Hout & Hrun); rewrite Hrun
  end.
  exists (exit_code r), written.
  eexists. split; [apply (fetched env db ui up ub r written lines Efb Eui Eup Eub Hout)|].
  destruct r as [code|e]; cbn [exit_code handler_lines].
  - merge_commits. f_equal. apply commit_eq.
    unfold banner. cbn [app]. rewrite ?app_nil_r. reflexivity.
  - prints. unfold ret. apply f_equal. apply commit_eq.
    unfold banner. cbn [app]. reflexivity.
Qed.

(** *** Factor shapes in a run, under the solver's documented shapes *)

Lemma zero_svd_shapes : svd_shapes zero_svd.
Proof.
  intros n X U C Hn H. unfold zero_svd in H.
  destruct (_ <? 2)%nat; [discriminate|].
  destruct (_ || _)%bool; [discriminate|].
  inversion H; subst; clear H.
  rewrite length_map, repeat_length. repeat split.
  - apply Forall_forall. intros row Hin. apply in_map_iff in Hin.
    destruct Hin as [x [<- _]]. rewrite repeat_length. lia.
  - lia.
  - apply Forall_forall. intros row Hin. apply repeat_spec in Hin. subst row.
    apply repeat_length.
Qed.

Lemma run_rank_positive interactions bookmarks : (1 <= run_rank interactions bookmarks)%Z.
Proof. unfold run_rank. rewrite clamp_n_components_max. lia. Qed.

Lemma run_matrix_first_row interactions bookmarks :
  merge_scores interactions bookmarks <> [] ->
  match values (run_matrix interactions bookmarks) with
  | [] => 0%nat
  | r :: _ => List.length r
  end = List.length (columns (run_matrix interactions bookmarks)).
Proof.
  intros Hne. unfold run_matrix, pivot_table, Dict.items. cbn [values columns].
  destruct (sorted_unique (map (fun r => fst (fst r)) (merge_scores interactions bookmarks)))
    as [|u us] eqn:E.
  - apply sorted_unique_nil, map_eq_nil in E. contradiction.
  - cbn [map]. apply length_map.
Qed.

Lemma run_factor_shapes env interactions bookmarks U C :
  svd_shapes (TruncatedSVD env) ->
  merge_scores interactions bookmarks <> [] ->
  TruncatedSVD env (run_rank interactions bookmarks)
    (values (run_matrix interactions bookmarks)) = Ok (U, C) ->
  List.length U = List.length (index (run_matrix interactions bookmarks))
  /\ Forall (fun row => Z.of_nat (List.length row) = run_rank interactions bookmarks) U
  /\ List.length (transpose C) = List.length (columns (run_matrix interactions bookmarks)).
Proof.
  intros Hshapes Hne Hsvd.
  pose proof (run_rank_positive interactions bookmarks) as Hpos.
  destruct (Hshapes _ _ _ _ Hpos Hsvd) as (HU & Hrows & HC & Hcols).
  rewrite (run_matrix_first_row _ _ Hne) in Hcols.
  split; [|split].
  - rewrite HU. unfold run_matrix, pivot_table. cbn [values index]. apply length_map.
  - exact Hrows.
  - destruct C as [|r C']; [simpl in HC; lia|].
    unfold transpose. rewrite length_map, length_seq.
    inversion Hcols; assumption.
Qed.

(** Under the documented shapes the document a run stores has one entry per
    user and per article, in matrix order, and
    [totalInteractions = totalUsers * nComponents]; the factor loops never
    index out of range. *)
Lemma published_doc_shape env db interactions preferences bookmarks r doc lines :
  svd_shapes (TruncatedSVD env) ->
  pipeline_outcome env db interactions preferences bookmarks r (Some doc) lines ->
  map userId (userFactors doc) = index (run_matrix interactions bookmarks)
  /\ map articleId (articleFactors doc) = columns (run_matrix interactions bookmarks)
  /\ totalInteractions (trainingStats doc) =
     (totalUsers (trainingStats doc) * nComponents doc)%Z.
Proof.
  intros Hshapes Hout. inversion Hout as [| | | | | | |U C ul al Hgate Hne Hsvd Hul Hal Hset];
    subst; clear Hout.
  destruct (run_factor_shapes env _ _ U C Hshapes Hne Hsvd) as (HU & Hrows & HC).
  unfold user_factors_list_of, enumerate in Hul.
  apply (mapM_enumerate_Ok user_entry) in Hul. destruct Hul as [Hlu ->].
  unfold article_factors_list_of, enumerate in Hal.
  apply (mapM_enumerate_Ok article_entry) in Hal. destruct Hal as [Hla ->].
  cbn [skipn] in *. unfold run_doc, assemble_model_doc.
  cbn [userFactors articleFactors trainingStats totalInteractions totalUsers nComponents].
  split; [|split].
  - rewrite map_map. cbn [user_entry userId].
    rewrite <- (map_map fst (fun u => u)), map_id. apply map_fst_combine. lia.
  - rewrite map_map. cbn [article_entry articleId].
    rewrite <- (map_map fst (fun a => a)), map_id. apply map_fst_combine. lia.
  - rewrite (sum_lengths_uniform _ _ Hrows), HU. reflexivity.
Qed.

Lemma factor_loops_total env interactions bookmarks U C :
  svd_shapes (TruncatedSVD env) ->
  merge_scores interactions bookmarks <> [] ->
  TruncatedSVD env (run_rank interactions bookmarks)
    (values (run_matrix interactions bookmarks)) = Ok (U, C) ->
  exists ul al,
    user_factors_list_of (index (run_matrix interactions bookmarks)) U = Ok ul
    /\ article_factors_list_of (columns (run_matrix interactions bookmarks)) (transpose C)
       = Ok al.
Proof.
  intros Hshapes Hne Hsvd.
  destruct (run_factor_shapes env _ _ U C Hshapes Hne Hsvd) as (HU & _ & HC).
  unfold user_factors_list_of, article_factors_list_of, enumerate.
  rewrite (mapM_enumerate_total user_entry) by (cbn [skipn]; lia).
  rewrite (mapM_enumerate_total article_entry) by (cbn [skipn]; lia).
  do 2 eexists. split; reflexivity.
Qed.

(** *** The end-to-end scenarios *)

Example scenario_fetch : interactions_of_docs scenario_docs = scenario_interactions.
Proof. reflexivity. Qed.

Example scenario_run :
  fst (main (example_env scenario_db) (initial None)) = Ok 0%Z
  /\ ml_models (snd (main (example_env scenario_db) (initial None))) = Some scenario_model_doc.
Proof. split; reflexivity. Qed.

Example scenario_scores :
  Forall2 (fun kv expected => fst kv = fst expected /\ snd kv == snd expected)
    (merge_scores scenario_interactions [])
    [ (("u1", "i1"), 2); (("u1", "i2"), 7); (("u2", "i1"), 2) ]%string.
Proof. repeat constructor. Qed.

(** * Lemmas for the further properties *)

(** *** The order on labels *)

Lemma ascii_compare_Lt_trans a b c :
  Ascii.compare a b = Lt -> Ascii.compare b c = Lt -> Ascii.compare a c = Lt.
Proof.
  unfold Ascii.compare. rewrite !N.compare_lt_iff. apply N.lt_trans.
Qed.

Lemma string_compare_Lt_trans s1 : forall s2 s3,
  String.compare s1 s2 = Lt -> String.compare s2 s3 = Lt -> String.compare s1 s3 = Lt.
Proof.
  induction s1 as [|a s1 IH]; intros [|b s2] [|c s3]; simpl; try congruence.
  destruct (Ascii.compare a b) eqn:Eab; try discriminate;
    destruct (Ascii.compare b c) eqn:Ebc; try discriminate; intros H12 H23.
  - apply Ascii.compare_eq_iff in Eab, Ebc. subst.
    replace (Ascii.compare c c) with Eq; [eauto|].
    symmetry. unfold Ascii.compare. apply N.compare_refl.
  - apply Ascii.compare_eq_iff in Eab. subst. rewrite Ebc. reflexivity.
  - apply Ascii.compare_eq_iff in Ebc. subst. rewrite Eab. reflexivity.
  - rewrite (ascii_compare_Lt_trans a b c Eab Ebc). reflexivity.
Qed.

Lemma string_leb_trans s1 s2 s3 :
  String.leb s1 s2 = true -> String.leb s2 s3 = true -> String.leb s1 s3 = true.
Proof.
  unfold String.leb.
  destruct (String.compare s1 s2) eqn:E12; try discriminate;
    destruct (String.compare s2 s3) eqn:E23; try discriminate; intros _ _.
  - apply String.compare_eq_iff in E12. subst. rewrite E23. reflexivity.
  - apply String.compare_eq_iff in E12. subst. rewrite E23. reflexivity.
  - apply String.compare_eq_iff in E23. subst. rewrite E12. reflexivity.
  - rewrite (string_compare_Lt_trans _ _ _ E12 E23). reflexivity.
Qed.

Lemma sorted_StronglySorted l :
  StronglySorted (fun a b => String.leb a b = true) (sorted l).
Proof.
  apply Sorted_StronglySorted; [|apply sorted_Sorted].
  intros a b c. apply string_leb_trans.
Qed.

Lemma StronglySorted_unique (l : list string) : forall l',
  StronglySorted (fun a b => String.leb a b = true) l ->
  StronglySorted (fun a b => String.leb a b = true) l' ->
  NoDup l -> NoDup l' ->
  (forall x, In x l <-> In x l') ->
  l = l'.
Proof.
  induction l as [|x l IH]; intros [|y l'] Hs Hs' Hn Hn' Hiff.
  - reflexivity.
  - exfalso. apply (proj2 (Hiff y)). left. reflexivity.
  - exfalso. apply (proj1 (Hiff x)). left. reflexivity.
  - inversion Hs as [|? ? Hs1 Hall]; subst.
    inversion Hs' as [|? ? Hs1' Hall']; subst.
    inversion Hn as [|? ? Hnx Hn1]; subst.
    inversion Hn' as [|? ? Hny Hn1']; subst.
    rewrite Forall_forall in Hall, Hall'.
    assert (Exy : x = y).
    { destruct (proj1 (Hiff x) (or_introl eq_refl)) as [E|Hin]; [congruence|].
      destruct (proj2 (Hiff y) (or_introl eq_refl)) as [E|Hin']; [congruence|].
      apply String.leb_antisym; [apply Hall, Hin'|apply Hall', Hin]. }
    subst y. f_equal. apply IH; auto.
    intros z. split; intros Hz.
    + destruct (proj1 (Hiff z) (or_intror Hz)) as [E|H]; [subst; contradiction|exact H].
    + destruct (proj2 (Hiff z) (or_intror Hz)) as [E|H]; [subst; contradiction|exact H].
Qed.

Lemma sorted_unique_set l l' :
  (forall x, In x l <-> In x l') -> sorted_unique l = sorted_unique l'.
Proof.
  intros Hiff. apply StronglySorted_unique.
  - apply sorted_StronglySorted.
  - apply sorted_StronglySorted.
  - apply sorted_unique_NoDup.
  - apply sorted_unique_NoDup.
  - intros x. rewrite !sorted_unique_In. apply Hiff.
Qed.

Lemma sorted_unique_StronglySorted l :
  StronglySorted (fun a b => String.leb a b = true) (sorted_unique l).
Proof. apply sorted_StronglySorted. Qed.

(** *** Scores and permutations of the event lists *)

Lemma get_merge_scores k interactions bookmarks :
  Dict.get key_eq_dec k 0 (merge_scores interactions bookmarks) ==
  Qsum (map interaction_score (filter (fun i => key_eqb (interaction_key i) k) interactions))
  + 5 * inject_Z (Z.of_nat
        (List.length (filter (fun b => key_eqb (bookmark_key b) k) bookmarks))).
Proof.
  unfold merge_scores. rewrite get_fold_bookmarks, get_fold_interactions. simpl. ring.
Qed.

Lemma keys_merge_scores_incl k interactions interactions' bookmarks bookmarks' :
  Permutation interactions interactions' -> Permutation bookmarks bookmarks' ->
  In k (Dict.keys (merge_scores interactions bookmarks)) ->
  In k (Dict.keys (merge_scores interactions' bookmarks')).
Proof.
  intros Hi Hb. rewrite !in_keys_merge_scores.
  intros [[i [Hin E]]|[b [Hin E]]]; [left; exists i|right; exists b]; split; auto.
  - exact (Permutation_in i Hi Hin).
  - exact (Permutation_in b Hb Hin).
Qed.

Lemma keys_merge_scores_perm k interactions interactions' bookmarks bookmarks' :
  Permutation interactions interactions' -> Permutation bookmarks bookmarks' ->
  In k (Dict.keys (merge_scores interactions bookmarks)) <->
  In k (Dict.keys (merge_scores interactions' bookmarks')).
Proof.
  intros Hi Hb. split; apply keys_merge_scores_incl; auto using Permutation_sym.
Qed.

Lemma merge_scores_nil_iff interactions bookmarks :
  merge_scores interactions bookmarks = [] <-> interactions = [] /\ bookmarks = [].
Proof.
  split; [|intros [-> ->]; reflexivity].
  intros E.
  assert (Hnone : forall k, ~ In k (Dict.keys (merge_scores interactions bookmarks)))
    by (intros k; rewrite E; exact (fun H => H)).
  split.
  - destruct interactions as [|i l]; [reflexivity|].
    exfalso. apply (Hnone (interaction_key i)), in_keys_merge_scores.
    left. exists i. split; [left|]; reflexivity.
  - destruct bookmarks as [|b l]; [reflexivity|].
    exfalso. apply (Hnone (bookmark_key b)), in_keys_merge_scores.
    right. exists b. split; [left|]; reflexivity.
Qed.

(** *** Labels and cells of the matrix *)

Lemma in_score_users u interactions bookmarks :
  In u (map (fun r : Key * Q => fst (fst r)) (merge_scores interactions bookmarks)) <->
  In u (event_users interactions bookmarks).
Proof.
  unfold event_users. rewrite in_app_iff, !in_map_iff. split.
  - intros [[[u' a] v] [E Hin]]. simpl in E. subst u'.
    assert (Hk : In (u, a) (Dict.keys (merge_scores interactions bookmarks)))
      by (apply in_map_iff; exists ((u, a), v); auto).
    apply in_keys_merge_scores in Hk.
    destruct Hk as [[i [Hi E]]|[b [Hb E]]]; injection E as E1 E2; eauto.
  - intros H.
    assert (Hk : exists a, In (u, a) (Dict.keys (merge_scores interactions bookmarks))).
    { destruct H as [[i [E Hi]]|[b [E Hb]]].
      - exists (i_article_id i). apply in_keys_merge_scores. left. exists i.
        split; [exact Hi|]. unfold interaction_key. rewrite E. reflexivity.
      - exists (b_article_id b). apply in_keys_merge_scores. right. exists b.
        split; [exact Hb|]. unfold bookmark_key. rewrite E. reflexivity. }
    destruct Hk as [a Hk]. apply in_map_iff in Hk. destruct Hk as [[k v] [E Hin]].
    simpl in E. subst k. exists ((u, a), v). auto.
Qed.

Lemma in_score_articles a interactions bookmarks :
  In a (map (fun r : Key * Q => snd (fst r)) (merge_scores interactions bookmarks)) <->
  In a (event_articles interactions bookmarks).
Proof.
  unfold event_articles. rewrite in_app_iff, !in_map_iff. split.
  - intros [[[u a'] v] [E Hin]]. simpl in E. subst a'.
    assert (Hk : In (u, a) (Dict.keys (merge_scores interactions bookmarks)))
      by (apply in_map_iff; exists ((u, a), v); auto).
    apply in_keys_merge_scores in Hk.
    destruct Hk as [[i [Hi E]]|[b [Hb E]]]; injection E as E1 E2; eauto.
  - intros H.
    assert (Hk : exists u, In (u, a) (Dict.keys (merge_scores interactions bookmarks))).
    { destruct H as [[i [E Hi]]|[b [E Hb]]].
      - exists (i_user_id i). apply in_keys_merge_scores. left. exists i.
        split; [exact Hi|]. unfold interaction_key. rewrite E. reflexivity.
      - exists (b_user_id b). apply in_keys_merge_scores. right. exists b.
        split; [exact Hb|]. unfold bookmark_key. rewrite E. reflexivity. }
    destruct Hk as [u Hk]. apply in_map_iff in Hk. destruct Hk as [[k v] [E Hin]].
    simpl in E. subst k. exists ((u, a), v). auto.
Qed.

Lemma index_run_matrix interactions bookmarks :
  index (run_matrix interactions bookmarks) =
  sorted_unique (event_users interactions bookmarks).
Proof.
  unfold run_matrix, pivot_table, Dict.items. cbn [index].
  apply sorted_unique_set. intros u. apply in_score_users.
Qed.

Lemma columns_run_matrix interactions bookmarks :
  columns (run_matrix interactions bookmarks) =
  sorted_unique (event_articles interactions bookmarks).
Proof.
  unfold run_matrix, pivot_table, Dict.items. cbn [columns].
  apply sorted_unique_set. intros a. apply in_score_articles.
Qed.

Lemma values_run_matrix interactions bookmarks :
  values (run_matrix interactions bookmarks) =
  map (fun u => map (fun a => pivot_cell (merge_scores interactions bookmarks) 0 u a)
                    (columns (run_matrix interactions bookmarks)))
      (index (run_matrix interactions bookmarks)).
Proof. reflexivity. Qed.

Lemma cell_run_matrix interactions bookmarks i j :
  cell (run_matrix interactions bookmarks) i j =
  match nth_error (index (run_matrix interactions bookmarks)) i,
        nth_error (columns (run_matrix interactions bookmarks)) j with
  | Some u, Some a => Some (pivot_cell (merge_scores interactions bookmarks) 0 u a)
  | _, _ => None
  end.
Proof.
  unfold cell. rewrite values_run_matrix, nth_error_map.
  destruct (nth_error (index (run_matrix interactions bookmarks)) i) as [u|];
    [|reflexivity].
  cbn [option_map]. rewrite nth_error_map.
  destruct (nth_error (columns (run_matrix interactions bookmarks)) j); reflexivity.
Qed.

Lemma build_interaction_matrix_result interactions bookmarks w :
  fst (build_interaction_matrix interactions bookmarks w) =
  Ok (match merge_scores interactions bookmarks with
      | [] => None
      | _ :: _ => Some (run_matrix interactions bookmarks,
                        index (run_matrix interactions bookmarks),
                        columns (run_matrix interactions bookmarks))
      end).
Proof.
  rewrite build_interaction_matrix_run.
  destruct (merge_scores interactions bookmarks); reflexivity.
Qed.

Lemma build_interaction_matrix_Some_run interactions bookmarks w matrix user_ids
      article_ids w' :
  build_interaction_matrix interactions bookmarks w =
    (Ok (Some (matrix, user_ids, article_ids)), w') ->
  merge_scores interactions bookmarks <> []
  /\ matrix = run_matrix interactions bookmarks
  /\ user_ids = index (run_matrix interactions bookmarks)
  /\ article_ids = columns (run_matrix interactions bookmarks).
Proof.
  rewrite build_interaction_matrix_run.
  destruct (merge_scores interactions bookmarks) eqn:E; intros H; inversion H; subst.
  repeat split; discriminate.
Qed.

(** *** Non-negative scores *)

Lemma Qplus_nonneg a b : 0 <= a -> 0 <= b -> 0 <= a + b.
Proof.
  intros Ha Hb. apply (Qle_trans _ (0 + 0)); [discriminate|].
  apply Qplus_le_compat; assumption.
Qed.

Lemma Qsum_nonneg l : Forall (fun x => 0 <= x) l -> 0 <= Qsum l.
Proof.
  induction 1 as [|x l Hx _ IH]; simpl; [discriminate|].
  apply Qplus_nonneg; assumption.
Qed.

Lemma interaction_score_nonneg i :
  (0 <= click_count i)%Z -> 0 <= time_spent i -> 0 <= interaction_score i.
Proof.
  intros Hc Ht. unfold interaction_score.
  apply Qplus_nonneg; [apply Qplus_nonneg|].
  - change 0 with (inject_Z 0). rewrite <- Zle_Qle. exact Hc.
  - destruct (is_bookmarked i); discriminate.
  - apply Qle_shift_div_l; [reflexivity|]. rewrite Qmult_0_l. exact Ht.
Qed.

Lemma merge_scores_nonneg interactions bookmarks k :
  Forall (fun i => (0 <= click_count i)%Z /\ 0 <= time_spent i) interactions ->
  0 <= Dict.get key_eq_dec k 0 (merge_scores interactions bookmarks).
Proof.
  intros Hall. rewrite get_merge_scores. apply Qplus_nonneg.
  - apply Qsum_nonneg. apply Forall_forall. intros x Hx.
    apply in_map_iff in Hx. destruct Hx as [i [<- Hi]].
    apply filter_In in Hi. destruct Hi as [Hi _].
    rewrite Forall_forall in Hall. destruct (Hall i Hi).
    apply interaction_score_nonneg; assumption.
  - apply Qmult_le_0_compat; [discriminate|].
    change 0 with (inject_Z 0). rewrite <- Zle_Qle. lia.
Qed.

(** *** Shapes of the factor arrays *)

Lemma transpose_shape (C : ndarray) (n cols : nat) :
  (0 < n)%nat ->
  List.length C = n ->
  Forall (fun row => List.length row = cols) C ->
  List.length (transpose C) = cols
  /\ Forall (fun row => List.length row = n) (transpose C).
Proof.
  intros Hn Hlen Hrows. destruct C as [|r C']; [simpl in Hlen; lia|].
  unfold transpose. rewrite length_map, length_seq. split.
  - inversion Hrows; assumption.
  - apply Forall_forall. intros row Hin. apply in_map_iff in Hin.
    destruct Hin as [j [<- _]]. rewrite length_map. exact Hlen.
Qed.

Lemma clamp_n_components_bounds requested matrix :
  (1 <= clamp_n_components requested matrix <= Z.max 1 requested)%Z
  /\ (clamp_n_components requested matrix
      <= Z.max 1 (Z.min (fst (shape matrix)) (snd (shape matrix)) - 1))%Z
  /\ ((1 <= requested < Z.min (fst (shape matrix)) (snd (shape matrix)))%Z ->
      clamp_n_components requested matrix = requested).
Proof. rewrite clamp_n_components_max. lia. Qed.

(** *** The factor loops *)

Section FactorLoops.
Context {B : Type}.
Variable mk : string -> list Q -> B.
Variable a : ndarray.

Lemma mapM_enumerate_Raise ids : forall i e,
  mapM (fun iu : nat * string => rbind (getitem a (fst iu)) (fun row => Ok (mk (snd iu) row)))
       (enumerate_from i ids) = Raise e ->
  e = IndexError /\ (List.length (skipn i a) < List.length ids)%nat.
Proof.
  induction ids as [|id ids IH]; intros i e H; simpl in H; [discriminate|].
  unfold getitem in H. cbn [fst snd] in H.
  destruct (nth_error a i) as [row|] eqn:E; cbn [rbind] in H.
  - rewrite (nth_error_skipn_cons a i row E). cbn [List.length].
    destruct (mapM _ (enumerate_from (S i) ids)) as [l'|e'] eqn:E'; cbn [rbind] in H;
      [discriminate|].
    injection H as <-. apply IH in E'. destruct E' as [-> Hlt]. split; [reflexivity|lia].
  - injection H as <-. split; [reflexivity|].
    apply nth_error_None in E. rewrite skipn_all2 by exact E. simpl. lia.
Qed.
End FactorLoops.

Lemma user_factors_list_of_cases user_ids user_factors :
  ((List.length user_ids <= List.length user_factors)%nat
   /\ user_factors_list_of user_ids user_factors =
      Ok (map (fun p => user_entry (fst p) (snd p)) (combine user_ids user_factors)))
  \/ ((List.length user_factors < List.length user_ids)%nat
      /\ user_factors_list_of user_ids user_factors = Raise IndexError).
Proof.
  unfold user_factors_list_of, enumerate.
  destruct (mapM _ (enumerate_from 0 user_ids)) as [l|e] eqn:E.
  - apply (mapM_enumerate_Ok user_entry) in E. destruct E as [Hlen ->].
    left. split; [exact Hlen|reflexivity].
  - apply (mapM_enumerate_Raise user_entry) in E. destruct E as [-> Hlt].
    right. split; [exact Hlt|reflexivity].
Qed.

Lemma article_factors_list_of_cases article_ids article_factors :
  ((List.length article_ids <= List.length article_factors)%nat
   /\ article_factors_list_of article_ids article_factors =
      Ok (map (fun p => article_entry (fst p) (snd p)) (combine article_ids article_factors)))
  \/ ((List.length article_factors < List.length article_ids)%nat
      /\ article_factors_list_of article_ids article_factors = Raise IndexError).
Proof.
  unfold article_factors_list_of, enumerate.
  destruct (mapM _ (enumerate_from 0 article_ids)) as [l|e] eqn:E.
  - apply (mapM_enumerate_Ok article_entry) in E. destruct E as [Hlen ->].
    left. split; [exact Hlen|reflexivity].
  - apply (mapM_enumerate_Raise article_entry) in E. destruct E as [-> Hlt].
    right. split; [exact Hlt|reflexivity].
Qed.

Lemma combine_firstn {A B} (l1 : list A) : forall l2 : list B,
  (List.length l1 <= List.length l2)%nat ->
  map snd (combine l1 l2) = firstn (List.length l1) l2.
Proof.
  induction l1 as [|x l1 IH]; intros [|y l2] H; simpl in *; try reflexivity; try lia.
  rewrite IH by lia. reflexivity.
Qed.

Lemma sum_lengths_app (l1 l2 : ndarray) :
  fold_right Z.add 0%Z (map (fun uf => Z.of_nat (List.length uf)) (l1 ++ l2)) =
  (fold_right Z.add 0%Z (map (fun uf => Z.of_nat (List.length uf)) l1)
   + fold_right Z.add 0%Z (map (fun uf => Z.of_nat (List.length uf)) l2))%Z.
Proof.
  induction l1 as [|x l1 IH]; cbn [app map fold_right]; [lia|]. rewrite IH. lia.
Qed.

(** *** Category weights: keys, order and range *)

Lemma keys_fold_category_scores items : forall cw : CategoryWeights,
  Dict.keys (fold_left add_category_score items cw) =
  fold_left see (map fst items) (Dict.keys cw).
Proof.
  induction items as [|item items IH]; intros cw; simpl; [reflexivity|].
  rewrite IH. unfold add_category_score at 1. rewrite DictFacts.keys_set. reflexivity.
Qed.

Lemma in_fold_see l : forall seen x,
  In x (fold_left see l seen) <-> In x seen \/ In x l.
Proof.
  induction l as [|c l IH]; intros seen x; simpl; [tauto|].
  rewrite IH. unfold see. destruct (in_dec string_dec c seen) as [Hin|Hin].
  - split; [tauto|]. intros [H|[->|H]]; auto.
  - rewrite in_app_iff. simpl. tauto.
Qed.

Lemma fold_see_first_seen l : fold_left see l [] = rev (nodup string_dec (rev l)).
Proof.
  induction l as [|c l IH] using rev_ind; [reflexivity|].
  rewrite fold_left_app, rev_app_distr. cbn [fold_left rev app nodup]. rewrite IH.
  unfold see.
  destruct (in_dec string_dec c (rev (nodup string_dec (rev l)))) as [H|H];
    destruct (in_dec string_dec c (rev l)) as [H'|H']; try reflexivity; exfalso.
  - apply H'. apply in_rev in H. apply nodup_In in H. exact H.
  - apply H. apply -> in_rev. apply nodup_In. exact H'.
Qed.

Lemma keys_accumulate_category_weights preferences :
  Dict.keys (accumulate_category_weights preferences) =
  rev (nodup string_dec (rev (map fst (flat_map category_scores preferences)))).
Proof.
  unfold accumulate_category_weights.
  rewrite accumulate_flat_map, keys_fold_category_scores. apply fold_see_first_seen.
Qed.

Lemma keys_normalize_category_weights cw :
  Dict.keys (normalize_category_weights cw) = Dict.keys cw.
Proof.
  unfold normalize_category_weights.
  destruct (Dict.values cw) as [|v vs]; [reflexivity|].
  destruct (Qpositive (max_of v vs)); [|reflexivity].
  unfold Dict.keys, Dict.items. rewrite map_map. reflexivity.
Qed.

Lemma categories_of_weights_list preferences :
  map category (category_weights_list preferences) =
  Dict.keys (accumulate_category_weights preferences).
Proof.
  unfold category_weights_list, Dict.items. rewrite map_map. cbn [category].
  apply keys_normalize_category_weights.
Qed.

Lemma get_of_entry {K V} (eq_dec : forall x y : K, {x = y} + {x <> y})
      (d : Dict.t) (k : K) (v default : V) :
  NoDup (Dict.keys d) -> In (k, v) d -> Dict.get eq_dec k default d = v.
Proof.
  induction d as [|[k' v'] d IH]; intros Hnd Hin; [destruct Hin|].
  inversion Hnd as [|? ? Hnot Hnd']; subst. simpl.
  destruct Hin as [E|Hin].
  - injection E as -> ->. destruct (eq_dec k k); congruence.
  - destruct (eq_dec k k') as [->|_]; [|apply IH; assumption].
    exfalso. apply Hnot. apply in_map_iff. exists (k', v). auto.
Qed.

Lemma NoDup_keys_accumulate preferences :
  NoDup (Dict.keys (accumulate_category_weights preferences)).
Proof.
  rewrite keys_accumulate_category_weights. apply NoDup_rev, NoDup_nodup.
Qed.

Lemma accumulate_nonneg preferences :
  Forall (fun kv : string * Q => 0 <= snd kv) (flat_map category_scores preferences) ->
  Forall (fun kv : string * Q => 0 <= snd kv) (accumulate_category_weights preferences).
Proof.
  intros Hall. apply Forall_forall. intros [c v] Hin. cbn [snd].
  rewrite <- (get_of_entry string_dec _ c v 0 (NoDup_keys_accumulate preferences) Hin).
  rewrite get_accumulate_category_weights. apply Qsum_nonneg.
  apply Forall_forall. intros x Hx. apply in_map_iff in Hx.
  destruct Hx as [kv [<- Hkv]]. apply filter_In in Hkv. destruct Hkv as [Hkv _].
  rewrite Forall_forall in Hall. apply Hall, Hkv.
Qed.

Lemma normalize_category_weights_cons c v (d : CategoryWeights) :
  normalize_category_weights ((c, v) :: d) =
  if Qpositive (max_of v (map snd d))
  then map (fun kv => (fst kv, snd kv / max_of v (map snd d))) ((c, v) :: d)
  else (c, v) :: d.
Proof. reflexivity. Qed.

(** *** The document of a run *)

Lemma distinct_users_le_rows interactions bookmarks :
  (distinct_users interactions <=
   List.length (index (run_matrix interactions bookmarks)))%nat.
Proof.
  unfold distinct_users. rewrite index_run_matrix.
  apply NoDup_incl_length; [apply NoDup_nodup|].
  intros u Hu. apply nodup_In in Hu. apply sorted_unique_In.
  unfold event_users. apply in_or_app. left. exact Hu.
Qed.

Lemma columns_nonempty interactions bookmarks :
  merge_scores interactions bookmarks <> [] ->
  (1 <= List.length (columns (run_matrix interactions bookmarks)))%nat.
Proof.
  intros Hne.
  destruct (columns (run_matrix interactions bookmarks)) as [|a cs] eqn:E;
    [|simpl; lia].
  exfalso. unfold run_matrix, pivot_table, Dict.items in E. cbn [columns] in E.
  apply sorted_unique_nil, map_eq_nil in E. contradiction.
Qed.

Lemma run_rank_bounds interactions bookmarks :
  (1 <= run_rank interactions bookmarks <= N_COMPONENTS)%Z
  /\ (run_rank interactions bookmarks <=
      Z.max 1 (Z.min (Z.of_nat (List.length (index (run_matrix interactions bookmarks))))
                     (Z.of_nat (List.length (columns (run_matrix interactions bookmarks))))
               - 1))%Z.
Proof.
  unfold run_rank.
  destruct (clamp_n_components_bounds N_COMPONENTS (run_matrix interactions bookmarks))
    as (H1 & H2 & _).
  unfold N_COMPONENTS in *. unfold shape in H2. cbn [fst snd] in H2. lia.
Qed.

Lemma run_doc_entries env interactions preferences bookmarks U A ul al :
  user_factors_list_of (index (run_matrix interactions bookmarks)) U = Ok ul ->
  article_factors_list_of (columns (run_matrix interactions bookmarks)) A = Ok al ->
  let doc := run_doc env interactions preferences bookmarks U ul al in
  map userId (userFactors doc) = sorted_unique (event_users interactions bookmarks)
  /\ map articleId (articleFactors doc) =
     sorted_unique (event_articles interactions bookmarks)
  /\ map u_factors (userFactors doc) =
     firstn (List.length (index (run_matrix interactions bookmarks))) U
  /\ map a_factors (articleFactors doc) =
     firstn (List.length (columns (run_matrix interactions bookmarks))) A.
Proof.
  intros Hul Hal doc. subst doc.
  destruct (user_factors_list_of_cases (index (run_matrix interactions bookmarks)) U)
    as [[Hu Eu]|[_ Eu]]; [|congruence].
  destruct (article_factors_list_of_cases (columns (run_matrix interactions bookmarks)) A)
    as [[Ha Ea]|[_ Ea]]; [|congruence].
  assert (ul = map (fun p => user_entry (fst p) (snd p))
                   (combine (index (run_matrix interactions bookmarks)) U)) by congruence.
  assert (al = map (fun p => article_entry (fst p) (snd p))
                   (combine (columns (run_matrix interactions bookmarks)) A)) by congruence.
  subst ul al. unfold run_doc, assemble_model_doc. cbn [userFactors articleFactors].
  rewrite !map_map. cbn [user_entry article_entry userId articleId u_factors a_factors].
  rewrite <- (map_map fst (fun u : string => u)), map_id.
  rewrite <- (map_map (@fst string (list Q)) (fun u : string => u)), map_id.
  rewrite <- (map_map snd (fun r : list Q => r)), map_id.
  rewrite <- (map_map (@snd string (list Q)) (fun r : list Q => r)), map_id.
  rewrite !map_fst_combine by assumption.
  rewrite !combine_firstn by assumption.
  rewrite index_run_matrix, columns_run_matrix. repeat split; reflexivity.
Qed.

(** *** Fetched lists *)

Lemma length_flat_map_sum {A B} (f : A -> list B) l :
  List.length (flat_map f l) = list_sum (map (fun x => List.length (f x)) l).
Proof.
  induction l as [|x l IH]; simpl; [reflexivity|].
  rewrite length_app, IH. reflexivity.
Qed.

Lemma map_flat_map {A B C} (g : B -> C) (f : A -> list B) l :
  map g (flat_map f l) = flat_map (fun x => map g (f x)) l.
Proof.
  induction l as [|x l IH]; simpl; [reflexivity|].
  rewrite map_app, IH. reflexivity.
Qed.

Lemma flat_map_ext_eq {A B} (f g : A -> list B) l :
  (forall x, f x = g x) -> flat_map f l = flat_map g l.
Proof.
  intros H. induction l as [|x l IH]; simpl; [reflexivity|]. rewrite H, IH. reflexivity.
Qed.

Lemma in_interactions_of_docs i users :
  In i (interactions_of_docs users) <->
  exists user_id articles article_id data,
    In (user_id, articles) users /\ In (article_id, data) articles
    /\ i = interaction_record user_id article_id data.
Proof.
  unfold interactions_of_docs. rewrite in_flat_map. split.
  - intros [[uid arts] [Hu Hi]]. apply in_map_iff in Hi.
    destruct Hi as [[aid data] [<- Ha]]. exists uid, arts, aid, data.
    repeat split; auto.
  - intros (uid & arts & aid & data & Hu & Ha & ->).
    exists (uid, arts). split; [exact Hu|]. apply in_map_iff.
    exists (aid, data). split; [reflexivity|exact Ha].
Qed.

Lemma preferences_of_docs_users users :
  map p_user_id (preferences_of_docs users) = map fst (filter has_preferences users).
Proof.
  unfold preferences_of_docs, has_preferences.
  induction users as [|[uid [data|]] users IH]; simpl; [reflexivity| |exact IH].
  rewrite IH. reflexivity.
Qed.

Lemma in_bookmarks_of_docs b users :
  In b (bookmarks_of_docs users) <->
  exists user_id docs article_id data,
    In (user_id, docs) users /\ In (article_id, data) docs
    /\ b = {| b_user_id := user_id; b_article_id := article_id;
              b_category := match bookmark_category data with
                            | Some c => c
                            | None => "unknown"%string
                            end |}.
Proof.
  unfold bookmarks_of_docs. rewrite in_flat_map. split.
  - intros [[uid docs] [Hu Hb]]. apply in_map_iff in Hb.
    destruct Hb as [[aid data] [<- Ha]]. exists uid, docs, aid, data.
    repeat split; auto.
  - intros (uid & docs & aid & data & Hu & Ha & ->).
    exists (uid, docs). split; [exact Hu|]. apply in_map_iff.
    exists (aid, data). split; [reflexivity|exact Ha].
Qed.

(** *** Initialisation without credentials *)

Lemma init_without_credentials {Json Cred : Type} (sdk : Credentials.Sdk Json Cred) h :
  Credentials.apps h = false ->
  Credentials.missing (Credentials.FIREBASE_SERVICE_ACCOUNT_JSON h) = true ->
  Credentials.local_key_exists h = false ->
  Credentials.init_firebase sdk h =
  (Raise Credentials.no_credentials, Credentials.say Credentials.Initializing h).
Proof.
  intros Happs Henv Hkey. unfold Credentials.init_firebase.
  cbn [Credentials.apps Credentials.say Credentials.FIREBASE_SERVICE_ACCOUNT_JSON
       Credentials.local_key_exists].
  rewrite Happs, Henv, Hkey. reflexivity.
Qed.

Lemma main_init_raised env e store :
  firebase env = Raise e ->
  main env (initial store) =
  (Ok 1%Z, {| ml_models := store; stdout := banner ++ [TrainingFailed e] |}).
Proof.
  intros Hfb. unfold main. prints. unfold try_except.
  rewrite bind_unfold, init_firebase_run, Hfb. prints. reflexivity.
Qed.

(** ** The score loops in double precision *)












(** Over the rationals the score formula of the double-precision loops is
    the one of the exact loops. *)
Lemma exact_score_is_idealised_score (u a c : string) (n : Z) (seconds : Doubles.number)
    (q : Q) (b : bool) :
  Doubles.value seconds = Some q ->
  Doubles.exact_score
    {| Doubles.user_id := u; Doubles.article_id := a; Doubles.click_count := Doubles.Int n;
       Doubles.time_spent := seconds; Doubles.is_bookmarked := b; Doubles.category := c |} =
  Some (interaction_score
          {| i_user_id := u; i_article_id := a; click_count := n; time_spent := q;
             is_bookmarked := b; i_category := c |}).
Proof.
  intros Hq. unfold Doubles.exact_score. cbn [Doubles.click_count Doubles.time_spent
    Doubles.is_bookmarked Doubles.value]. rewrite Hq. reflexivity.
Qed.

(** The reverse order of three short readings gives another score. *)
Example accumulation_order_matters :
  Doubles.merge_scores Doubles.short_readings [] =
    Ok [(("u1", "i1")%string,
         Doubles.Float (SpecFloat.S754_finite false 5404319552844596 (-53)))]
  /\ Doubles.merge_scores (rev Doubles.short_readings) [] =
    Ok [(("u1", "i1")%string,
         Doubles.Float (SpecFloat.S754_finite false 5404319552844595 (-53)))].
Proof. split; vm_compute; reflexivity. Qed.

(** An [int] of 2^1024 is refused; the largest [int] that is converted is
    2^1024 - 2^970 - 1. *)
Example float_of_int_range :
  Doubles.float_of_int (2 ^ 1024) = Raise OverflowError
  /\ Doubles.float_of_int (2 ^ 1024 - 2 ^ 970) = Raise OverflowError
  /\ Doubles.float_of_int (2 ^ 1024 - 2 ^ 970 - 1) =
     Ok (SpecFloat.S754_finite false 9007199254740991 971)
  /\ Doubles.float_of_int 30 = Ok Doubles.thirty.
Proof. repeat split; vm_compute; reflexivity. Qed.

(** * Properties of the specification *)




(** C2. The rank used by the factorisation is
    [min(requested_rank, min(num_users, num_items) - 1)] raised to 1 when
    that is below 1: the solver is run at that rank and that rank is
    returned; a 3 x 2 matrix with requested rank 10 gives rank 1. *)
Theorem C2_effective_rank :
  forall svd matrix requested w,
    let num_users := fst (shape matrix) in
    let num_items := snd (shape matrix) in
    let clamped := Z.min requested (Z.min num_users num_items - 1) in
    let effective_rank := if (clamped <? 1)%Z then 1%Z else clamped in
    fst (train_svd_model svd matrix requested w) =
      match svd effective_rank (values matrix) with
      | Ok fitted => Ok (fst fitted, transpose (snd fitted), effective_rank)
      | Raise e => Raise e
      end
    /\ effective_rank = Z.max 1 (Z.min requested (Z.min num_users num_items - 1))
    /\ (shape matrix = (3%Z, 2%Z) -> requested = 10%Z -> effective_rank = 1%Z).
Proof.
  intros svd matrix requested w num_users num_items clamped effective_rank.
  split; [|split].
  - apply train_svd_model_run.
  - apply clamp_n_components_max.
  - intros Hshape Hreq. subst effective_rank clamped num_users num_items.
    rewrite Hshape, Hreq. reflexivity.
Qed.

Lemma C2_witness :
  fst (train_svd_model zero_svd
         {| index := ["a"; "b"; "c"]%string; columns := ["x"; "y"]%string;
            values := [[1; 0]; [0; 1]; [1; 1]] |} 10 empty_world) =
  Ok ([[0]; [0]; [0]], [[0]; [0]], 1%Z).
Proof.
  destruct (C2_effective_rank zero_svd
              {| index := ["a"; "b"; "c"]%string; columns := ["x"; "y"]%string;
                 values := [[1; 0]; [0; 1]; [1; 1]] |} 10 empty_world) as [Hrun [_ Hrank]].
  rewrite Hrun. cbv zeta. rewrite (Hrank eq_refl eq_refl). reflexivity.
Defined.

(** C3, as stated, fails: a user whose only category score is 0 gives the
    non-empty raw map {A: 0}; the weight emitted for A is 0, so no emitted
    weight is 1. *)
Lemma C3_counterexample :
  ~ (forall preferences,
        accumulate_category_weights preferences <> [] ->
        exists cw, In cw (category_weights_list preferences) /\ weight cw == 1).
Proof.
  intros H. destruct (H zero_preferences) as [cw [Hin Hw]]; [discriminate|].
  vm_compute in Hin. destruct Hin as [<-|[]]. vm_compute in Hw. discriminate.
Qed.

(** C3 (amended). The raw map holds, per category, the sum of that
    category's scores over all preference records. If it is empty the
    emitted list is empty. If it is non-empty and its maximum value is
    positive, every emitted weight is the raw value divided by that maximum,
    so the largest emitted weight is exactly 1; if the maximum is not
    positive the raw values are emitted unchanged. Raw totals
    {A:10, B:5, C:20} give {A:0.5, B:0.25, C:1.0}. *)
Theorem C3_category_weight_normalization :
  forall preferences,
    let raw := accumulate_category_weights preferences in
    let emitted := category_weights_list preferences in
    (forall c, Dict.get string_dec c 0 raw ==
               Qsum (map snd (filter (fun kv => String.eqb (fst kv) c)
                                     (flat_map category_scores preferences))))
    /\ (raw = [] -> emitted = [])
    /\ (raw <> [] ->
        exists max_weight,
          In max_weight (Dict.values raw)
          /\ (forall v, In v (Dict.values raw) -> v <= max_weight)
          /\ (0 < max_weight ->
              emitted = map (fun kv => {| category := fst kv;
                                          weight := snd kv / max_weight |}) raw
              /\ (exists cw, In cw emitted /\ weight cw == 1)
              /\ (forall cw, In cw emitted -> weight cw <= 1))
          /\ (~ 0 < max_weight ->
              emitted = map (fun kv => {| category := fst kv; weight := snd kv |}) raw))
    /\ (map category (category_weights_list example_preferences) = ["A"; "B"; "C"]%string
        /\ Forall2 Qeq (map snd (accumulate_category_weights example_preferences))
                       [10; 5; 20]
        /\ Forall2 Qeq (map weight (category_weights_list example_preferences))
                       [1 # 2; 1 # 4; 1]).
Proof.
  intros preferences raw emitted. split; [|split; [|split]].
  - intros c. apply get_accumulate_category_weights.
  - intros E. subst emitted. unfold category_weights_list. fold raw. rewrite E. reflexivity.
  - intros Hne. subst emitted. unfold category_weights_list, normalize_category_weights.
    fold raw. destruct raw as [|[c v] d] eqn:Eraw; [congruence|].
    cbn [Dict.values map snd]. set (m := max_of v (map snd d)).
    exists m. split; [apply max_of_In|]. split; [apply max_of_upper|]. split.
    + intros Hpos. apply Qpositive_iff in Hpos as Hb. rewrite Hb.
      unfold Dict.items. rewrite map_map. cbn [fst snd]. split; [reflexivity|]. split.
      * destruct (max_of_In v (map snd d)) as [Hm|Hm]; fold m in Hm.
        -- exists {| category := c; weight := v / m |}. split; [left; reflexivity|].
           cbn. rewrite Hm. field. intros Hz. rewrite Hz in Hpos.
           exact (Qlt_irrefl _ Hpos).
        -- apply in_map_iff in Hm. destruct Hm as [[c' v'] [Hv Hin]]. cbn in Hv.
           exists {| category := c'; weight := v' / m |}. split.
           ++ right. apply in_map_iff. exists (c', v'). auto.
           ++ cbn. rewrite Hv. field. intros Hz. rewrite Hz in Hpos.
              exact (Qlt_irrefl _ Hpos).
      * intros cw Hin. change (In cw (map (fun kv : string * Q =>
                 {| category := fst kv; weight := snd kv / m |}) ((c, v) :: d))) in Hin.
        apply in_map_iff in Hin. destruct Hin as [[c' v'] [<- Hin]]. cbn.
        apply Qle_shift_div_r; [exact Hpos|]. rewrite Qmult_1_l.
        apply (max_of_upper v (map snd d)).
        exact (in_map snd _ (c', v') Hin).
    + intros Hnpos. destruct (Qpositive m) eqn:Hb; [|reflexivity].
      apply Qpositive_iff in Hb. contradiction.
  - split; [reflexivity|]. split; vm_compute; repeat constructor.
Qed.

Lemma C3_witness :
  exists cw, In cw (category_weights_list example_preferences) /\ weight cw == 1.
Proof.
  destruct (C3_category_weight_normalization example_preferences)
    as [_ [_ [Hnorm _]]].
  destruct (Hnorm ltac:(discriminate)) as [m [Hin [_ [Hpos _]]]].
  assert (Hm : 0 < m).
  { vm_compute in Hin. destruct Hin as [<-|[<-|[<-|[]]]]; reflexivity. }
  destruct (Hpos Hm) as [_ [Hone _]]. exact Hone.
Defined.

(** C4, as stated, fails: one user who touched two articles gives a 1 x 2
    matrix, for which the factorisation is run at rank 1 and returns it,
    while [min(num_users, num_items) - 1] is 0. *)
Lemma C4_counterexample :
  ~ (forall svd interactions bookmarks w matrix user_ids article_ids w1
            user_factors article_factors R w2,
        build_interaction_matrix interactions bookmarks w =
          (Ok (Some (matrix, user_ids, article_ids)), w1) ->
        train_svd_model svd matrix N_COMPONENTS w1 =
          (Ok (user_factors, article_factors, R), w2) ->
        (1 <= R /\ R <= Z.min (fst (shape matrix)) (snd (shape matrix)) - 1)%Z).
Proof.
  intros H.
  specialize (H zero_svd lone_user_interactions [] empty_world
                (pivot_table (merge_scores lone_user_interactions []) 0)
                ["u1"]%string ["i1"; "i2"]%string
                {| ml_models := None; stdout := [BuildingMatrix; MatrixShape (1%Z, 2%Z)] |}
                [[0]] [[0]; [0]] 1%Z
                {| ml_models := None;
                   stdout := [BuildingMatrix; MatrixShape (1%Z, 2%Z);
                              TrainingSVD 10; SVDTrained] |}
                eq_refl eq_refl).
  vm_compute in H. destruct H as [_ H]. apply H. reflexivity.
Qed.

(** C4 (amended). For every matrix the builder returns, the rank R returned
    by the factorisation satisfies [R >= 1] and
    [R <= max 1 (min(num_users, num_items) - 1)]; so [R <= min(num_users,
    num_items) - 1] whenever the matrix has at least two users and two
    articles. *)
Theorem C4_rank_bounds :
  forall svd interactions bookmarks w matrix user_ids article_ids w1
         user_factors article_factors R w2,
    build_interaction_matrix interactions bookmarks w =
      (Ok (Some (matrix, user_ids, article_ids)), w1) ->
    train_svd_model svd matrix N_COMPONENTS w1 =
      (Ok (user_factors, article_factors, R), w2) ->
    let smaller := Z.min (fst (shape matrix)) (snd (shape matrix)) in
    (1 <= R /\ R <= Z.max 1 (smaller - 1) /\ (2 <= smaller -> R <= smaller - 1))%Z.
Proof.
  intros svd interactions bookmarks w matrix user_ids article_ids w1
         user_factors article_factors R w2 _ Htrain smaller.
  apply train_svd_model_Ok in Htrain. destruct Htrain as [-> _].
  rewrite clamp_n_components_max. fold smaller. unfold N_COMPONENTS. lia.
Qed.

Lemma C4_witness :
  (1 <= 1 /\ 1 <= Z.max 1 (Z.min 2 2 - 1) /\ (2 <= Z.min 2 2 -> 1 <= Z.min 2 2 - 1))%Z.
Proof.
  exact (C4_rank_bounds zero_svd scenario_interactions [] empty_world
           (pivot_table (merge_scores scenario_interactions []) 0)
           ["u1"; "u2"]%string ["i1"; "i2"]%string
           {| ml_models := None; stdout := [BuildingMatrix; MatrixShape (2%Z, 2%Z)] |}
           [[0]; [0]] [[0]; [0]] 1%Z
           {| ml_models := None;
              stdout := [BuildingMatrix; MatrixShape (2%Z, 2%Z);
                         TrainingSVD 10; SVDTrained] |}
           eq_refl eq_refl).
Defined.

(** C5. In every built model document, [trainingStats.totalInteractions] is
    the sum over the users of the length of the user's factor vector, as
    given to the builder and as stored under the user's id; with one factor
    row per user, each of the achieved rank, that is the number of users
    times the rank. *)
Theorem C5_total_interactions :
  forall env user_ids article_ids user_factors article_factors n_components
         preferences w model_doc version w',
    build_model_artifacts env user_ids article_ids user_factors article_factors
      n_components preferences w = (Ok (model_doc, version), w') ->
    List.length user_factors = List.length user_ids ->
    Forall (fun row => Z.of_nat (List.length row) = n_components) user_factors ->
    (totalInteractions (trainingStats model_doc) =
       fold_right Z.add 0%Z
         (map (fun e => Z.of_nat (List.length (u_factors e))) (userFactors model_doc))
     /\ totalInteractions (trainingStats model_doc) =
          (totalUsers (trainingStats model_doc) * nComponents model_doc)%Z)
    /\ map userId (userFactors model_doc) = user_ids
    /\ map u_factors (userFactors model_doc) = user_factors
    /\ totalUsers (trainingStats model_doc) = Z.of_nat (List.length user_ids)
    /\ nComponents model_doc = n_components
    /\ totalInteractions (trainingStats model_doc) =
         fold_right Z.add 0%Z (map (fun row => Z.of_nat (List.length row)) user_factors)
    /\ totalInteractions (trainingStats model_doc) =
         (Z.of_nat (List.length user_ids) * n_components)%Z.
Proof.
  intros env user_ids article_ids user_factors article_factors n_components
         preferences w model_doc version w' Hrun Hlen Hrows.
  apply build_model_artifacts_Ok in Hrun.
  destruct Hrun as (_ & _ & Hu & _ & Hstats & Hn & _).
  rewrite Hstats, Hu, Hn. cbn [totalInteractions totalUsers].
  assert (Hids : map userId
                   (map (fun p => user_entry (fst p) (snd p)) (combine user_ids user_factors)) =
                 user_ids).
  { rewrite map_map. cbn [user_entry userId].
    apply map_fst_combine. rewrite Hlen. apply Nat.le_refl. }
  assert (Hrowsof : map u_factors
                   (map (fun p => user_entry (fst p) (snd p)) (combine user_ids user_factors)) =
                 user_factors).
  { rewrite map_map. cbn [user_entry u_factors].
    apply map_snd_combine. symmetry. exact Hlen. }
  assert (Hprod : fold_right Z.add 0%Z
                    (map (fun uf => Z.of_nat (List.length uf)) user_factors) =
                  (Z.of_nat (List.length user_ids) * n_components)%Z).
  { rewrite (sum_lengths_uniform _ _ Hrows), Hlen. reflexivity. }
  repeat split; try assumption; try reflexivity.
  rewrite <- (map_map u_factors (fun row => Z.of_nat (List.length row))), Hrowsof.
  reflexivity.
Qed.

Lemma C5_witness :
  totalInteractions (trainingStats example_model_doc) = 4%Z
  /\ map userId (userFactors example_model_doc) = ["u1"; "u2"]%string
  /\ map u_factors (userFactors example_model_doc) = [[1; 2]; [3; 4]]
  /\ totalInteractions (trainingStats example_model_doc) =
       (Z.of_nat (List.length ["u1"; "u2"]%string) * 2)%Z.
Proof.
  split; [reflexivity|].
  destruct (C5_total_interactions (example_env accepting_db) ["u1"; "u2"]%string
              ["i1"; "i2"]%string [[1; 2]; [3; 4]] [[5; 6]; [7; 8]] 2 [] empty_world
              example_model_doc "v20240101_000000"%string
              {| ml_models := None; stdout := [BuildingArtifacts; ArtifactsBuilt 2 2] |}
              eq_refl eq_refl)
    as (_ & Hids & Hrows & _ & _ & _ & Hprod).
  - repeat constructor.
  - repeat split; assumption.
Defined.

(** C6. Whenever the matrix builder returns a matrix, the sum of all its
    cells equals the sum of the values of the score map, and every cell
    whose (user, article) pair is not a key of the score map is exactly 0. *)
Theorem C6_matrix_sum_and_zero_fill :
  forall interactions bookmarks w matrix user_ids article_ids w',
    build_interaction_matrix interactions bookmarks w =
      (Ok (Some (matrix, user_ids, article_ids)), w') ->
    matrix_sum matrix == Qsum (Dict.values (merge_scores interactions bookmarks))
    /\ forall i j u a,
         nth_error user_ids i = Some u ->
         nth_error article_ids j = Some a ->
         ~ In (u, a) (Dict.keys (merge_scores interactions bookmarks)) ->
         cell matrix i j = Some 0.
Proof.
  intros interactions bookmarks w matrix user_ids article_ids w' Hrun.
  apply build_interaction_matrix_Some in Hrun. destruct Hrun as [_ E].
  inversion E; subst; clear E. split.
  - apply matrix_sum_pivot_table, NoDup_keys_merge_scores.
  - intros i j u a Hi Hj Hnot.
    rewrite (cell_pivot_table _ i j u a Hi Hj).
    rewrite pivot_cell_unobserved by exact Hnot. reflexivity.
Qed.

Lemma C6_witness :
  matrix_sum (pivot_table (merge_scores scenario_interactions []) 0) ==
    Qsum (Dict.values (merge_scores scenario_interactions []))
  /\ cell (pivot_table (merge_scores scenario_interactions []) 0) 1 1 = Some 0.
Proof.
  destruct (C6_matrix_sum_and_zero_fill scenario_interactions [] empty_world
              (pivot_table (merge_scores scenario_interactions []) 0)
              ["u1"; "u2"]%string ["i1"; "i2"]%string
              {| ml_models := None; stdout := [BuildingMatrix; MatrixShape (2%Z, 2%Z)] |}
              eq_refl) as [Hsum Hzero].
  split; [exact Hsum|].
  apply (Hzero 1%nat 1%nat "u2"%string "i2"%string); [reflexivity|reflexivity|].
  vm_compute. intuition discriminate.
Defined.

Ltac same_fetch :=
  repeat match goal with
  | H1 : ?x = Ok ?a, H2 : ?x = Ok ?b |- _ =>
      assert (a = b) by congruence; subst b; clear H2
  | H1 : ?x = Ok _, H2 : ?x = Raise _ |- _ => congruence
  end.

Ltac show_run :=
  unfold banner, gate_passed, MIN_USERS, MIN_INTERACTIONS in *;
  cbn [fst snd stdout ml_models commit initial app handler_lines exit_code
       filter stage_line In].

(** C7. Given the fetched interaction events: when fewer than 2 distinct
    users or fewer than 3 events were fetched, [main] returns 0, prints the
    skip line, prints no line of the matrix, training or upload stages and
    leaves the stored document as it was; the training stage is entered
    exactly when both thresholds are met. *)
Theorem C7_skip_below_thresholds :
  forall env db ui up ub store,
    firebase env = Ok db ->
    user_interactions db = Ok ui ->
    user_preferences db = Ok up ->
    user_bookmarks db = Ok ub ->
    let interactions := interactions_of_docs ui in
    let users := Z.of_nat (distinct_users interactions) in
    let events := Z.of_nat (List.length interactions) in
    let run := main env (initial store) in
    ((users < 2 \/ events < 3)%Z ->
       fst run = Ok 0%Z
       /\ ml_models (snd run) = store
       /\ filter stage_line (stdout (snd run)) = []
       /\ In SkippingTraining (stdout (snd run)))
    /\ (In (TrainingSVD N_COMPONENTS) (stdout (snd run)) <-> (2 <= users /\ 3 <= events)%Z).
Proof.
  intros env db ui up ub store Hfb Hui Hup Hub interactions users events run.
  subst run users events interactions.
  destruct (main_classified env store) as (code & written & lines & Hout & Hrun).
  rewrite Hrun. clear Hrun.
  destruct Hout as [e Hfb'|db' e Hfb' Hui'|db' ui' e Hfb' Hui' Hup'
                   |db' ui' up' e Hfb' Hui' Hup' Hub'
                   |db' ui' up' ub' r written lines Hfb' Hui' Hup' Hub' Hout];
    same_fetch.
  pose proof (gate_scores_nonempty (interactions_of_docs ui) (bookmarks_of_docs ub))
    as Hscores.
  destruct Hout; show_run; (split; [intros Hlow|split; [intros Hin|intros Hok]]).
  all: try lia.
  all: try (repeat split; auto 10; fail).
  all: try (intuition (try discriminate; try lia); fail).
Qed.

Lemma C7_witness :
  fst (main (example_env single_user_db) (initial None)) = Ok 0%Z
  /\ ml_models (snd (main (example_env single_user_db) (initial None))) = None
  /\ filter stage_line (stdout (snd (main (example_env single_user_db) (initial None)))) = []
  /\ In SkippingTraining (stdout (snd (main (example_env single_user_db) (initial None)))).
Proof.
  destruct (C7_skip_below_thresholds (example_env single_user_db) single_user_db
              _ _ _ None eq_refl eq_refl eq_refl eq_refl) as [Hskip _].
  apply Hskip. left. reflexivity.
Defined.

(** C8. When the merged score map is empty at the call of
    [build_interaction_matrix], the builder returns no matrix, and [main]
    from that call on prints the failure line, prints no line of the
    training or upload stages, leaves the stored document as it was and
    returns 1, which the enclosing [try] hands on unchanged. *)
Theorem C8_empty_scores_fail :
  forall env db interactions preferences bookmarks w,
    merge_scores interactions bookmarks = [] ->
    let run := build_and_train env db interactions preferences bookmarks w in
    fst (build_interaction_matrix interactions bookmarks w) = Ok None
    /\ fst run = Ok 1%Z
    /\ ml_models (snd run) = ml_models w
    /\ stdout (snd run) = stdout w ++ [BuildingMatrix; NoInteractionData; FailedToBuildMatrix]
    /\ try_except (build_and_train env db interactions preferences bookmarks)
         (fun e => print (TrainingFailed e) ;; ret 1%Z)%monad w = run.
Proof.
  intros env db interactions preferences bookmarks w Hempty run. subst run.
  unfold try_except, build_and_train.
  rewrite bind_unfold, build_interaction_matrix_run, Hempty.
  unfold train_and_publish. prints. cbn. repeat split; reflexivity.
Qed.

Lemma C8_witness :
  fst (build_interaction_matrix [] [] empty_world) = Ok None
  /\ fst (build_and_train (example_env accepting_db) accepting_db [] [] [] empty_world)
     = Ok 1%Z.
Proof.
  destruct (C8_empty_scores_fail (example_env accepting_db) accepting_db [] [] []
              empty_world eq_refl) as (Hnone & Hcode & _).
  split; assumption.
Defined.

(** C9. The user ordering the matrix builder returns is the row labelling of
    the matrix, and entry i of [userFactors] pairs [user_ids[i]] with row i
    of the user-factor array; likewise the article ordering is the column
    labelling and entry j of [articleFactors] pairs [article_ids[j]] with row
    j of the article-factor array. *)
Theorem C9_factor_order_matches_matrix_order :
  forall env interactions bookmarks preferences w matrix user_ids article_ids w1
         user_factors article_factors n_components w2 model_doc version w3,
    build_interaction_matrix interactions bookmarks w =
      (Ok (Some (matrix, user_ids, article_ids)), w1) ->
    train_svd_model (TruncatedSVD env) matrix N_COMPONENTS w1 =
      (Ok (user_factors, article_factors, n_components), w2) ->
    build_model_artifacts env user_ids article_ids user_factors article_factors
      n_components preferences w2 = (Ok (model_doc, version), w3) ->
    user_ids = index matrix
    /\ article_ids = columns matrix
    /\ (forall i u, nth_error user_ids i = Some u ->
          nth_error (values matrix) i =
          Some (map (pivot_cell (merge_scores interactions bookmarks) 0 u) article_ids))
    /\ map userId (userFactors model_doc) = user_ids
    /\ map articleId (articleFactors model_doc) = article_ids
    /\ (forall i u, nth_error user_ids i = Some u ->
          exists row, nth_error user_factors i = Some row
                      /\ nth_error (userFactors model_doc) i =
                         Some {| userId := u; u_factors := row |})
    /\ (forall j a, nth_error article_ids j = Some a ->
          exists row, nth_error article_factors j = Some row
                      /\ nth_error (articleFactors model_doc) j =
                         Some {| articleId := a; a_factors := row |}).
Proof.
  intros env interactions bookmarks preferences w matrix user_ids article_ids w1
         user_factors article_factors n_components w2 model_doc version w3
         Hbuild _ Hdoc.
  apply build_interaction_matrix_Some in Hbuild. destruct Hbuild as [_ E].
  injection E as Em Eu Ea. subst matrix user_ids article_ids.
  apply build_model_artifacts_Ok in Hdoc.
  destruct Hdoc as (Hu & Ha & HU & HA & _).
  split; [reflexivity|]. split; [reflexivity|]. split; [|split; [|split; [|split]]].
  - intros i u Hi. unfold pivot_table at 1. cbn [values].
    rewrite nth_error_map. unfold pivot_table in Hi. cbn [index] in Hi.
    rewrite Hi. reflexivity.
  - rewrite HU, map_map. cbn [user_entry userId].
    rewrite <- (map_map fst (fun u => u)), map_id. apply map_fst_combine, Hu.
  - rewrite HA, map_map. cbn [article_entry articleId].
    rewrite <- (map_map fst (fun a => a)), map_id. apply map_fst_combine, Ha.
  - intros i u Hi.
    destruct (nth_error user_factors i) as [row|] eqn:Erow.
    + exists row. split; [reflexivity|]. rewrite HU, nth_error_map.
      rewrite (nth_error_combine _ _ i u row Hi Erow). reflexivity.
    + apply nth_error_None in Erow. apply nth_error_lt in Hi. lia.
  - intros j a Hj.
    destruct (nth_error article_factors j) as [row|] eqn:Erow.
    + exists row. split; [reflexivity|]. rewrite HA, nth_error_map.
      rewrite (nth_error_combine _ _ j a row Hj Erow). reflexivity.
    + apply nth_error_None in Erow. apply nth_error_lt in Hj. lia.
Qed.

Lemma C9_witness :
  map userId (userFactors scenario_model_doc) = ["u1"; "u2"]%string
  /\ map articleId (articleFactors scenario_model_doc) = ["i1"; "i2"]%string.
Proof.
  destruct (C9_factor_order_matches_matrix_order (example_env accepting_db)
              scenario_interactions [] [] empty_world
              (pivot_table (merge_scores scenario_interactions []) 0)
              ["u1"; "u2"]%string ["i1"; "i2"]%string
              {| ml_models := None; stdout := [BuildingMatrix; MatrixShape (2%Z, 2%Z)] |}
              [[0]; [0]] [[0]; [0]] 1%Z
              {| ml_models := None;
                 stdout := [BuildingMatrix; MatrixShape (2%Z, 2%Z);
                            TrainingSVD 10; SVDTrained] |}
              scenario_model_doc "v20240101_000000"%string
              {| ml_models := None;
                 stdout := [BuildingMatrix; MatrixShape (2%Z, 2%Z);
                            TrainingSVD 10; SVDTrained;
                            BuildingArtifacts; ArtifactsBuilt 2 2] |}
              eq_refl eq_refl eq_refl) as (_ & _ & _ & Hu & Ha & _).
  split; assumption.
Defined.

(** C10. [upload_model_to_firestore] returns [True] or raises what the
    document write raised; it never returns [False]. So no run of [main]
    prints the upload-failure line, and a run that reached the upload and
    exits with 1 does so through the top-level handler, with the exception
    the document write raised and the stored document left as it was. *)
Theorem C10_upload_failure_only_by_exception :
  forall env store,
    (forall db model_doc version w,
        fst (upload_model_to_firestore db model_doc version w) = Ok true
        \/ exists e, ml_models_set db model_doc = Raise e
                     /\ fst (upload_model_to_firestore db model_doc version w) = Raise e)
    /\ ~ In FailedToUpload (stdout (snd (main env (initial store))))
    /\ (forall v,
          In (Uploading v) (stdout (snd (main env (initial store)))) ->
          fst (main env (initial store)) = Ok 1%Z ->
          exists e db model_doc,
            firebase env = Ok db
            /\ ml_models_set db model_doc = Raise e
            /\ In (TrainingFailed e) (stdout (snd (main env (initial store))))
            /\ ml_models (snd (main env (initial store))) = store).
Proof.
  intros env store. split; [|].
  { intros db model_doc version w. rewrite upload_model_to_firestore_run.
    destruct (ml_models_set db model_doc) as [u|e]; [left; reflexivity|].
    right. exists e. split; reflexivity. }
  destruct (main_classified env store) as (code & written & lines & Hout & Hrun).
  rewrite Hrun. clear Hrun.
  destruct Hout as [e Hfb'|db' e Hfb' Hui'|db' ui' e Hfb' Hui' Hup'
                   |db' ui' up' e Hfb' Hui' Hup' Hub'
                   |db' ui' up' ub' r written lines Hfb' Hui' Hup' Hub' Hout].
  5: destruct Hout.
  all: show_run.
  all: split; [intuition discriminate|].
  all: intros v Hin Hcode; try discriminate Hcode.
  all: try (exfalso; intuition discriminate).
  match goal with
  | Hset : ml_models_set ?db ?doc = Raise ?e |- _ =>
      exists e, db, doc; repeat split; auto 20
  end.
Qed.

Lemma C10_witness :
  fst (main (example_env scenario_db_rejecting) (initial None)) = Ok 1%Z
  /\ ~ In FailedToUpload (stdout (snd (main (example_env scenario_db_rejecting) (initial None))))
  /\ In (TrainingFailed (ExternalError "deadline exceeded"))
        (stdout (snd (main (example_env scenario_db_rejecting) (initial None)))).
Proof.
  destruct (C10_upload_failure_only_by_exception (example_env scenario_db_rejecting) None)
    as (_ & Hnever & Honly).
  split; [reflexivity|]. split; [exact Hnever|].
  destruct (Honly "v20240101_000000"%string) as (e & db & doc & Hdb & Hset & Hin & _).
  - vm_compute. tauto.
  - reflexivity.
  - injection Hdb as <-. cbn in Hset. injection Hset as <-. exact Hin.
Defined.

(** * Further properties of the code *)

(** ** The matrix builder *)

(** X1. The score map has exactly one entry per (user, article) pair that
    occurs in an interaction or a bookmark event, and no other entry. *)
Theorem X1_score_keys :
  forall interactions bookmarks,
    NoDup (Dict.keys (merge_scores interactions bookmarks))
    /\ forall u a,
         In (u, a) (Dict.keys (merge_scores interactions bookmarks)) <->
         (exists i, In i interactions /\ i_user_id i = u /\ i_article_id i = a)
         \/ (exists b, In b bookmarks /\ b_user_id b = u /\ b_article_id b = a).
Proof.
  intros interactions bookmarks. split; [apply NoDup_keys_merge_scores|].
  intros u a. rewrite in_keys_merge_scores. unfold interaction_key, bookmark_key.
  split.
  - intros [[i [Hi E]]|[b [Hb E]]]; injection E as E1 E2; eauto 6.
  - intros [[i [Hi [E1 E2]]]|[b [Hb [E1 E2]]]]; subst; eauto 6.
Qed.

(** X2. [build_interaction_matrix] returns no matrix exactly when there is
    neither an interaction nor a bookmark event, and it never writes the
    stored document. *)
Theorem X2_no_matrix_iff_no_events :
  forall interactions bookmarks w,
    (fst (build_interaction_matrix interactions bookmarks w) = Ok None <->
     interactions = [] /\ bookmarks = [])
    /\ ml_models (snd (build_interaction_matrix interactions bookmarks w)) = ml_models w.
Proof.
  intros interactions bookmarks w. split.
  - rewrite build_interaction_matrix_result, <- merge_scores_nil_iff.
    destruct (merge_scores interactions bookmarks); split; congruence.
  - rewrite build_interaction_matrix_run.
    destruct (merge_scores interactions bookmarks); reflexivity.
Qed.

(** X3. The identifier lists returned with the matrix are its row and column
    labels; each is in ascending order without repetition and holds exactly
    the user ids (article ids) of the interaction and bookmark events; the
    matrix has one row per user and every row has one cell per article. *)
Theorem X3_matrix_labels_and_shape :
  forall interactions bookmarks w matrix user_ids article_ids w',
    build_interaction_matrix interactions bookmarks w =
      (Ok (Some (matrix, user_ids, article_ids)), w') ->
    user_ids = index matrix
    /\ article_ids = columns matrix
    /\ StronglySorted (fun x y => String.leb x y = true) user_ids
    /\ StronglySorted (fun x y => String.leb x y = true) article_ids
    /\ NoDup user_ids
    /\ NoDup article_ids
    /\ (forall u, In u user_ids <-> In u (event_users interactions bookmarks))
    /\ (forall a, In a article_ids <-> In a (event_articles interactions bookmarks))
    /\ List.length (values matrix) = List.length user_ids
    /\ Forall (fun row => List.length row = List.length article_ids) (values matrix).
Proof.
  intros interactions bookmarks w matrix user_ids article_ids w' H.
  apply build_interaction_matrix_Some_run in H. destruct H as (_ & -> & -> & ->).
  split; [reflexivity|]. split; [reflexivity|].
  rewrite values_run_matrix, index_run_matrix, columns_run_matrix.
  repeat split; try apply sorted_unique_StronglySorted; try apply sorted_unique_NoDup;
    try (apply sorted_unique_In; assumption).
  - apply length_map.
  - apply Forall_forall. intros row Hrow. apply in_map_iff in Hrow.
    destruct Hrow as [u [<- _]]. apply length_map.
Qed.

Lemma X3_witness :
  StronglySorted (fun x y => String.leb x y = true) ["u1"; "u2"]%string
  /\ List.length (values (pivot_table (merge_scores scenario_interactions []) 0)) = 2%nat.
Proof.
  destruct (X3_matrix_labels_and_shape scenario_interactions [] empty_world
              (pivot_table (merge_scores scenario_interactions []) 0)
              ["u1"; "u2"]%string ["i1"; "i2"]%string
              {| ml_models := None; stdout := [BuildingMatrix; MatrixShape (2%Z, 2%Z)] |}
              eq_refl) as (_ & _ & Hs & _ & _ & _ & _ & _ & Hlen & _).
  split; assumption.
Defined.

(** X4. Cell (i, j) of the returned matrix exists exactly for i below the
    number of users and j below the number of articles, and it holds the
    score of the pair (user_ids[i], article_ids[j]), 0 when the pair has no
    score. *)
Theorem X4_cell_is_score :
  forall interactions bookmarks w matrix user_ids article_ids w' i j,
    build_interaction_matrix interactions bookmarks w =
      (Ok (Some (matrix, user_ids, article_ids)), w') ->
    match nth_error user_ids i, nth_error article_ids j with
    | Some u, Some a =>
        exists v, cell matrix i j = Some v
                  /\ v == Dict.get key_eq_dec (u, a) 0 (merge_scores interactions bookmarks)
    | _, _ => cell matrix i j = None
    end.
Proof.
  intros interactions bookmarks w matrix user_ids article_ids w' i j H.
  apply build_interaction_matrix_Some_run in H. destruct H as (_ & -> & -> & ->).
  rewrite cell_run_matrix.
  destruct (nth_error (index (run_matrix interactions bookmarks)) i) as [u|];
    [|reflexivity].
  destruct (nth_error (columns (run_matrix interactions bookmarks)) j) as [a|];
    [|reflexivity].
  eexists. split; [reflexivity|].
  apply pivot_cell_scores, NoDup_keys_merge_scores.
Qed.

Lemma X4_witness :
  exists v, cell (pivot_table (merge_scores scenario_interactions []) 0) 0 1 = Some v
            /\ v == 7.
Proof.
  destruct (X4_cell_is_score scenario_interactions [] empty_world
              (pivot_table (merge_scores scenario_interactions []) 0)
              ["u1"; "u2"]%string ["i1"; "i2"]%string
              {| ml_models := None; stdout := [BuildingMatrix; MatrixShape (2%Z, 2%Z)] |}
              0%nat 1%nat eq_refl) as [v [Hcell Hv]].
  exists v. split; [exact Hcell|]. rewrite Hv. reflexivity.
Defined.

(** X5. The labels of the result do not depend on the order of the events:
    when the builder returns for two interaction lists and two bookmark
    lists that are permutations of each other, it returns the same user ids
    and the same article ids, labelling matrices with rows of the same
    lengths, or no matrix in both cases. *)
Theorem X5_labels_independent_of_event_order :
  forall interactions interactions' bookmarks bookmarks' w w' built built' w1 w1',
    Permutation interactions interactions' ->
    Permutation bookmarks bookmarks' ->
    build_interaction_matrix interactions bookmarks w = (Ok built, w1) ->
    build_interaction_matrix interactions' bookmarks' w' = (Ok built', w1') ->
    match built, built' with
    | Some (m, us, cs), Some (m', us', cs') =>
        us = us' /\ cs = cs' /\ index m = index m' /\ columns m = columns m'
        /\ map (@List.length Q) (values m) = map (@List.length Q) (values m')
    | None, None => True
    | _, _ => False
    end.
Proof.
  intros interactions interactions' bookmarks bookmarks' w w' built built' w1 w1'
         Hi Hb Hrun Hrun'.
  apply (f_equal fst) in Hrun, Hrun'. cbn [fst] in Hrun, Hrun'.
  rewrite build_interaction_matrix_result in Hrun, Hrun'.
  assert (Husers : index (run_matrix interactions bookmarks) =
                   index (run_matrix interactions' bookmarks')).
  { rewrite !index_run_matrix. apply sorted_unique_set. intros u.
    unfold event_users. rewrite !in_app_iff, !in_map_iff.
    split; (intros [[x [E Hx]]|[x [E Hx]]]; [left|right]; exists x; split; auto);
      (eapply Permutation_in; [|exact Hx]); auto using Permutation_sym. }
  assert (Harticles : columns (run_matrix interactions bookmarks) =
                      columns (run_matrix interactions' bookmarks')).
  { rewrite !columns_run_matrix. apply sorted_unique_set. intros a.
    unfold event_articles. rewrite !in_app_iff, !in_map_iff.
    split; (intros [[x [E Hx]]|[x [E Hx]]]; [left|right]; exists x; split; auto);
      (eapply Permutation_in; [|exact Hx]); auto using Permutation_sym. }
  destruct (merge_scores interactions bookmarks) as [|kv d] eqn:E;
    destruct (merge_scores interactions' bookmarks') as [|kv' d'] eqn:E';
    injection Hrun as <-; injection Hrun' as <-.
  - exact I.
  - apply merge_scores_nil_iff in E. destruct E as [-> ->].
    apply Permutation_nil in Hi, Hb. subst. discriminate.
  - apply merge_scores_nil_iff in E'. destruct E' as [-> ->].
    apply Permutation_sym, Permutation_nil in Hi. apply Permutation_sym, Permutation_nil in Hb.
    subst. discriminate.
  - repeat split; auto.
    rewrite !values_run_matrix, <- Husers, <- Harticles, !map_map.
    apply map_ext. intros u. rewrite !length_map. reflexivity.
Qed.

Lemma X5_witness :
  index (run_matrix scenario_interactions []) =
    index (run_matrix (rev scenario_interactions) [])
  /\ columns (run_matrix scenario_interactions []) =
     columns (run_matrix (rev scenario_interactions) []).
Proof.
  pose proof (X5_labels_independent_of_event_order
                scenario_interactions (rev scenario_interactions) [] []
                empty_world empty_world _ _ _ _
                (Permutation_rev _) (Permutation_refl _) eq_refl eq_refl) as H.
  cbv beta iota in H. destruct H as (_ & _ & Hindex & Hcolumns & _).
  split; assumption.
Defined.

(** X6. When no interaction has a negative click count or reading time,
    every score and every cell of the matrix is non-negative. *)
Theorem X6_scores_nonnegative :
  forall interactions bookmarks w matrix user_ids article_ids w',
    Forall (fun i => (0 <= click_count i)%Z /\ 0 <= time_spent i) interactions ->
    build_interaction_matrix interactions bookmarks w =
      (Ok (Some (matrix, user_ids, article_ids)), w') ->
    (forall k, 0 <= Dict.get key_eq_dec k 0 (merge_scores interactions bookmarks))
    /\ (forall i j v, cell matrix i j = Some v -> 0 <= v).
Proof.
  intros interactions bookmarks w matrix user_ids article_ids w' Hall H.
  apply build_interaction_matrix_Some_run in H. destruct H as (_ & -> & -> & ->).
  split; [intros k; apply merge_scores_nonneg, Hall|].
  intros i j v. rewrite cell_run_matrix.
  destruct (nth_error (index (run_matrix interactions bookmarks)) i) as [u|];
    [|discriminate].
  destruct (nth_error (columns (run_matrix interactions bookmarks)) j) as [a|];
    [|discriminate].
  intros E. injection E as <-.
  rewrite pivot_cell_scores by apply NoDup_keys_merge_scores.
  apply merge_scores_nonneg, Hall.
Qed.

Lemma X6_witness :
  0 <= Dict.get key_eq_dec ("u1", "i2")%string 0 (merge_scores scenario_interactions []).
Proof.
  refine (proj1 (X6_scores_nonnegative scenario_interactions [] empty_world
              (pivot_table (merge_scores scenario_interactions []) 0)
              ["u1"; "u2"]%string ["i1"; "i2"]%string
              {| ml_models := None; stdout := [BuildingMatrix; MatrixShape (2%Z, 2%Z)] |}
              _ eq_refl) ("u1", "i2")%string).
  repeat constructor; discriminate.
Defined.

(** ** The factorisation *)



(** X8. When the solver's [components_] has one row per component and one
    column per article, the article factors [train_svd_model] returns have
    one row per article and one entry per component; the user factors are
    the solver's transformed rows as they are. *)
Theorem X8_article_factor_shape :
  forall svd matrix requested w U C,
    svd (clamp_n_components requested matrix) (values matrix) = Ok (U, C) ->
    Z.of_nat (List.length C) = clamp_n_components requested matrix ->
    Forall (fun row => List.length row = List.length (columns matrix)) C ->
    fst (train_svd_model svd matrix requested w) =
      Ok (U, transpose C, clamp_n_components requested matrix)
    /\ List.length (transpose C) = List.length (columns matrix)
    /\ Forall (fun row => Z.of_nat (List.length row) = clamp_n_components requested matrix)
              (transpose C).
Proof.
  intros svd matrix requested w U C Hsvd Hlen Hrows.
  rewrite train_svd_model_world, Hsvd. split; [reflexivity|].
  destruct (clamp_n_components_bounds requested matrix) as ([Hpos _] & _).
  destruct (transpose_shape C (List.length C) (List.length (columns matrix)))
    as [Hl Hr]; [lia|reflexivity|exact Hrows|].
  split; [exact Hl|].
  eapply Forall_impl; [|exact Hr]. cbv beta. intros row ->. exact Hlen.
Qed.

Lemma X8_witness :
  List.length (transpose [[1; 2; 3]]) = 3%nat
  /\ Forall (fun row => Z.of_nat (List.length row) = 1%Z) (transpose [[1; 2; 3]]).
Proof.
  exact (proj2 (X8_article_factor_shape
           (fun _ _ => Ok ([[4]; [5]], [[1; 2; 3]]))
           {| index := ["a"; "b"]%string; columns := ["x"; "y"; "z"]%string;
              values := [[1; 0; 0]; [0; 1; 0]] |} 10 empty_world
           [[4]; [5]] [[1; 2; 3]] eq_refl eq_refl
           ltac:(repeat constructor))).
Defined.

(** ** The model document *)

(** X9. [build_model_artifacts] never writes the stored document. It
    returns when there are at least as many user factor rows as user ids
    and at least as many article factor rows as article ids; the returned
    version string is the document's [version], the letter v followed by
    the time stamp, and the lists have one entry per id. Otherwise it raises
    [IndexError]. *)
Theorem X9_artifacts_outcome :
  forall env user_ids article_ids user_factors article_factors n_components
         preferences w,
    let run := build_model_artifacts env user_ids article_ids user_factors
                 article_factors n_components preferences w in
    ml_models (snd run) = ml_models w
    /\ match fst run with
       | Ok (model_doc, v) =>
           (List.length user_ids <= List.length user_factors)%nat
           /\ (List.length article_ids <= List.length article_factors)%nat
           /\ v = version model_doc
           /\ v = ("v" ++ now_strftime env)%string
           /\ createdAt model_doc = now_isoformat env
           /\ List.length (userFactors model_doc) = List.length user_ids
           /\ List.length (articleFactors model_doc) = List.length article_ids
           /\ totalUsers (trainingStats model_doc) = Z.of_nat (List.length user_ids)
           /\ totalArticles (trainingStats model_doc) = Z.of_nat (List.length article_ids)
       | Raise e =>
           e = IndexError
           /\ ((List.length user_factors < List.length user_ids)%nat
               \/ (List.length article_factors < List.length article_ids)%nat)
       end.
Proof.
  intros env user_ids article_ids user_factors article_factors n_components
         preferences w run. subst run.
  rewrite build_model_artifacts_run.
  destruct (user_factors_list_of_cases user_ids user_factors) as [[Hu ->]|[Hu ->]];
    [|cbn; auto].
  destruct (article_factors_list_of_cases article_ids article_factors)
    as [[Ha ->]|[Ha ->]]; [|cbn; auto].
  cbn [fst snd ml_models commit assemble_model_doc version createdAt userFactors
       articleFactors trainingStats totalUsers totalArticles].
  rewrite !length_map, !length_combine. repeat split; auto; lia.
Qed.

Lemma X9_witness :
  fst (build_model_artifacts (example_env accepting_db) ["u1"; "u2"]%string ["i1"]%string
         [[1]] [[2]] 1 [] empty_world) = Raise IndexError.
Proof.
  pose proof (X9_artifacts_outcome (example_env accepting_db) ["u1"; "u2"]%string
                ["i1"]%string [[1]] [[2]] 1 [] empty_world) as H.
  cbv zeta in H. destruct H as [_ H].
  destruct (fst (build_model_artifacts _ _ _ _ _ _ _ _)) as [[d v]|e].
  - destruct H as (Hlen & _). simpl in Hlen. lia.
  - destruct H as [-> _]. reflexivity.
Defined.

(** X10. [totalInteractions] adds up the lengths of all rows of the user
    factor array: the rows paired with a user id and the rows beyond the
    last user id, which get no entry in [userFactors]. *)
Theorem X10_total_interactions_counts_every_row :
  forall env user_ids article_ids user_factors article_factors n_components
         preferences w model_doc v w',
    build_model_artifacts env user_ids article_ids user_factors article_factors
      n_components preferences w = (Ok (model_doc, v), w') ->
    map u_factors (userFactors model_doc) = firstn (List.length user_ids) user_factors
    /\ totalInteractions (trainingStats model_doc) =
       (fold_right Z.add 0%Z
          (map (fun e => Z.of_nat (List.length (u_factors e))) (userFactors model_doc))
        + fold_right Z.add 0%Z
            (map (fun row => Z.of_nat (List.length row))
                 (skipn (List.length user_ids) user_factors)))%Z.
Proof.
  intros env user_ids article_ids user_factors article_factors n_components
         preferences w model_doc v w' H.
  apply build_model_artifacts_Ok in H.
  destruct H as (Hu & _ & HU & _ & Hstats & _).
  assert (Hrows : map u_factors (userFactors model_doc) =
                  firstn (List.length user_ids) user_factors).
  { rewrite HU, map_map. cbn [user_entry u_factors].
    rewrite <- (map_map snd (fun row => row)), map_id. apply combine_firstn, Hu. }
  split; [exact Hrows|].
  rewrite Hstats. cbn [totalInteractions].
  rewrite <- (map_map u_factors (fun row => Z.of_nat (List.length row))), Hrows.
  rewrite <- sum_lengths_app, firstn_skipn. reflexivity.
Qed.

Lemma X10_witness :
  exists model_doc,
    fst (build_model_artifacts (example_env accepting_db) ["u1"]%string ["i1"]%string
           [[1; 2]; [3; 4]] [[5; 6]] 2 [] empty_world)
      = Ok (model_doc, "v20240101_000000"%string)
    /\ List.length (userFactors model_doc) = 1%nat
    /\ totalInteractions (trainingStats model_doc) = 4%Z.
Proof.
  destruct (build_model_artifacts (example_env accepting_db) ["u1"]%string ["i1"]%string
              [[1; 2]; [3; 4]] [[5; 6]] 2 [] empty_world) as [[[d v]|e] w'] eqn:E;
    [|vm_compute in E; discriminate].
  assert (Hv : v = "v20240101_000000"%string) by (vm_compute in E; congruence).
  subst v. exists d. split; [reflexivity|].
  destruct (X10_total_interactions_counts_every_row _ _ _ _ _ _ _ _ _ _ _ E) as [Hrows Htot].
  split.
  - apply (f_equal (@List.length _)) in Hrows. rewrite length_map in Hrows. exact Hrows.
  - rewrite Htot, <- (map_map u_factors (fun row => Z.of_nat (List.length row))), Hrows.
    reflexivity.
Defined.

(** X11. [categoryWeights] lists each category that occurs in some
    preference record exactly once, in the order in which the categories
    are first met when the records are read in order. *)
Theorem X11_categories_in_first_seen_order :
  forall preferences,
    let met := map fst (flat_map category_scores preferences) in
    map category (category_weights_list preferences) = rev (nodup string_dec (rev met))
    /\ NoDup (map category (category_weights_list preferences))
    /\ forall c, In c (map category (category_weights_list preferences)) <-> In c met.
Proof.
  intros preferences met. subst met.
  rewrite categories_of_weights_list, keys_accumulate_category_weights.
  split; [reflexivity|]. split; [apply NoDup_rev, NoDup_nodup|].
  intros c. rewrite <- in_rev, nodup_In, <- in_rev. reflexivity.
Qed.

(** X12. When no category score is negative, every emitted weight lies
    between 0 and 1. *)
Theorem X12_weights_in_unit_interval :
  forall preferences,
    Forall (fun kv : string * Q => 0 <= snd kv) (flat_map category_scores preferences) ->
    forall cw, In cw (category_weights_list preferences) ->
               0 <= weight cw /\ weight cw <= 1.
Proof.
  intros preferences Hall cw Hin.
  apply accumulate_nonneg in Hall. rewrite Forall_forall in Hall.
  unfold category_weights_list, Dict.items in Hin.
  destruct (accumulate_category_weights preferences) as [|[c v] d] eqn:Eraw;
    [destruct Hin|].
  rewrite normalize_category_weights_cons in Hin. set (m := max_of v (map snd d)) in *.
  assert (Hupper : forall kv, In kv ((c, v) :: d) -> snd kv <= m).
  { intros kv Hkv. apply (max_of_upper v (map snd d)). exact (in_map snd _ kv Hkv). }
  destruct (Qpositive m) eqn:Hb.
  - apply Qpositive_iff in Hb. rewrite map_map in Hin. apply in_map_iff in Hin.
    destruct Hin as [kv [<- Hkv]]. cbn [weight fst snd]. split.
    + apply Qle_shift_div_l; [exact Hb|]. rewrite Qmult_0_l. apply Hall, Hkv.
    + apply Qle_shift_div_r; [exact Hb|]. rewrite Qmult_1_l. apply Hupper, Hkv.
  - apply in_map_iff in Hin. destruct Hin as [kv [<- Hkv]]. cbn [weight]. split.
    + apply Hall, Hkv.
    + apply (Qle_trans _ m); [apply Hupper, Hkv|].
      apply (Qle_trans _ 0); [|discriminate].
      apply Qnot_lt_le. intros Hpos. apply Qpositive_iff in Hpos. congruence.
Qed.

Lemma X12_witness :
  Forall (fun cw => 0 <= weight cw /\ weight cw <= 1)
         (category_weights_list example_preferences).
Proof.
  apply Forall_forall.
  apply (X12_weights_in_unit_interval example_preferences).
  repeat constructor; discriminate.
Defined.

(** ** Publishing *)

(** X13. A successful [upload_model_to_firestore] replaces whatever document
    was stored by [model_doc] and prints both of its lines; when the write
    raises, the stored document stays as it was and the confirmation line
    is not printed. After two successful uploads the second document is the
    stored one. *)
Theorem X13_upload_overwrites :
  forall db model_doc v w,
    let run := upload_model_to_firestore db model_doc v w in
    match ml_models_set db model_doc with
    | Ok _ =>
        fst run = Ok true
        /\ ml_models (snd run) = Some model_doc
        /\ stdout (snd run) = stdout w ++ [Uploading v; Uploaded]
        /\ forall model_doc' v',
             match ml_models_set db model_doc' with
             | Ok _ =>
                 ml_models (snd (upload_model_to_firestore db model_doc' v' (snd run)))
                 = Some model_doc'
             | Raise _ =>
                 ml_models (snd (upload_model_to_firestore db model_doc' v' (snd run)))
                 = Some model_doc
             end
    | Raise e =>
        fst run = Raise e
        /\ ml_models (snd run) = ml_models w
        /\ stdout (snd run) = stdout w ++ [Uploading v]
    end.
Proof.
  intros db model_doc v w run. subst run.
  rewrite upload_model_to_firestore_run.
  destruct (ml_models_set db model_doc) as [u|e]; cbn [fst snd ml_models stdout commit];
    repeat split.
  intros model_doc' v'. rewrite upload_model_to_firestore_run.
  destruct (ml_models_set db model_doc'); reflexivity.
Qed.

(** ** The pipeline *)

(** X14. [main] never lets an exception escape: it always returns 0 or 1,
    and what it prints starts with the banner and the initialisation
    line. *)
Theorem X14_main_returns_zero_or_one :
  forall env store,
    exists code rest,
      fst (main env (initial store)) = Ok code
      /\ (code = 0%Z \/ code = 1%Z)
      /\ stdout (snd (main env (initial store))) = banner ++ rest.
Proof.
  intros env store.
  destruct (main_classified env store) as (code & written & lines & Hout & Hrun).
  rewrite Hrun. exists code.
  destruct Hout as [e Hfb'|db' e Hfb' Hui'|db' ui' e Hfb' Hui' Hup'
                   |db' ui' up' e Hfb' Hui' Hup' Hub'
                   |db' ui' up' ub' r written lines Hfb' Hui' Hup' Hub' Hout];
    cbn [fst snd stdout commit initial app]; eexists; split; try reflexivity;
    (split; [|reflexivity]); auto.
  destruct Hout; cbn [exit_code]; auto.
Qed.

(** X15. [main] changes the stored document only on the path that ends with
    the completion line: a run that returns 1, or that does not print the
    upload confirmation, leaves the stored document as it was; a run that
    prints the confirmation returns 0, prints the completion line with the
    version of the document it stored, and that document is one the store
    accepted. *)
Theorem X15_store_written_only_on_success :
  forall env store,
    let run := main env (initial store) in
    (fst run = Ok 1%Z -> ml_models (snd run) = store)
    /\ (~ In Uploaded (stdout (snd run)) -> ml_models (snd run) = store)
    /\ (In Uploaded (stdout (snd run)) ->
        fst run = Ok 0%Z
        /\ exists db model_doc,
             firebase env = Ok db
             /\ ml_models_set db model_doc = Ok tt
             /\ ml_models (snd run) = Some model_doc
             /\ In (TrainingComplete (version model_doc)) (stdout (snd run))).
Proof.
  intros env store run. subst run.
  destruct (main_classified env store) as (code & written & lines & Hout & Hrun).
  rewrite Hrun. clear Hrun.
  destruct Hout as [e Hfb'|db' e Hfb' Hui'|db' ui' e Hfb' Hui' Hup'
                   |db' ui' up' e Hfb' Hui' Hup' Hub'
                   |db' ui' up' ub' r written lines Hfb' Hui' Hup' Hub' Hout].
  5: destruct Hout.
  all: show_run.
  all: split; [intros Hcode; try reflexivity; try discriminate Hcode|].
  all: split; [intros Hno; try reflexivity|intros Hyes].
  all: try (exfalso; intuition discriminate).
  split; [reflexivity|]. do 2 eexists.
  split; [eassumption|]. split; [eassumption|]. split; [reflexivity|].
  repeat (first [left; reflexivity | right]).
Qed.

Lemma X15_witness :
  ml_models (snd (main (example_env scenario_db_rejecting) (initial None))) = None
  /\ fst (main (example_env scenario_db) (initial None)) = Ok 0%Z.
Proof.
  split.
  - apply (proj1 (X15_store_written_only_on_success
                    (example_env scenario_db_rejecting) None)).
    reflexivity.
  - apply (proj2 (proj2 (X15_store_written_only_on_success
                           (example_env scenario_db) None))).
    vm_compute. tauto.
Defined.

(** X16. When initialisation or one of the three fetches raises, [main]
    returns 1 with the exception reported on its last line, whatever the
    other data are: the minimum-requirements check is not reached, so no
    skip line and no line of a later stage is printed, and the stored
    document stays as it was. *)
Theorem X16_failure_before_the_check :
  forall env store,
    (exists e, firebase env = Raise e)
    \/ (exists db, firebase env = Ok db
                   /\ ((exists e, user_interactions db = Raise e)
                       \/ (exists e, user_preferences db = Raise e)
                       \/ (exists e, user_bookmarks db = Raise e))) ->
    let run := main env (initial store) in
    fst run = Ok 1%Z
    /\ ml_models (snd run) = store
    /\ ~ In SkippingTraining (stdout (snd run))
    /\ filter stage_line (stdout (snd run)) = []
    /\ exists e, last (stdout (snd run)) Rule = TrainingFailed e.
Proof.
  intros env store Hfail run. subst run.
  destruct (main_classified env store) as (code & written & lines & Hout & Hrun).
  rewrite Hrun. clear Hrun.
  destruct Hout as [e Hfb'|db' e Hfb' Hui'|db' ui' e Hfb' Hui' Hup'
                   |db' ui' up' e Hfb' Hui' Hup' Hub'
                   |db' ui' up' ub' r written lines Hfb' Hui' Hup' Hub' Hout].
  1-4: show_run; repeat split; try (intuition discriminate); eexists; reflexivity.
  exfalso. destruct Hfail as [[e He]|[db [Hdb [[e He]|[[e He]|[e He]]]]]]; congruence.
Qed.

Lemma X16_witness :
  fst (main {| firebase := Raise (ValueError "No Firebase credentials found!");
               TruncatedSVD := zero_svd;
               now_strftime := "20240101_000000";
               now_isoformat := "2024-01-01T00:00:00" |} (initial None)) = Ok 1%Z.
Proof.
  refine (proj1 (X16_failure_before_the_check _ None _)).
  left. eexists. reflexivity.
Defined.

(** X17. The successful path. When initialisation and the three fetches
    return, both thresholds are met, the solver returns at least one
    transformed row per user and at least one component column per article,
    and the store accepts the document, [main] returns 0 and the stored
    document lists the distinct user ids and article ids of the events in
    ascending order, each with its factor row, together with the category
    weights of the fetched preferences. *)
Theorem X17_successful_run :
  forall env db ui up ub U C store,
    firebase env = Ok db ->
    user_interactions db = Ok ui ->
    user_preferences db = Ok up ->
    user_bookmarks db = Ok ub ->
    let interactions := interactions_of_docs ui in
    let preferences := preferences_of_docs up in
    let bookmarks := bookmarks_of_docs ub in
    let matrix := run_matrix interactions bookmarks in
    gate_passed interactions ->
    TruncatedSVD env (run_rank interactions bookmarks) (values matrix) = Ok (U, C) ->
    (List.length (index matrix) <= List.length U)%nat ->
    (List.length (columns matrix) <= List.length (transpose C))%nat ->
    (forall model_doc, ml_models_set db model_doc = Ok tt) ->
    let run := main env (initial store) in
    fst run = Ok 0%Z
    /\ exists model_doc,
         ml_models (snd run) = Some model_doc
         /\ map userId (userFactors model_doc) = sorted_unique (event_users interactions bookmarks)
         /\ map articleId (articleFactors model_doc) =
            sorted_unique (event_articles interactions bookmarks)
         /\ map u_factors (userFactors model_doc) = firstn (List.length (index matrix)) U
         /\ map a_factors (articleFactors model_doc) =
            firstn (List.length (columns matrix)) (transpose C)
         /\ nComponents model_doc = run_rank interactions bookmarks
         /\ categoryWeights model_doc = category_weights_list preferences
         /\ In (TrainingComplete (version model_doc)) (stdout (snd run)).
Proof.
  intros env db ui up ub U C store Hfb Hui Hup Hub interactions preferences bookmarks
         matrix Hgate Hsvd HU HC Hset run.
  subst run matrix interactions preferences bookmarks.
  destruct (main_classified env store) as (code & written & lines & Hout & Hrun).
  rewrite Hrun. clear Hrun.
  destruct Hout as [e Hfb'|db' e Hfb' Hui'|db' ui' e Hfb' Hui' Hup'
                   |db' ui' up' e Hfb' Hui' Hup' Hub'
                   |db' ui' up' ub' r written lines Hfb' Hui' Hup' Hub' Hout];
    same_fetch.
  pose proof (gate_scores_nonempty _ (bookmarks_of_docs ub) Hgate) as Hne.
  destruct (user_factors_list_of_cases
              (index (run_matrix (interactions_of_docs ui) (bookmarks_of_docs ub))) U)
    as [[_ Eu]|[Hlt _]]; [|lia].
  destruct (article_factors_list_of_cases
              (columns (run_matrix (interactions_of_docs ui) (bookmarks_of_docs ub)))
              (transpose C)) as [[_ Ea]|[Hlt _]]; [|lia].
  destruct Hout as [Hlow|_ Hlow|_ Hempty|e _ _ Hsvd'|U' C' e _ _ Hsvd' Hul
                   |U' C' ul e _ _ Hsvd' Hul Hal|U' C' ul al e _ _ Hsvd' Hul Hal Hset'
                   |U' C' ul al _ _ Hsvd' Hul Hal Hset'].
  1-2: exfalso; unfold gate_passed in Hgate; lia.
  1: contradiction.
  1: congruence.
  1-4: assert (EUC : (U', C') = (U, C)) by congruence; injection EUC as -> ->.
  1-2: congruence.
  1: rewrite Hset in Hset'; discriminate.
  destruct (run_doc_entries env (interactions_of_docs ui) (preferences_of_docs up)
              (bookmarks_of_docs ub) U (transpose C) ul al Hul Hal)
    as (H1 & H2 & H3 & H4).
  cbn [exit_code fst snd ml_models commit]. split; [reflexivity|].
  eexists. split; [reflexivity|].
  repeat (split; [assumption || reflexivity|]).
  show_run. repeat (first [left; reflexivity | right]).
Qed.

Lemma X17_witness :
  fst (main (example_env scenario_db) (initial None)) = Ok 0%Z
  /\ exists model_doc,
       ml_models (snd (main (example_env scenario_db) (initial None))) = Some model_doc
       /\ map userId (userFactors model_doc) = ["u1"; "u2"]%string.
Proof.
  destruct (X17_successful_run (example_env scenario_db) scenario_db scenario_docs [] []
              [[0]; [0]] [[0; 0]] None eq_refl eq_refl eq_refl eq_refl)
    as (Hcode & doc & Hdoc & Hids & _).
  - split; vm_compute; discriminate.
  - reflexivity.
  - vm_compute. lia.
  - vm_compute. lia.
  - intros model_doc. reflexivity.
  - split; [exact Hcode|]. exists doc. split; [exact Hdoc|]. rewrite Hids. reflexivity.
Defined.

(** X18. Every document [main] stores has the fixed algorithm tag, a rank
    between 1 and 10 that does not exceed the larger of 1 and the smaller
    matrix dimension minus 1, at least two users and one article, as many
    [userFactors] and [articleFactors] entries as [totalUsers] and
    [totalArticles] say, and both lists in ascending order of identifier
    without repetition. *)
Theorem X18_stored_document_invariants :
  forall env store,
    In Uploaded (stdout (snd (main env (initial store)))) ->
    exists model_doc,
      ml_models (snd (main env (initial store))) = Some model_doc
      /\ algorithmType model_doc = "collaborative_filtering_svd"%string
      /\ version model_doc = ("v" ++ now_strftime env)%string
      /\ (1 <= nComponents model_doc <= 10)%Z
      /\ (nComponents model_doc <=
          Z.max 1 (Z.min (totalUsers (trainingStats model_doc))
                         (totalArticles (trainingStats model_doc)) - 1))%Z
      /\ (2 <= totalUsers (trainingStats model_doc))%Z
      /\ (1 <= totalArticles (trainingStats model_doc))%Z
      /\ Z.of_nat (List.length (userFactors model_doc)) = totalUsers (trainingStats model_doc)
      /\ Z.of_nat (List.length (articleFactors model_doc)) =
         totalArticles (trainingStats model_doc)
      /\ StronglySorted (fun x y => String.leb x y = true)
           (map userId (userFactors model_doc))
      /\ StronglySorted (fun x y => String.leb x y = true)
           (map articleId (articleFactors model_doc))
      /\ NoDup (map userId (userFactors model_doc))
      /\ NoDup (map articleId (articleFactors model_doc)).
Proof.
  intros env store.
  destruct (main_classified env store) as (code & written & lines & Hout & Hrun).
  rewrite Hrun. clear Hrun.
  destruct Hout as [e Hfb'|db' e Hfb' Hui'|db' ui' e Hfb' Hui' Hup'
                   |db' ui' up' e Hfb' Hui' Hup' Hub'
                   |db' ui' up' ub' r written lines Hfb' Hui' Hup' Hub' Hout].
  5: destruct Hout as [| | | | | | |U C ul al Hgate Hne Hsvd Hul Hal Hset].
  all: cbn [fst snd stdout ml_models commit initial app handler_lines]; unfold banner;
    cbn [app In]; intros Hyes.
  all: try (exfalso; intuition discriminate).
  clear Hyes.
  set (I := interactions_of_docs ui') in *. set (P := preferences_of_docs up') in *.
  set (B := bookmarks_of_docs ub') in *.
  destruct (run_doc_entries env I P B U (transpose C) ul al Hul Hal) as (H1 & H2 & _ & _).
  destruct (run_rank_bounds I B) as (Hr1 & Hr2).
  pose proof (distinct_users_le_rows I B) as Hrows.
  pose proof (columns_nonempty I B Hne) as Hcols.
  destruct Hgate as [Hgu _]. unfold MIN_USERS, N_COMPONENTS in *.
  exists (run_doc env I P B U ul al). split; [reflexivity|].
  assert (Hlu : List.length ul = List.length (index (run_matrix I B))).
  { apply (f_equal (@List.length _)) in H1.
    rewrite length_map, <- index_run_matrix in H1. exact H1. }
  assert (Hla : List.length al = List.length (columns (run_matrix I B))).
  { apply (f_equal (@List.length _)) in H2.
    rewrite length_map, <- columns_run_matrix in H2. exact H2. }
  rewrite H1, H2.
  unfold run_doc, assemble_model_doc, run_version.
  cbn [algorithmType version nComponents trainingStats totalUsers totalArticles
       userFactors articleFactors].
  rewrite Hlu, Hla.
  repeat split; try reflexivity; try lia;
    try apply sorted_unique_StronglySorted; try apply sorted_unique_NoDup.
Qed.

Lemma X18_witness :
  exists model_doc,
    ml_models (snd (main (example_env scenario_db) (initial None))) = Some model_doc
    /\ (1 <= nComponents model_doc <= 10)%Z.
Proof.
  destruct (X18_stored_document_invariants (example_env scenario_db) None)
    as (doc & Hdoc & _ & _ & Hrank & _).
  - vm_compute. tauto.
  - exists doc. split; assumption.
Defined.

(** ** Fetching *)

(** X19. [fetch_user_interactions] never writes the stored document. When
    the collection read returns, it yields one record per article document,
    in document order, carrying the owning user's id, the document's id and
    the fields with their defaults (0 clicks, 0 seconds, not bookmarked,
    category unknown), and prints their number; a user without article
    documents yields no record. When the read raises, the exception is
    raised after the first line. *)
Theorem X19_fetched_interactions :
  forall db w,
    let run := fetch_user_interactions db w in
    ml_models (snd run) = ml_models w
    /\ match user_interactions db with
       | Ok users =>
           exists l,
             fst run = Ok l
             /\ stdout (snd run) =
                stdout w ++ [FetchingInteractions; FetchedInteractions (List.length l)]
             /\ List.length l = list_sum (map (fun u => List.length (snd u)) users)
             /\ map i_user_id l = flat_map (fun u => map (fun _ => fst u) (snd u)) users
             /\ map i_article_id l = flat_map (fun u => map fst (snd u)) users
             /\ (forall i, In i l <->
                   exists user_id articles article_id data,
                     In (user_id, articles) users /\ In (article_id, data) articles
                     /\ i = interaction_record user_id article_id data)
       | Raise e =>
           fst run = Raise e
           /\ stdout (snd run) = stdout w ++ [FetchingInteractions]
       end.
Proof.
  intros db w run. subst run. rewrite fetch_user_interactions_run.
  destruct (user_interactions db) as [users|e]; cbn [fst snd ml_models stdout commit];
    [|repeat split].
  split; [reflexivity|]. exists (interactions_of_docs users).
  split; [reflexivity|]. split; [reflexivity|]. split; [|split; [|split]].
  - unfold interactions_of_docs. rewrite length_flat_map_sum.
    f_equal. apply map_ext. intros u. apply length_map.
  - unfold interactions_of_docs. rewrite map_flat_map.
    apply flat_map_ext_eq. intros u. rewrite map_map. reflexivity.
  - unfold interactions_of_docs. rewrite map_flat_map.
    apply flat_map_ext_eq. intros u. rewrite map_map. reflexivity.
  - intros i. apply in_interactions_of_docs.
Qed.

(** X20. [fetch_user_preferences] yields one record per user whose
    preferences document exists, in user order, and skips the other users;
    a document without category scores gives an empty score map. It never
    writes the stored document, and a failing read raises after the first
    line. *)
Theorem X20_fetched_preferences :
  forall db w,
    let run := fetch_user_preferences db w in
    ml_models (snd run) = ml_models w
    /\ match user_preferences db with
       | Ok users =>
           exists l,
             fst run = Ok l
             /\ stdout (snd run) =
                stdout w ++ [FetchingPreferences; FetchedPreferences (List.length l)]
             /\ map p_user_id l = map fst (filter has_preferences users)
             /\ (forall p, In p l <->
                   exists user_id data,
                     In (user_id, Some data) users
                     /\ p = {| p_user_id := user_id;
                               category_scores :=
                                 match categoryScores data with
                                 | Some scores => scores
                                 | None => []
                                 end;
                               total_interactions :=
                                 match pref_totalInteractions data with
                                 | Some n => n
                                 | None => 0%Z
                                 end |})
       | Raise e =>
           fst run = Raise e
           /\ stdout (snd run) = stdout w ++ [FetchingPreferences]
       end.
Proof.
  intros db w run. subst run. rewrite fetch_user_preferences_run.
  destruct (user_preferences db) as [users|e]; cbn [fst snd ml_models stdout commit];
    [|repeat split].
  split; [reflexivity|]. exists (preferences_of_docs users).
  split; [reflexivity|]. split; [reflexivity|].
  split; [apply preferences_of_docs_users|].
  intros p. unfold preferences_of_docs. rewrite in_flat_map. split.
  - intros [[uid [data|]] [Hu Hp]]; [|destruct Hp].
    destruct Hp as [<-|[]]. exists uid, data. split; [exact Hu|reflexivity].
  - intros (uid & data & Hu & ->). exists (uid, Some data).
    split; [exact Hu|]. left. reflexivity.
Qed.

(** X21. [fetch_bookmarks] yields one record per bookmark document, in
    document order, carrying the owning user's id, the document's id and
    the category (unknown when the field is missing); it never writes the
    stored document, and a failing read raises after the first line. *)
Theorem X21_fetched_bookmarks :
  forall db w,
    let run := fetch_bookmarks db w in
    ml_models (snd run) = ml_models w
    /\ match user_bookmarks db with
       | Ok users =>
           exists l,
             fst run = Ok l
             /\ stdout (snd run) =
                stdout w ++ [FetchingBookmarks; FetchedBookmarks (List.length l)]
             /\ List.length l = list_sum (map (fun u => List.length (snd u)) users)
             /\ map b_user_id l = flat_map (fun u => map (fun _ => fst u) (snd u)) users
             /\ map b_article_id l = flat_map (fun u => map fst (snd u)) users
             /\ (forall b, In b l <->
                   exists user_id docs article_id data,
                     In (user_id, docs) users /\ In (article_id, data) docs
                     /\ b = {| b_user_id := user_id; b_article_id := article_id;
                               b_category := match bookmark_category data with
                                             | Some c => c
                                             | None => "unknown"%string
                                             end |})
       | Raise e =>
           fst run = Raise e
           /\ stdout (snd run) = stdout w ++ [FetchingBookmarks]
       end.
Proof.
  intros db w run. subst run. rewrite fetch_bookmarks_run.
  destruct (user_bookmarks db) as [users|e]; cbn [fst snd ml_models stdout commit];
    [|repeat split].
  split; [reflexivity|]. exists (bookmarks_of_docs users).
  split; [reflexivity|]. split; [reflexivity|]. split; [|split; [|split]].
  - unfold bookmarks_of_docs. rewrite length_flat_map_sum.
    f_equal. apply map_ext. intros u. apply length_map.
  - unfold bookmarks_of_docs. rewrite map_flat_map.
    apply flat_map_ext_eq. intros u. rewrite map_map. reflexivity.
  - unfold bookmarks_of_docs. rewrite map_flat_map.
    apply flat_map_ext_eq. intros u. rewrite map_map. reflexivity.
  - intros b. apply in_bookmarks_of_docs.
Qed.

(** ** Firebase initialisation *)

Ltac init_cases :=
  unfold Credentials.init_firebase, Credentials.initialize;
  cbn [Credentials.apps Credentials.say Credentials.FIREBASE_SERVICE_ACCOUNT_JSON
       Credentials.local_key_exists];
  repeat match goal with
         | H : ?x = _ |- context [?x] => rewrite H
         end;
  repeat match goal with
         | |- context [if ?b then _ else _] =>
             let E := fresh "Etest" in destruct b eqn:E
         end;
  repeat match goal with
         | |- context [Credentials.call ?r _ _] =>
             let E := fresh "Ecall" in destruct r eqn:E; cbn [Credentials.call]
         end;
  cbn [fst snd Credentials.apps Credentials.temp_files Credentials.console
       Credentials.say Credentials.set_temp_files Credentials.register_app
       Credentials.FIREBASE_SERVICE_ACCOUNT_JSON Credentials.local_key_exists].

(** X22. When a Firebase app is already registered, [init_firebase] prints
    its two lines and returns the Firestore client at once: the result does
    not depend on the environment variable, the key file or any credential
    call, no temporary file is created and the registration stays. *)
Theorem X22_already_initialised :
  forall (Json Cred : Type) (sdk sdk' : Credentials.Sdk Json Cred) h,
    Credentials.apps h = true ->
    Credentials.client sdk' = Credentials.client sdk ->
    let run := Credentials.init_firebase sdk h in
    fst run = Credentials.client sdk
    /\ Credentials.init_firebase sdk' h = run
    /\ Credentials.apps (snd run) = true
    /\ Credentials.temp_files (snd run) = Credentials.temp_files h
    /\ Credentials.console (snd run) =
       Credentials.console h ++ [Credentials.Initializing; Credentials.AlreadyInitialized].
Proof.
  intros Json Cred sdk sdk' h Happs Hclient run. subst run.
  unfold Credentials.init_firebase.
  cbn [Credentials.apps Credentials.say]. rewrite Happs, Hclient.
  cbn [fst snd Credentials.apps Credentials.temp_files Credentials.console
       Credentials.say].
  rewrite <- app_assoc. repeat split; assumption.
Qed.

Lemma X22_witness :
  fst (Credentials.init_firebase (example_sdk (Raise IndexError))
         (Credentials.register_app fresh_host)) = Ok accepting_db.
Proof.
  exact (proj1 (X22_already_initialised string string (example_sdk (Raise IndexError))
                  (example_sdk (Ok "cred"%string)) (Credentials.register_app fresh_host)
                  eq_refl eq_refl)).
Defined.

(** X23. With no app registered, the environment variable unset or empty
    and no local key file, [init_firebase] raises the [ValueError] about
    missing credentials after its first line, without registering an app or
    creating a file. *)
Theorem X23_no_credentials :
  forall (Json Cred : Type) (sdk : Credentials.Sdk Json Cred) h,
    Credentials.apps h = false ->
    (Credentials.FIREBASE_SERVICE_ACCOUNT_JSON h = None
     \/ Credentials.FIREBASE_SERVICE_ACCOUNT_JSON h = Some ""%string) ->
    Credentials.local_key_exists h = false ->
    let run := Credentials.init_firebase sdk h in
    fst run = Raise Credentials.no_credentials
    /\ Credentials.apps (snd run) = false
    /\ Credentials.temp_files (snd run) = Credentials.temp_files h
    /\ Credentials.console (snd run) = Credentials.console h ++ [Credentials.Initializing].
Proof.
  intros Json Cred sdk h Happs Henv Hkey run. subst run.
  unfold Credentials.init_firebase.
  cbn [Credentials.apps Credentials.say Credentials.FIREBASE_SERVICE_ACCOUNT_JSON
       Credentials.local_key_exists].
  rewrite Happs, Hkey.
  destruct Henv as [-> | ->]; cbn; repeat split; assumption.
Qed.

Lemma X23_witness :
  fst (Credentials.init_firebase (example_sdk (Ok "cred"%string)) unconfigured_host)
  = Raise Credentials.no_credentials.
Proof.
  refine (proj1 (X23_no_credentials string string (example_sdk (Ok "cred"%string))
                   unconfigured_host eq_refl _ eq_refl)).
  right. reflexivity.
Defined.

(** X24. [init_firebase] leaves as many temporary credential files as it
    found whenever it returns, and an app is registered afterwards exactly
    when one was registered before or [initialize_app] returned. A
    temporary file is left behind only when writing it, reading the
    certificate from it or deleting it raised. *)
Theorem X24_temporary_files_and_registration :
  forall (Json Cred : Type) (sdk : Credentials.Sdk Json Cred) h,
    let run := Credentials.init_firebase sdk h in
    (forall db, fst run = Ok db ->
        Credentials.temp_files (snd run) = Credentials.temp_files h
        /\ Credentials.apps (snd run) = true
        /\ Credentials.client sdk = Ok db)
    /\ (Credentials.apps (snd run) = true ->
        Credentials.apps h = true
        \/ exists cred, Credentials.initialize_app sdk cred = Ok tt)
    /\ (Credentials.temp_files (snd run) = Credentials.temp_files h
        \/ (Credentials.temp_files (snd run) = S (Credentials.temp_files h)
            /\ exists e, fst run = Raise e
                 /\ ((exists j, Credentials.json_dump sdk j = Raise e)
                     \/ (exists j, Credentials.Certificate_temp sdk j = Raise e)
                     \/ Credentials.unlink sdk = Raise e))).
Proof.
  intros Json Cred sdk h run. subst run.
  destruct (Credentials.apps h) eqn:Happs; init_cases.
  all: repeat match goal with u : unit |- _ => destruct u end.
  all: split; [intros db Hdb; try discriminate Hdb; repeat split; auto|].
  all: split; [intros Hreg; try congruence; eauto|].
  all: try (left; reflexivity).
  all: right; split; [reflexivity|]; eexists; split; [reflexivity|]; eauto 6.
Qed.

(** X25. When the environment variable is set and decodes, but
    [credentials.Certificate] rejects the temporary file, [init_firebase]
    raises that exception with the temporary credential file still on disk
    and no app registered. *)
Theorem X25_rejected_certificate_leaves_file :
  forall (Json Cred : Type) (sdk : Credentials.Sdk Json Cred) h s creds_json creds_dict e,
    Credentials.apps h = false ->
    Credentials.FIREBASE_SERVICE_ACCOUNT_JSON h = Some s ->
    s <> ""%string ->
    Credentials.b64decode_utf8 sdk s = Ok creds_json ->
    Credentials.json_loads sdk creds_json = Ok creds_dict ->
    Credentials.NamedTemporaryFile sdk = Ok tt ->
    Credentials.json_dump sdk creds_dict = Ok tt ->
    Credentials.Certificate_temp sdk creds_dict = Raise e ->
    let run := Credentials.init_firebase sdk h in
    fst run = Raise e
    /\ Credentials.temp_files (snd run) = S (Credentials.temp_files h)
    /\ Credentials.apps (snd run) = false
    /\ Credentials.console (snd run) =
       Credentials.console h ++ [Credentials.Initializing; Credentials.DecodingCredentials].
Proof.
  intros Json Cred sdk h s creds_json creds_dict e Happs Henv Hs Hdec Hjson Htmp Hdump
         Hcert run. subst run.
  unfold Credentials.init_firebase.
  cbn [Credentials.apps Credentials.say Credentials.FIREBASE_SERVICE_ACCOUNT_JSON
       Credentials.local_key_exists].
  rewrite Happs, Henv. unfold Credentials.missing.
  destruct (String.eqb_spec s ""); [contradiction|].
  rewrite Hdec. cbn [Credentials.call]. rewrite Hjson. cbn [Credentials.call].
  rewrite Htmp. cbn [Credentials.call]. rewrite Hdump. cbn [Credentials.call].
  rewrite Hcert. cbn. rewrite <- app_assoc. repeat split; assumption.
Qed.

Lemma X25_witness :
  Credentials.temp_files
    (snd (Credentials.init_firebase (example_sdk (Raise (ValueError "Invalid certificate")))
            fresh_host)) = 1%nat.
Proof.
  refine (proj1 (proj2 (X25_rejected_certificate_leaves_file string string
            (example_sdk (Raise (ValueError "Invalid certificate"))) fresh_host
            _ _ _ _ eq_refl eq_refl _ eq_refl eq_refl eq_refl eq_refl eq_refl))).
  discriminate.
Defined.

(** X26. After [init_firebase] has returned a client, calling it again
    takes the short path: it returns the same client, prints the
    already-initialised line and touches neither credentials nor files. *)
Theorem X26_second_call_is_short :
  forall (Json Cred : Type) (sdk : Credentials.Sdk Json Cred) h db h',
    Credentials.init_firebase sdk h = (Ok db, h') ->
    Credentials.init_firebase sdk h' =
      (Ok db, Credentials.say Credentials.AlreadyInitialized
                (Credentials.say Credentials.Initializing h'))
    /\ Credentials.temp_files h' = Credentials.temp_files h.
Proof.
  intros Json Cred sdk h db h' Hrun.
  assert (Hfacts : Credentials.apps h' = true /\ Credentials.client sdk = Ok db
                   /\ Credentials.temp_files h' = Credentials.temp_files h).
  { revert Hrun. destruct (Credentials.apps h) eqn:Happs; init_cases.
    all: repeat match goal with u : unit |- _ => destruct u end.
    all: intros Hrun; try discriminate Hrun.
    all: injection Hrun as Hdb <-; cbn; repeat split; auto; congruence. }
  destruct Hfacts as (Happs' & Hclient & Htemp). split; [|exact Htemp].
  unfold Credentials.init_firebase. cbn [Credentials.apps Credentials.say].
  rewrite Happs', Hclient. reflexivity.
Qed.

Lemma X26_witness :
  fst (Credentials.init_firebase (example_sdk (Ok "cred"%string))
         (snd (Credentials.init_firebase (example_sdk (Ok "cred"%string)) fresh_host)))
  = Ok accepting_db.
Proof.
  exact (f_equal fst (proj1 (X26_second_call_is_short string string
           (example_sdk (Ok "cred"%string)) fresh_host accepting_db
           (snd (Credentials.init_firebase (example_sdk (Ok "cred"%string)) fresh_host))
           eq_refl))).
Defined.

(** X27. A run on a host without credentials (no app registered, the
    variable unset or empty, no local key file) ends at once: [main] prints
    the banner, the initialisation line and the failure line with the
    [ValueError], fetches nothing, leaves the stored document as it was and
    returns 1. *)
Theorem X27_run_without_credentials :
  forall (Json Cred : Type) (sdk : Credentials.Sdk Json Cred) h svd stamp iso store,
    Credentials.apps h = false ->
    Credentials.missing (Credentials.FIREBASE_SERVICE_ACCOUNT_JSON h) = true ->
    Credentials.local_key_exists h = false ->
    main (host_env sdk h svd stamp iso) (initial store) =
    (Ok 1%Z,
     {| ml_models := store;
        stdout := [Rule; Title; Rule; Blank; InitializingFirebase;
                   TrainingFailed Credentials.no_credentials] |}).
Proof.
  intros Json Cred sdk h svd stamp iso store Happs Henv Hkey.
  apply main_init_raised. unfold host_env. cbn [firebase].
  rewrite (init_without_credentials sdk h Happs Henv Hkey). reflexivity.
Qed.

Lemma X27_witness :
  fst (main (host_env (example_sdk (Ok "cred"%string)) unconfigured_host zero_svd
               "20240101_000000" "2024-01-01T00:00:00") (initial None)) = Ok 1%Z.
Proof.
  exact (f_equal fst (X27_run_without_credentials string string
           (example_sdk (Ok "cred"%string)) unconfigured_host zero_svd
           "20240101_000000"%string "2024-01-01T00:00:00"%string None
           eq_refl eq_refl eq_refl)).
Defined.

(** X28. The skip line names the first threshold that fails: with the
    fetched data, the line about too few users is printed, with the number
    of distinct users, exactly when there are fewer than 2; the line about
    too few interactions is printed, with the number of events, exactly when
    there are at least 2 users and fewer than 3 events. *)
Theorem X28_skip_reason :
  forall env db ui up ub store,
    firebase env = Ok db ->
    user_interactions db = Ok ui ->
    user_preferences db = Ok up ->
    user_bookmarks db = Ok ub ->
    let interactions := interactions_of_docs ui in
    let users := Z.of_nat (distinct_users interactions) in
    let events := Z.of_nat (List.length interactions) in
    let printed := stdout (snd (main env (initial store))) in
    (forall n, In (NotEnoughUsers n) printed <->
               n = distinct_users interactions /\ (users < 2)%Z)
    /\ (forall n, In (NotEnoughInteractions n) printed <->
                  n = List.length interactions /\ (2 <= users)%Z /\ (events < 3)%Z).
Proof.
  intros env db ui up ub store Hfb Hui Hup Hub interactions users events printed.
  subst printed users events interactions.
  destruct (main_classified env store) as (code & written & lines & Hout & Hrun).
  rewrite Hrun. clear Hrun.
  destruct Hout as [e Hfb'|db' e Hfb' Hui'|db' ui' e Hfb' Hui' Hup'
                   |db' ui' up' e Hfb' Hui' Hup' Hub'
                   |db' ui' up' ub' r written lines Hfb' Hui' Hup' Hub' Hout];
    same_fetch.
  destruct Hout; show_run; split; intros n; split.
  all: try (intros Hin; exfalso; intuition (try discriminate; try lia); fail).
  all: try (intros Hin; split; [intuition congruence|lia]).
  all: try (intros [-> _]; auto 20).
Qed.

Lemma X28_witness :
  In (NotEnoughUsers 1)
     (stdout (snd (main (example_env single_user_db) (initial None)))).
Proof.
  apply (proj1 (X28_skip_reason (example_env single_user_db) single_user_db
                  _ _ _ None eq_refl eq_refl eq_refl eq_refl)).
  split; reflexivity.
Defined.
